(** * Shipping-order generator (src/app.py): a shallow embedding

    The development follows [ShippingOrderGenerator] of src/app.py:
    the cell readers ([_safe_str], [_safe_int]), the builders of the
    indices ([_identify_columns], [_build_product_id_index],
    [_build_supplier_cache], [_build_image_cache]), the reference lookups
    ([_get_row_by_product_id], [get_supplier_group], [find_image_data],
    [find_barcode_data], [get_product_name]), the quantity calculator
    ([calculate_total_quantity]), the processing of a store
    ([process_order_data]), the merger ([merge_orders]), the warehouse
    grouping ([group_by_warehouse]), the document assembler
    ([create_excel]) and the store-column guard of [generate_all_orders].

    Modelling conventions.
    - A Python [str] is a Rocq [string] holding its UTF-8 bytes.  Substring
      tests on valid UTF-8 agree with substring tests on code points.  The
      character classes (white space, decimal digits, letter case) are the
      ASCII ones.
    - A table cell (Python [Any]) is a [value]: the missing marker NaN, a
      text or an integer.  A cell that pandas holds as a float takes part
      in this code through [str], [float] and [pd.isna] only, and is
      written here as the text of its [repr] (123.0 as the text "123.0").
      The missing marker is one value: as a dictionary key it is equal to
      itself, like the one [nan] object that pandas stores.
    - Python [int] is [Z]; [float] is a binary64 value kept as an exact
      dyadic number, with correctly rounded conversions.  The cap that
      recent interpreters put on the number of digits of a conversion
      between [int] and [str] (4300 by default) is not modelled.
    - A [dict] whose iteration order is observed is an association list in
      insertion order ([odict]); a [dict] that is only looked up is a
      [gmap].
    - Exceptions are the error monad [res]. *)

From Stdlib Require Import ZArith Ascii String List Lia.
From Stdlib.Strings Require Import Byte.
From stdpp Require Import base option list gmap strings pretty sorting.

Open Scope Z_scope.

(** ** Exceptions *)

Inductive exn : Set :=
  | ValueError | TypeError | OverflowError | IndexError.

Inductive res (A : Type) : Type :=
  | Ok (a : A)
  | Raise (e : exn).
Arguments Ok {A} a.
Arguments Raise {A} e.

#[global] Instance res_ret : MRet res := λ A a, Ok a.

#[global] Instance res_bind : MBind res := λ A B k c,
  match c with
  | Ok a => k a
  | Raise e => Raise e
  end.

(** [try: c except (ValueError, TypeError): h] *)
Definition except_value_type {A} (c : res A) (h : A) : res A :=
  match c with
  | Raise ValueError | Raise TypeError => Ok h
  | _ => c
  end.

(** ** Strings *)

(** [str.isspace] on the ASCII range: TAB..CR, FS..US and the blank. *)
Definition is_space (c : ascii) : bool :=
  match c with
  | "009" | "010" | "011" | "012" | "013"
  | "028" | "029" | "030" | "031" | " " => true
  | _ => false
  end%char.

(** [Py_ISSPACE] of the C runtime ([float()] trims with it). *)
Definition is_cspace (c : ascii) : bool :=
  match c with
  | "009" | "010" | "011" | "012" | "013" | " " => true
  | _ => false
  end%char.

Fixpoint lstrip_with (sp : ascii → bool) (s : string) : string :=
  match s with
  | String c s' => if sp c then lstrip_with sp s' else s
  | EmptyString => EmptyString
  end.

Fixpoint rstrip_with (sp : ascii → bool) (s : string) : string :=
  match s with
  | String c s' =>
      match rstrip_with sp s' with
      | EmptyString => if sp c then EmptyString else String c EmptyString
      | r => String c r
      end
  | EmptyString => EmptyString
  end.

Definition strip_with (sp : ascii → bool) (s : string) : string :=
  rstrip_with sp (lstrip_with sp s).

(** [s.strip()] *)
Definition py_strip (s : string) : string := strip_with is_space s.

(** [s.startswith(p)] *)
Fixpoint startswith (p s : string) : bool :=
  match p, s with
  | EmptyString, _ => true
  | String a p', String b s' => if decide (a = b) then startswith p' s' else false
  | String _ _, EmptyString => false
  end.

(** [sub in s] *)
Fixpoint py_in (sub s : string) : bool :=
  startswith sub s ||
  match s with
  | String _ s' => py_in sub s'
  | EmptyString => false
  end.

(** [s.split(sep)] for a one-character separator. *)
Fixpoint split_char (sep : ascii) (s : string) : list string :=
  match s with
  | EmptyString => [EmptyString]
  | String c s' =>
      if decide (c = sep) then EmptyString :: split_char sep s'
      else match split_char sep s' with
           | hd :: tl => String c hd :: tl
           | [] => [String c EmptyString]
           end
  end.

(** [s.lower()] on the ASCII letters. *)
Definition lower_char (c : ascii) : ascii :=
  let n := nat_of_ascii c in
  if (Nat.leb 65 n && Nat.leb n 90)%bool then ascii_of_nat (n + 32) else c.

Fixpoint py_lower (s : string) : string :=
  match s with
  | String c s' => String (lower_char c) (py_lower s')
  | EmptyString => EmptyString
  end.

(** Truth value of a [str]: non-empty. *)
Definition str_truthy (s : string) : bool :=
  match s with EmptyString => false | _ => true end.

(** [str(n)] for an [int]. *)
Definition str_of_int (n : Z) : string := pretty n.

(** ** Numbers: [float(...)] and [int(...)] *)

(** A binary64 value: [FFinite neg q s] is [(-1)^neg * q * 2^s]. *)
Inductive pyfloat : Set :=
  | FFinite (neg : bool) (q s : Z)
  | FInf (neg : bool)
  | FNaN.

(** Nearest integer to [n / d], ties to even ([0 ≤ n], [0 < d]). *)
Definition round_div (n d : Z) : Z :=
  let q := n / d in
  match 2 * (n mod d) ?= d with
  | Lt => q
  | Gt => q + 1
  | Eq => if Z.even q then q else q + 1
  end.

(** [2^k ≤ num / den] *)
Definition ge_pow2 (num den k : Z) : bool :=
  if 0 <=? k then den * 2 ^ k <=? num else den <=? num * 2 ^ (- k).

(** Round the positive rational [num / den] to binary64 (round to nearest,
    ties to even; gradual underflow); [None] is overflow to infinity. *)
Definition float_round (num den : Z) : option (Z * Z) :=
  if num =? 0 then Some (0, 0)
  else
    let k0 := Z.log2 num - Z.log2 den in
    let k := if ge_pow2 num den k0 then k0 else k0 - 1 in
    let s := Z.max (k - 52) (-1074) in
    let q := if 0 <=? s then round_div num (den * 2 ^ s)
             else round_div (num * 2 ^ (- s)) den in
    if (0 <=? s) && (2 ^ 1024 <=? q * 2 ^ s) then None else Some (q, s).

(** Integer part of [q * 2^s]. *)
Definition float_trunc (q s : Z) : Z :=
  if 0 <=? s then q * 2 ^ s else q / 2 ^ (- s).

(** [int(f)] *)
Definition int_of_float (f : pyfloat) : res Z :=
  match f with
  | FFinite neg q s => Ok (if neg then - float_trunc q s else float_trunc q s)
  | FInf _ => Raise OverflowError
  | FNaN => Raise ValueError
  end.

(** [float(n)] for an [int]. *)
Definition float_of_int (n : Z) : res pyfloat :=
  match float_round (Z.abs n) 1 with
  | Some (q, s) => Ok (FFinite (n <? 0) q s)
  | None => Raise OverflowError
  end.

(** Digits of a numeric literal: value so far, number of digits, rest. *)
Fixpoint scan_digits (s : string) (acc : Z) (n : nat) : Z * nat * string :=
  match s with
  | String c s' =>
      match Ascii.is_nat c with
      | Some d => scan_digits s' (acc * 10 + Z.of_nat d) (S n)
      | None => (acc, n, s)
      end
  | EmptyString => (acc, n, s)
  end.

Definition is_digit (c : ascii) : bool :=
  match Ascii.is_nat c with Some _ => true | None => false end.

(** Underscore grouping of numeric literals: an underscore is accepted only
    between two digits; the result is the literal without underscores. *)
Fixpoint drop_underscores (prev : option ascii) (s : string) : option string :=
  match s with
  | EmptyString =>
      match prev with
      | Some "_"%char => None
      | _ => Some EmptyString
      end
  | String c s' =>
      if decide (c = "_"%char) then
        match prev with
        | Some p => if is_digit p then drop_underscores (Some c) s' else None
        | None => None
        end
      else
        match prev with
        | Some "_"%char =>
            if is_digit c then String c <$> drop_underscores (Some c) s' else None
        | _ => String c <$> drop_underscores (Some c) s'
        end
  end.

(** Optional sign. *)
Definition scan_sign (s : string) : bool * string :=
  match s with
  | String "-" s' => (true, s')
  | String "+" s' => (false, s')
  | _ => (false, s)
  end.

(** [digits [. digits] [(e|E) [sign] digits]] with at least one mantissa
    digit, read to the end of the text: mantissa [m] and decimal exponent
    [e] of the value [m * 10^e]. *)
Definition parse_decimal (s : string) : option (Z * Z) :=
  let '(ip, ni, s1) := scan_digits s 0 0 in
  let '(m, nf, s2) :=
    match s1 with
    | String "." s1' => scan_digits s1' ip 0
    | _ => (ip, 0%nat, s1)
    end in
  if decide ((ni + nf)%nat = 0%nat) then None
  else
    match s2 with
    | EmptyString => Some (m, - Z.of_nat nf)
    | String c s3 =>
        if decide (c = "e"%char ∨ c = "E"%char) then
          let '(eneg, s4) := scan_sign s3 in
          let '(ex, ne, s5) := scan_digits s4 0 0 in
          if decide (ne = 0%nat) then None
          else
            match s5 with
            | EmptyString =>
                Some (m, (if eneg then - ex else ex) - Z.of_nat nf)
            | _ => None
            end
        else None
    end.

(** The value [m * 10^e] rounded to binary64. *)
Definition float_of_decimal (neg : bool) (m e : Z) : pyfloat :=
  match (if 0 <=? e then float_round (m * 10 ^ e) 1
         else float_round m (10 ^ (- e))) with
  | Some (q, s) => FFinite neg q s
  | None => FInf neg
  end.

(** [float(s)] for a [str].  The text is trimmed first here; the runtime
    drops the underscores first, with the same result, an underscore next
    to white space being rejected either way. *)
Definition float_of_str (s : string) : res pyfloat :=
  let t := strip_with is_cspace s in
  match (if py_in "_" t then drop_underscores None t else Some t) with
  | None => Raise ValueError
  | Some u =>
      let '(neg, v) := scan_sign u in
      let w := py_lower v in
      if decide (w = "inf" ∨ w = "infinity") then Ok (FInf neg)
      else if decide (w = "nan") then Ok FNaN
      else
        match parse_decimal v with
        | Some (m, e) => Ok (float_of_decimal neg m e)
        | None => Raise ValueError
        end
  end.

(** [int(s)] for a text made of decimal digits (the group captured by
    [\d+]). *)
Definition int_of_digits (s : string) : Z := (scan_digits s 0 0).1.1.

(** ** Table cells, tables and dictionaries *)

Inductive value : Set :=
  | VNaN
  | VStr (s : string)
  | VInt (n : Z).

#[global] Instance value_eq_dec : EqDecision value.
Proof. solve_decision. Defined.

Abbreviation bytes := (list byte).
Abbreviation Series := (list value).

(** [pd.isna(v)] and [pd.notna(v)] *)
Definition pd_isna (v : value) : bool :=
  match v with VNaN => true | _ => false end.
Definition pd_notna (v : value) : bool := negb (pd_isna v).

(** [str(v)], also what an f-string field [{v}] expands to. *)
Definition py_str (v : value) : string :=
  match v with
  | VNaN => "nan"
  | VStr s => s
  | VInt n => str_of_int n
  end.

(** [float(v)] *)
Definition py_float (v : value) : res pyfloat :=
  match v with
  | VNaN => Ok FNaN
  | VStr s => float_of_str s
  | VInt n => float_of_int n
  end.

(** Truth value of a [bytes] object: non-empty. *)
Definition bytes_truthy (b : bytes) : bool :=
  match b with [] => false | _ => true end.

(** A [DataFrame]: the column labels and the rows, each row holding one
    cell per column. *)
Record DataFrame : Set := {
  columns : list string;
  rows : list Series
}.

(** [row.iloc[i]] *)
Definition iloc (row : Series) (i : nat) : res value :=
  match row !! i with
  | Some v => Ok v
  | None => Raise IndexError
  end.

(** Position of the first occurrence of a label. *)
Fixpoint index_of (c : string) (cols : list string) : option nat :=
  match cols with
  | [] => None
  | c' :: cols' => if decide (c' = c) then Some 0%nat else S <$> index_of c cols'
  end.

(** [row.get(label, default)] for a row of a frame with columns [cols]. *)
Definition row_get (cols : list string) (row : Series) (label : string)
    (dflt : value) : value :=
  match index_of label cols with
  | Some i => default dflt (row !! i)
  | None => dflt
  end.

(** [next((c for c in candidates if c in cols), None)] *)
Definition first_present (candidates cols : list string) : option string :=
  List.find (λ c, bool_decide (c ∈ cols)) candidates.

(** A [dict] in insertion order. *)
Section odict.
Context {K V : Type} `{EqDecision K}.

(** [d.get(k)] *)
Fixpoint odict_get (k : K) (d : list (K * V)) : option V :=
  match d with
  | [] => None
  | (k', v) :: d' => if decide (k' = k) then Some v else odict_get k d'
  end.

(** [d[k] = v]: an existing key keeps its position. *)
Fixpoint odict_set (k : K) (v : V) (d : list (K * V)) : list (K * V) :=
  match d with
  | [] => [(k, v)]
  | (k', v') :: d' =>
      if decide (k' = k) then (k, v) :: d' else (k', v') :: odict_set k v d'
  end.

(** [d.values()] *)
Definition odict_values (d : list (K * V)) : list V := d.*2.
End odict.

(** [sorted(l, key=key)]: stable, ascending. *)
Section sorted.
Context {A : Type} (key : A → Z).

Fixpoint insert_sorted (x : A) (l : list A) : list A :=
  match l with
  | [] => [x]
  | y :: l' => if key x <=? key y then x :: y :: l' else y :: insert_sorted x l'
  end.

Definition py_sorted (l : list A) : list A := foldr insert_sorted [] l.
End sorted.

(** A loop whose body may raise. *)
Fixpoint for_each {S A} (body : S → A → res S) (s : S) (l : list A) : res S :=
  match l with
  | [] => Ok s
  | x :: l' => s' ← body s x; for_each body s' l'
  end.

(** ** The generator *)

Record ShippingOrderGenerator : Type := {
  main_df : DataFrame;
  sku_id_df : DataFrame;
  supplier_sku_df : DataFrame;
  sku_name_df : DataFrame;
  barcode_files_dict : list (string * bytes);
  image_files_dict : list (string * bytes);
  _product_id_index : gmap string Series;
  _supplier_sku_cache : list (string * (string * bool));
  _image_cache : list (string * bytes);
  col_mapping : gmap string nat
}.

(** [_safe_str] *)
Definition _safe_str (v : value) : string :=
  if pd_isna v then "" else py_strip (py_str v).

(** [_safe_int] *)
Definition _safe_int (v : value) (dflt : Z) : res Z :=
  if pd_isna v then Ok dflt
  else except_value_type (f ← py_float v; int_of_float f) dflt.

(** [str(int(float(s)))] *)
Definition normalize_id (s : string) : res string :=
  f ← float_of_str s; n ← int_of_float f; Ok (str_of_int n).

(** *** Reference indices *)

Definition column_patterns : list (string * list string) :=
  [ ("货品id", ["货品id"; "货品Id"; "货品ID"]);
    ("货品编码", ["货品编码"; "sku"; "SKU"]);
    ("单套个数", ["单套个数"; "单套数量"]);
    ("商品详情", ["商品详情备注"; "商品详情"; "详情备注"]) ].

Definition pattern_matches (col_str pattern : string) : bool :=
  py_in (py_lower pattern) (py_lower col_str) || py_in pattern col_str.

(** The body of the loop over [column_patterns.items()] for one column. *)
Definition identify_key (col_idx : nat) (col_str : string)
    (m : gmap string nat) (kp : string * list string) : gmap string nat :=
  match m !! kp.1 with
  | Some _ => m
  | None =>
      if existsb (pattern_matches col_str) kp.2 then <[kp.1 := col_idx]> m else m
  end.

(** [_identify_columns] *)
Definition _identify_columns (df : DataFrame) : gmap string nat :=
  let m := foldl (λ m '(col_idx, col_name),
                    foldl (identify_key col_idx (py_strip col_name)) m
                          column_patterns)
                 ∅ (imap pair (columns df)) in
  let m := match m !! "货品id" with
           | Some _ => m
           | None => <["货品id" := 1%nat]> m
           end in
  match m !! "商品详情" with
  | None => if (2 <? length (columns df))%nat then <["商品详情" := 2%nat]> m else m
  | Some _ => m
  end.

(** The body of the loop of [_build_product_id_index] for one row. *)
Definition index_row (product_id_col : nat) (index : gmap string Series)
    (row : Series) : res (gmap string Series) :=
  match row !! product_id_col with
  | Some cell =>
      if pd_notna cell then
        let product_id := _safe_str cell in
        index ← match normalize_id product_id with
                | Ok normalized_id => Ok (<[normalized_id := row]> index)
                | Raise ValueError | Raise TypeError => Ok index
                | Raise e => Raise e
                end;
        Ok (<[product_id := row]> index)
      else Ok index
  | None => Ok index
  end.

(** [_build_product_id_index] *)
Definition _build_product_id_index (mapping : gmap string nat)
    (df : DataFrame) : res (gmap string Series) :=
  let product_id_col := default 1%nat (mapping !! "货品id") in
  for_each (index_row product_id_col) ∅ (rows df).

(** A three-byte UTF-8 sequence in U+4E00..U+9FFF somewhere in [s]
    ([re.search(r'[一-鿿]', s)]). *)
Fixpoint has_cjk (s : string) : bool :=
  match s with
  | String a ((String b (String _ _)) as s') =>
      let x := N_of_ascii a in
      let y := N_of_ascii b in
      ((x =? 228)%N && (184 <=? y)%N && (y <=? 191)%N)
      || ((229 <=? x)%N && (x <=? 233)%N)
      || has_cjk s'
  | String _ s' => has_cjk s'
  | EmptyString => false
  end.

(** The body of the inner loop of [_build_supplier_cache] for one cell. *)
Definition supplier_cell (st : string * list (string * (string * bool)))
    (cell : value) : string * list (string * (string * bool)) :=
  let '(current_supplier, cache) := st in
  if pd_notna cell then
    let cell_str := py_strip (py_str cell) in
    if has_cjk cell_str || py_in "供应商" cell_str || py_in "厂" cell_str
    then (cell_str, cache)
    else (current_supplier, odict_set cell_str (current_supplier, true) cache)
  else st.

(** [_build_supplier_cache] *)
Definition _build_supplier_cache (df : DataFrame)
    : list (string * (string * bool)) :=
  (foldl (λ st row, foldl supplier_cell st row) ("其他供应商", []) (rows df)).2.

(** [os.path.splitext(filename)[0]]: the text before the last dot, when
    that dot lies after the last slash and after a character of the base
    name that is not a dot. *)
Fixpoint split_last_dot (s : string) : option (string * string) :=
  match s with
  | EmptyString => None
  | String c s' =>
      match split_last_dot s' with
      | Some (root, ext) => Some (String c root, ext)
      | None => if decide (c = "."%char) then Some (EmptyString, s) else None
      end
  end.

(** The text after the last slash. *)
Fixpoint basename (s : string) : string :=
  match s with
  | EmptyString => EmptyString
  | String c s' => if py_in "/" s then basename s' else s
  end.

Definition splitext_root (p : string) : string :=
  match split_last_dot p with
  | Some (root, ext) =>
      if py_in "/" ext then p
      else if str_truthy (lstrip_with (λ c, bool_decide (c = "."%char))
                                       (basename root))
      then root else p
  | None => p
  end.

(** [_build_image_cache] *)
Definition _build_image_cache (files : list (string * bytes))
    : list (string * bytes) :=
  foldl (λ cache '(filename, content),
           odict_set (py_lower (splitext_root filename)) content cache)
        [] files.

(** *** Identity resolver *)

(** [_get_row_by_product_id] *)
Definition _get_row_by_product_id (self : ShippingOrderGenerator)
    (product_id : value) : res (option Series) :=
  let product_id_str := _safe_str product_id in
  if negb (str_truthy product_id_str) then Ok None
  else
    match _product_id_index self !! product_id_str with
    | Some row => Ok (Some row)
    | None =>
        match normalize_id product_id_str with
        | Ok normalized_id => Ok (_product_id_index self !! normalized_id)
        | Raise ValueError | Raise TypeError => Ok None
        | Raise e => Raise e
        end
    end.

(** [_extract_sku_prefix] *)
Definition _extract_sku_prefix (sku : value) : string :=
  let sku_str := _safe_str sku in
  if py_in "-" sku_str then hd sku_str (split_char "-" sku_str) else sku_str.

(** The longest run of decimal digits at the head of a text, and the rest. *)
Fixpoint span_digits (s : string) : string * string :=
  match s with
  | String c s' =>
      if is_digit c then let '(ds, r) := span_digits s' in (String c ds, r)
      else (EmptyString, s)
  | EmptyString => (EmptyString, s)
  end.

(** [$]: at the end of the text, or before a line feed that ends it. *)
Definition at_end (s : string) : bool :=
  bool_decide (s = EmptyString ∨ s = String "010" EmptyString).

(** A match of [-(\d+)[Xx]$] that starts at the head of [s]: the captured
    group.  The digit run is taken greedily; a shorter run is followed by
    a digit, never by [X], so that backtracking adds no match. *)
Definition match_here (s : string) : option string :=
  match s with
  | String "-" s1 =>
      match span_digits s1 with
      | (String d ds, String c s3) =>
          if bool_decide (c = "X"%char ∨ c = "x"%char) && at_end s3
          then Some (String d ds) else None
      | _ => None
      end
  | _ => None
  end.

(** [re.search(r'-(\d+)[Xx]$', s)]: the leftmost match. *)
Fixpoint re_search (s : string) : option string :=
  match match_here s with
  | Some g => Some g
  | None =>
      match s with
      | String _ s' => re_search s'
      | EmptyString => None
      end
  end.

(** [_get_multiplier_from_sku] *)
Definition _get_multiplier_from_sku (sku : string) : option Z :=
  int_of_digits <$> re_search sku.

(** *** Quantity calculator *)

(** [calculate_total_quantity] *)
Definition calculate_total_quantity (self : ShippingOrderGenerator)
    (sku sets product_id : value) : res Z :=
  sets_int ← _safe_int sets 0;
  if sets_int <=? 0 then Ok 0
  else
    let product_id_str := _safe_str product_id in
    (* lines 191-200, reached when the table lookup does not return *)
    let fallback : res Z :=
      let sku_str := _safe_str sku in
      sku_str ←
        (if negb (str_truthy sku_str) && str_truthy product_id_str then
           match col_mapping self !! "货品编码" with
           | Some col =>
               row ← _get_row_by_product_id self product_id;
               match row with
               | Some row => cell ← iloc row col; Ok (_safe_str cell)
               | None => Ok sku_str
               end
           | None => Ok sku_str
           end
         else Ok sku_str);
      if str_truthy sku_str then
        match _get_multiplier_from_sku sku_str with
        | Some multiplier =>
            if bool_decide (multiplier ≠ 0) then Ok (sets_int * multiplier)
            else Ok sets_int
        | None => Ok sets_int
        end
      else Ok sets_int in
    if str_truthy product_id_str then
      match col_mapping self !! "单套个数" with
      | Some col =>
          row ← _get_row_by_product_id self product_id;
          match row with
          | Some row =>
              cell ← iloc row col;
              unit_qty ← _safe_int cell 0;
              if 0 <? unit_qty then Ok (sets_int * unit_qty) else fallback
          | None => fallback
          end
      | None => fallback
      end
    else fallback.

(** *** Names, details, suppliers and assets *)

(** The loop of [get_product_name] over the rows of the name table. *)
Fixpoint scan_names (sku_prefix : string) (rows : list Series) : string :=
  match rows with
  | [] => sku_prefix
  | row :: rest =>
      match row with
      | c0 :: c1 :: _ =>
          if pd_notna c0 && py_in sku_prefix (py_str c0) then
            let name := _safe_str c1 in
            if str_truthy name then name else sku_prefix
          else scan_names sku_prefix rest
      | _ => scan_names sku_prefix rest
      end
  end.

(** [get_product_name] *)
Definition get_product_name (self : ShippingOrderGenerator)
    (sku_prefix : string) : string :=
  if negb (str_truthy sku_prefix) then ""
  else scan_names sku_prefix (rows (sku_name_df self)).

(** [get_product_details] *)
Definition get_product_details (self : ShippingOrderGenerator)
    (product_id : value) : res string :=
  match col_mapping self !! "商品详情" with
  | None => Ok ""
  | Some col =>
      row ← _get_row_by_product_id self product_id;
      match row with
      | Some row => cell ← iloc row col; Ok (_safe_str cell)
      | None => Ok ""
      end
  end.

(** The fallback scan of a fuzzy lookup: the value of the first entry, in
    iteration order, whose key contains [needle] or is contained in it. *)
Definition fuzzy_scan {V} (needle : string) (cache : list (string * V))
    : option V :=
  snd <$> List.find (λ kv, py_in needle kv.1 || py_in kv.1 needle) cache.

(** [get_supplier_group] *)
Definition get_supplier_group (self : ShippingOrderGenerator)
    (sku_prefix : string) : string * bool :=
  if negb (str_truthy sku_prefix) then ("其他供应商", false)
  else
    match odict_get sku_prefix (_supplier_sku_cache self) with
    | Some result => result
    | None =>
        match fuzzy_scan sku_prefix (_supplier_sku_cache self) with
        | Some result => result
        | None => ("其他供应商", false)
        end
    end.

(** [find_image_data] *)
Definition find_image_data (self : ShippingOrderGenerator)
    (sku_prefix : string) : option bytes :=
  if negb (str_truthy sku_prefix) then None
  else
    let sku_lower := py_lower sku_prefix in
    match odict_get sku_lower (_image_cache self) with
    | Some data => Some data
    | None => fuzzy_scan sku_lower (_image_cache self)
    end.

(** [find_barcode_data] *)
Definition find_barcode_data (self : ShippingOrderGenerator)
    (product_id : value) : option bytes * option string :=
  let product_id_str := _safe_str product_id in
  if negb (str_truthy product_id_str) then (None, None)
  else
    match List.find (λ fc, py_in product_id_str fc.1) (barcode_files_dict self) with
    | Some (filename, content) => (Some content, Some filename)
    | None => (None, None)
    end.

(** ** Order lines *)

(** The dictionary [order_data] built by [process_order_data]; the fields
    carry its keys. *)
Record Order : Set := {
  SKU : value;
  商品名称 : string;
  商品图片数据 : option bytes;
  SKU前缀 : string;
  商品详情 : string;
  套数 : Z;
  总数量 : Z;
  货品id : value;
  仓库地址 : value;
  仓库名称 : value;
  原始顺序 : Z;
  barcode_data : option bytes;
  barcode_filename : option string
}.

(** [order['套数'] += a; order['总数量'] += b] *)
Definition add_quantities (order : Order) (a b : Z) : Order :=
  {| SKU := SKU order;
     商品名称 := 商品名称 order;
     商品图片数据 := 商品图片数据 order;
     SKU前缀 := SKU前缀 order;
     商品详情 := 商品详情 order;
     套数 := 套数 order + a;
     总数量 := 总数量 order + b;
     货品id := 货品id order;
     仓库地址 := 仓库地址 order;
     仓库名称 := 仓库名称 order;
     原始顺序 := 原始顺序 order;
     barcode_data := barcode_data order;
     barcode_filename := barcode_filename order |}.

(** The sequence number that [__init__] stores in the column '原始顺序'. *)
Definition seq_of_value (v : value) : Z :=
  match v with VInt n => n | _ => 0 end.

(** The dictionary [col_names] of [process_order_data]: the label chosen
    for each role, when one is present. *)
Record OrderColumns : Set := {
  product_id_col : option string;
  sku_col : option string;
  sets_col : option string;
  address_col : option string;
  warehouse_col : option string
}.

Definition order_columns (cols : list string) : OrderColumns :=
  {| product_id_col := first_present ["货品Id"; "货品id"; "货品ID"] cols;
     sku_col := first_present ["货品编码"; "SKU"; "sku"] cols;
     sets_col := first_present ["发货数量"; "套数"] cols;
     address_col := first_present ["仓库地址"] cols;
     warehouse_col := first_present ["仓库名称"] cols |}.

(** [row.get(col, dflt) if col else dflt] *)
Definition get_or (cols : list string) (row : Series) (col : option string)
    (dflt : value) : value :=
  match col with
  | Some c => row_get cols row c dflt
  | None => dflt
  end.

(** The body of the loop of [process_order_data] for one row: the order
    line, and whether a supplier was found for it. *)
Definition order_of_row (self : ShippingOrderGenerator) (cols : list string)
    (col_names : OrderColumns) (row : Series) : res (string * bool * Order) :=
  let product_id := get_or cols row (product_id_col col_names) (VStr "") in
  let sku := get_or cols row (sku_col col_names) (VStr "") in
  let sets := get_or cols row (sets_col col_names) (VInt 0) in
  let sku_prefix := _extract_sku_prefix sku in
  let '(supplier, found) := get_supplier_group self sku_prefix in
  details ← get_product_details self product_id;
  sets_int ← _safe_int sets 0;
  total ← calculate_total_quantity self sku sets product_id;
  let '(barcode, barcode_name) := find_barcode_data self product_id in
  let has_barcode := from_option bytes_truthy false barcode in
  Ok (supplier, found,
      {| SKU := sku;
         商品名称 := get_product_name self sku_prefix;
         商品图片数据 := find_image_data self sku_prefix;
         SKU前缀 := sku_prefix;
         商品详情 := details;
         套数 := sets_int;
         总数量 := total;
         货品id := product_id;
         仓库地址 := get_or cols row (address_col col_names) (VStr "");
         仓库名称 := get_or cols row (warehouse_col col_names) (VStr "");
         原始顺序 := seq_of_value (row_get cols row "原始顺序" (VInt 0));
         barcode_data := if has_barcode then barcode else None;
         barcode_filename := if has_barcode then barcode_name else None |}).

(** [supplier_orders.setdefault(supplier, []).append(order)] *)
Definition bucket_append (supplier : string) (order : Order)
    (buckets : list (string * list Order)) : list (string * list Order) :=
  odict_set supplier (default [] (odict_get supplier buckets) ++ [order]) buckets.

(** [process_order_data].  The rows are visited in the order of the
    sequence column, whose cells [__init__] makes pairwise different. *)
Definition process_order_data (self : ShippingOrderGenerator)
    (store_data : DataFrame)
    : res (list (string * list Order) * list Order) :=
  let cols := columns store_data in
  let col_names := order_columns cols in
  for_each
    (λ '(supplier_orders, abnormal_orders) row,
       '(supplier, found, order) ← order_of_row self cols col_names row;
       if found : bool
       then Ok (bucket_append supplier order supplier_orders, abnormal_orders)
       else Ok (supplier_orders, abnormal_orders ++ [order]))
    ([], [])
    (py_sorted (λ row, seq_of_value (row_get cols row "原始顺序" (VInt 0)))
               (rows store_data)).

(** ** Merging and grouping *)

(** The key [f"{order['仓库名称']}_{order['货品id']}"]. *)
Definition merge_key (order : Order) : string :=
  py_str (仓库名称 order) +:+ "_" +:+ py_str (货品id order).

(** The body of the loop of [merge_orders]. *)
Definition merge_step (merged : list (string * Order)) (order : Order)
    : list (string * Order) :=
  let key := merge_key order in
  match odict_get key merged with
  | None => odict_set key order merged
  | Some m => odict_set key (add_quantities m (套数 order) (总数量 order)) merged
  end.

(** [merge_orders] *)
Definition merge_orders (orders : list Order) : list Order :=
  py_sorted 原始顺序
    (odict_values (foldl merge_step [] (py_sorted 原始顺序 orders))).

(** An entry of [groups] in [group_by_warehouse]. *)
Record Group : Set := {
  warehouse_name : value;
  warehouse_address : value;
  orders : list Order;
  min_order : Z
}.

(** The body of the loop of [group_by_warehouse]. *)
Definition group_step (groups : list (value * Group)) (order : Order)
    : list (value * Group) :=
  let warehouse := 仓库名称 order in
  let groups :=
    match odict_get warehouse groups with
    | None =>
        odict_set warehouse
          {| warehouse_name := warehouse;
             warehouse_address := 仓库地址 order;
             orders := [];
             min_order := 原始顺序 order |} groups
    | Some _ => groups
    end in
  match odict_get warehouse groups with
  | Some g =>
      odict_set warehouse
        {| warehouse_name := warehouse_name g;
           warehouse_address := warehouse_address g;
           orders := orders g ++ [order];
           min_order := Z.min (min_order g) (原始顺序 order) |} groups
  | None => groups
  end.

(** [group_by_warehouse] *)
Definition group_by_warehouse (orders : list Order) : list Group :=
  py_sorted min_order (odict_values (foldl group_step [] orders)).

(** ** Document assembler *)

(** The cells of the sheet by (row, column), the merged ranges
    (start row, start column, end row, end column) and the pictures asked
    for (row, column, payload).  Fonts, fills, alignments, borders and
    sizes do not change a cell value and are left out, and so are the
    checks that openpyxl makes on a text before it stores it (texts of
    more than 32767 characters, control characters). *)
Record Worksheet : Type := {
  cells : gmap (Z * Z) value;
  merged_cells : list (Z * Z * Z * Z);
  images : list (Z * Z * bytes)
}.

(** [ws.cell(row=r, column=c, value=v)] *)
Definition ws_cell (r c : Z) (v : value) (ws : Worksheet) : Worksheet :=
  {| cells := <[(r, c) := v]> (cells ws);
     merged_cells := merged_cells ws;
     images := images ws |}.

(** [ws.merge_cells(start_row=r1, start_column=c1, end_row=r2, end_column=c2)] *)
Definition ws_merge_cells (r1 c1 r2 c2 : Z) (ws : Worksheet) : Worksheet :=
  {| cells := cells ws;
     merged_cells := merged_cells ws ++ [(r1, c1, r2, c2)];
     images := images ws |}.

(** [self._insert_image(ws, r, c, data)] *)
Definition ws_add_image (r c : Z) (data : bytes) (ws : Worksheet) : Worksheet :=
  {| cells := cells ws;
     merged_cells := merged_cells ws;
     images := images ws ++ [(r, c, data)] |}.

Definition CHINESE_NUMBERS : list string :=
  ["一"; "二"; "三"; "四"; "五"; "六"; "七"; "八"; "九"; "十";
   "十一"; "十二"; "十三"; "十四"; "十五"; "十六"; "十七"; "十八"; "十九"; "二十"].

Definition headers : list string :=
  ["单号"; "SKU"; "商品名称"; "商品图片"; "商品详情"; "套数"; "总数量"; "货品id";
   "条码文件"; "仓库地址"; "仓库名称"].

(** The state of the loops of [create_excel]: [current_row], the sheet and
    [barcode_files]. *)
Definition excel_state : Type := Z * Worksheet * list (string * bytes).

(** The body of the inner loop (lines 390-408) for the [i]-th order of a
    warehouse group. *)
Definition write_order (wh_info : Group) (st : excel_state) (i : nat)
    (order : Order) : excel_state :=
  let '(current_row, ws, barcode_files) := st in
  let ws := ws_cell current_row 2 (SKU order) ws in
  let ws := ws_cell current_row 3 (VStr (商品名称 order)) ws in
  let ws := ws_cell current_row 5 (VStr (商品详情 order)) ws in
  let ws := ws_cell current_row 6 (VInt (套数 order)) ws in
  let ws := ws_cell current_row 7 (VInt (总数量 order)) ws in
  let ws := ws_cell current_row 8 (货品id order) ws in
  let '(ws, barcode_files) :=
    match barcode_data order, barcode_filename order with
    | Some data, Some filename =>
        if bytes_truthy data && str_truthy filename then
          let new_name := str_of_int (套数 order) +:+ "--" +:+ filename in
          (ws_cell current_row 9 (VStr new_name) ws,
           barcode_files ++ [(new_name, data)])
        else (ws_cell current_row 9 (VStr "无条码") ws, barcode_files)
    | _, _ => (ws_cell current_row 9 (VStr "无条码") ws, barcode_files)
    end in
  let ws :=
    if decide (i = 0%nat) then
      ws_cell current_row 11 (warehouse_name wh_info)
        (ws_cell current_row 10 (warehouse_address wh_info) ws)
    else ws in
  (current_row + 1, ws, barcode_files).

(** The label of the [wh_idx]-th shipment. *)
Definition order_num (wh_idx : nat) : string :=
  match CHINESE_NUMBERS !! wh_idx with
  | Some name => "第" +:+ name +:+ "单"
  | None => "第" +:+ str_of_int (Z.of_nat wh_idx + 1) +:+ "单"
  end.

(** [for i, x in enumerate(l): st = body(st, i, x)] *)
Definition for_enumerate {S A} (body : S → nat → A → S) (st : S) (l : list A) : S :=
  foldl (λ st ix, body st ix.1 ix.2) st (imap pair l).

(** The body of the outer loop (lines 387-416) for one warehouse group. *)
Definition write_group (st : excel_state) (wh_idx : nat) (wh_info : Group)
    : excel_state :=
  let start_row := st.1.1 in
  let '(current_row, ws, barcode_files) :=
    for_enumerate (write_order wh_info) st (orders wh_info) in
  let end_row := current_row - 1 in
  let ws := ws_cell start_row 1 (VStr (order_num wh_idx)) ws in
  let ws :=
    if start_row <? end_row then
      ws_merge_cells start_row 11 end_row 11
        (ws_merge_cells start_row 10 end_row 10
           (ws_merge_cells start_row 1 end_row 1 ws))
    else ws in
  (current_row, ws, barcode_files).

(** The picture loop (lines 418-423). *)
Definition add_images (ws : Worksheet) (lines : list Order) : Worksheet :=
  (for_enumerate
     (λ ws k order,
        match 商品图片数据 order with
        | Some data =>
            if bytes_truthy data then ws_add_image (4 + Z.of_nat k) 4 data ws
            else ws
        | None => ws
        end)
     ws lines).

(** [create_excel]: the sheet that is saved into the workbook, and
    [barcode_files].  [today] is [datetime.now().strftime('%Y-%m-%d')]. *)
Definition create_excel (today : string) (supplier : string)
    (orders_ : list Order) (is_abnormal : bool)
    : Worksheet * list (string * bytes) :=
  let warehouse_groups := group_by_warehouse orders_ in
  let ws := {| cells := ∅; merged_cells := []; images := [] |} in
  let ws := ws_merge_cells 1 1 1 11 ws in
  let ws :=
    ws_cell 1 1
      (VStr ((if is_abnormal then "异常订单" else supplier)
             +:+ " 出货单 - " +:+ today)) ws in
  let ws :=
    for_enumerate (λ ws col header, ws_cell 3 (Z.of_nat col + 1) (VStr header) ws)
      ws headers in
  let '(current_row, ws, barcode_files) :=
    for_enumerate write_group (4, ws, []) warehouse_groups in
  let ws := add_images ws (concat (orders <$> warehouse_groups)) in
  (ws, barcode_files).

(** ** The run *)

(** [self.main_df['原始顺序'] = range(len(self.main_df))] *)
Definition assign_sequence (df : DataFrame) : DataFrame :=
  match index_of "原始顺序" (columns df) with
  | Some i =>
      {| columns := columns df;
         rows := imap (λ k row, <[i := VInt (Z.of_nat k)]> row) (rows df) |}
  | None =>
      {| columns := columns df ++ ["原始顺序"];
         rows := imap (λ k row, row ++ [VInt (Z.of_nat k)]) (rows df) |}
  end.

(** [__init__] *)
Definition __init__ (main sku_id supplier_sku sku_name : DataFrame)
    (barcode_files image_files : list (string * bytes))
    : res ShippingOrderGenerator :=
  let mapping := _identify_columns sku_id in
  index ← _build_product_id_index mapping sku_id;
  Ok {| main_df := assign_sequence main;
        sku_id_df := sku_id;
        supplier_sku_df := supplier_sku;
        sku_name_df := sku_name;
        barcode_files_dict := barcode_files;
        image_files_dict := image_files;
        _product_id_index := index;
        _supplier_sku_cache := _build_supplier_cache supplier_sku;
        _image_cache := _build_image_cache image_files;
        col_mapping := mapping |}.

(** What the run shows to the user. *)
Inductive ui_event : Set :=
  | st_error (message : string).

Definition store_aliases : list string := ["店铺名称"; "店铺"; "店铺名"; "店名"].

Section generate_all_orders.
(** [repr(c)] of a column label, from the Python runtime. *)
Variable repr_label : string → string.
(** The archive type, and lines 464-519: the stores of the table grouped
    by the store column, their documents written and packed. *)
Variable Zip : Type.
Variable package_stores : ShippingOrderGenerator → string → res Zip.

(** [f"{list(df.columns)}"] *)
Definition repr_columns (df : DataFrame) : string :=
  "[" +:+ String.concat ", " (repr_label <$> columns df) +:+ "]".

(** [generate_all_orders]: the messages shown and the value returned. *)
Definition generate_all_orders (self : ShippingOrderGenerator)
    : list ui_event * res (option Zip) :=
  let store_col := first_present store_aliases (columns (main_df self)) in
  match store_col with
  | None =>
      ([st_error ("❌ 未找到店铺列。可用列: " +:+ repr_columns (main_df self))],
       Ok None)
  | Some store_col =>
      ([], zip_buffer ← package_stores self store_col; Ok (Some zip_buffer))
  end.
End generate_all_orders.

(** ** The statements of the specification *)

(** All characters of a text satisfy [p]. *)
Fixpoint string_forall (p : ascii → bool) (s : string) : bool :=
  match s with
  | String c s' => p c && string_forall p s'
  | EmptyString => true
  end.

(** Step 2 of the quantity chain (lines 185-190): the unit quantity of the
    record that [product_id] resolves to, when the unit-quantity column is
    recognized and the quantity is positive. *)
Definition table_unit_quantity (self : ShippingOrderGenerator)
    (product_id : value) : res (option Z) :=
  if str_truthy (_safe_str product_id) then
    match col_mapping self !! "单套个数" with
    | Some col =>
        row ← _get_row_by_product_id self product_id;
        match row with
        | Some row =>
            cell ← iloc row col;
            unit_qty ← _safe_int cell 0;
            Ok (if 0 <? unit_qty then Some unit_qty else None)
        | None => Ok None
        end
    | None => Ok None
    end
  else Ok None.

(** Step 3 of the quantity chain (lines 191-195): the SKU text, replaced by
    the SKU code of the reference record when it is empty. *)
Definition substituted_sku (self : ShippingOrderGenerator)
    (sku product_id : value) : res string :=
  let sku_str := _safe_str sku in
  if negb (str_truthy sku_str) && str_truthy (_safe_str product_id) then
    match col_mapping self !! "货品编码" with
    | Some col =>
        row ← _get_row_by_product_id self product_id;
        match row with
        | Some row => cell ← iloc row col; Ok (_safe_str cell)
        | None => Ok sku_str
        end
    | None => Ok sku_str
    end
  else Ok sku_str.



(** [prefix] contains [key] or is contained in it. *)
Definition contains_either (prefix key : string) : bool :=
  py_in prefix key || py_in key prefix.

(** The supplier lookup as the specification words it: the entry stored
    under the prefix; else the first entry, in iteration order, whose key
    is related to the prefix by containment; else the default. *)
Definition supplier_lookup_as_specified (self : ShippingOrderGenerator)
    (prefix : string) : Prop :=
  let cache := _supplier_sku_cache self in
  (∀ result,
     odict_get prefix cache = Some result →
     get_supplier_group self prefix = result)
  ∧ (odict_get prefix cache = None →
     ∀ before key result after,
       cache = before ++ (key, result) :: after →
       contains_either prefix key = true →
       (∀ kv, kv ∈ before → contains_either prefix kv.1 = false) →
       get_supplier_group self prefix = result)
  ∧ (odict_get prefix cache = None →
     (∀ kv, kv ∈ cache → contains_either prefix kv.1 = false) →
     get_supplier_group self prefix = ("其他供应商", false)).

(** The product id of a row of the reference table, as
    [_build_product_id_index] reads it. *)
Definition row_product_id (col : nat) (row : Series) : option string :=
  match row !! col with
  | Some cell => if pd_notna cell then Some (_safe_str cell) else None
  | None => None
  end.

(** Two id texts name different entries of the same number. *)
Definition ids_clash (p1 p2 : string) : bool :=
  match normalize_id p1, normalize_id p2 with
  | Ok n1, Ok n2 => bool_decide (n1 = n2) && negb (bool_decide (p1 = p2))
  | _, _ => false
  end.

(** No two rows of the reference table carry different id texts of the
    same number. *)
Definition ids_consistent (col : nat) (rows : list Series) : bool :=
  forallb (λ p1, forallb (λ p2, negb (ids_clash p1 p2))
                         (omap (row_product_id col) rows))
          (omap (row_product_id col) rows).


(** The barcode of a line that [create_excel] emits: the original file
    name and the payload, both present and non-empty (line 399). *)
Definition resolved_barcode (order : Order) : option (string * bytes) :=
  match barcode_data order, barcode_filename order with
  | Some data, Some filename =>
      if bytes_truthy data && str_truthy filename then Some (filename, data)
      else None
  | _, _ => None
  end.

(** [f"{order['套数']}--{filename}"] *)
Definition renamed_barcode (order : Order) (filename : string) : string :=
  str_of_int (套数 order) +:+ "--" +:+ filename.

(** The text of the barcode column for a line. *)
Definition barcode_cell (order : Order) : value :=
  match resolved_barcode order with
  | Some (filename, _) => VStr (renamed_barcode order filename)
  | None => VStr "无条码"
  end.

(** The emitted barcode file of a line, if any. *)
Definition emitted_barcode (order : Order) : option (string * bytes) :=
  match resolved_barcode order with
  | Some (filename, data) => Some (renamed_barcode order filename, data)
  | None => None
  end.

(** Sum of a quantity over a list of lines. *)
Definition total_of (f : Order → Z) (l : list Order) : Z :=
  foldr (λ o acc, f o + acc) 0 l.

(** ** Invariants of the loops *)



(** The state of the loops after the lines [done]: the next row, the
    barcode column of the rows written, and the files emitted. *)
Definition barcode_inv (st : excel_state) (done : list Order) : Prop :=
  st.1.1 = 4 + Z.of_nat (length done)
  ∧ (∀ k order, done !! k = Some order →
       cells st.1.2 !! (4 + Z.of_nat k, 9) = Some (barcode_cell order))
  ∧ st.2 = omap emitted_barcode done.

(** An integer that a binary64 value can hold. *)
Definition representable (n : Z) : Prop :=
  n = 0 ∨ ∃ q s, 0 < q < 2 ^ 53 ∧ 0 ≤ s ∧ n = q * 2 ^ s ∧ n < 2 ^ 1024.

(** [ds] is a non-empty text of decimal digits that reads as [x]. *)
Definition is_numeral (ds : string) (x : Z) : Prop :=
  string_forall is_digit ds = true ∧ int_of_digits ds = x ∧ ds ≠ EmptyString.



(** What [merge_orders] keeps under the key [k] after the lines [l]: the
    first line of that key, with the quantities of the later ones added. *)
Definition merged_of (k : string) (m : Order) (l : list Order) : Prop :=
  ∃ first rest,
    filter (λ o, merge_key o = k) l = first :: rest
    ∧ m = add_quantities first (total_of 套数 rest) (total_of 总数量 rest).

(** The dictionary [merged] after the lines [l]. *)
Definition merged_inv (d : list (string * Order)) (l : list Order) : Prop :=
  NoDup d.*1
  ∧ (∀ k m, odict_get k d = Some m → merged_of k m l)
  ∧ (∀ o, o ∈ l → is_Some (odict_get (merge_key o) d)).

(** ** Sample data *)

Definition sample_sku_id_df : DataFrame :=
  {| columns := ["货品编码"; "货品ID"; "单套个数"; "商品详情备注"];
     rows := [ [VStr "ABC"; VStr "123.0"; VInt 5; VStr "蓝色"];
               [VStr "DEF-3X"; VInt 77; VNaN; VStr "红色"] ] |}.

Definition sample_supplier_df : DataFrame :=
  {| columns := ["0"; "1"; "2"];
     rows := [ [VStr "甲供应商"; VStr "ABC"; VStr "DEF"];
               [VStr "乙厂"; VNaN; VStr "XYZ"] ] |}.

Definition sample_name_df : DataFrame :=
  {| columns := ["SKU"; "名称"];
     rows := [ [VStr "ABC"; VStr "水杯"] ] |}.

Definition sample_main_df : DataFrame :=
  {| columns := ["门店"; "货品编码"; "货品Id"; "发货数量"; "仓库名称"; "仓库地址"];
     rows := [ [VStr "一店"; VStr "ABC"; VStr "123"; VInt 4; VStr "东仓"; VStr "东路1号"] ] |}.

Definition sample_index : gmap string Series :=
  match _build_product_id_index (_identify_columns sample_sku_id_df)
          sample_sku_id_df with
  | Ok index => index
  | Raise _ => ∅
  end.

Definition sample_generator : ShippingOrderGenerator :=
  {| main_df := assign_sequence sample_main_df;
     sku_id_df := sample_sku_id_df;
     supplier_sku_df := sample_supplier_df;
     sku_name_df := sample_name_df;
     barcode_files_dict := [];
     image_files_dict := [];
     _product_id_index := sample_index;
     _supplier_sku_cache := _build_supplier_cache sample_supplier_df;
     _image_cache := [];
     col_mapping := _identify_columns sample_sku_id_df |}.




(** Two lines of different warehouses and different products whose merge
    keys are the same text "A_B_C". *)
Definition colliding_line_1 : Order :=
  {| SKU := VStr "ABC-6X";
     商品名称 := "水杯";
     商品图片数据 := None;
     SKU前缀 := "ABC";
     商品详情 := "蓝色";
     套数 := 2;
     总数量 := 12;
     货品id := VStr "C";
     仓库地址 := VStr "东路1号";
     仓库名称 := VStr "A_B";
     原始顺序 := 0;
     barcode_data := None;
     barcode_filename := None |}.

Definition colliding_line_2 : Order :=
  {| SKU := VStr "XYZ";
     商品名称 := "茶壶";
     商品图片数据 := None;
     SKU前缀 := "XYZ";
     商品详情 := "红色";
     套数 := 3;
     总数量 := 3;
     货品id := VStr "B_C";
     仓库地址 := VStr "西路2号";
     仓库名称 := VStr "A";
     原始顺序 := 1;
     barcode_data := None;
     barcode_filename := None |}.

(** A line of the warehouse [warehouse] with the sequence number [seq]. *)
Definition line_of (warehouse address : string) (seq sets : Z) : Order :=
  {| SKU := VStr "ABC";
     商品名称 := "水杯";
     商品图片数据 := None;
     SKU前缀 := "ABC";
     商品详情 := "蓝色";
     套数 := sets;
     总数量 := sets;
     货品id := VInt seq;
     仓库地址 := VStr address;
     仓库名称 := VStr warehouse;
     原始顺序 := seq;
     barcode_data := None;
     barcode_filename := None |}.

(** Lines of two warehouses, interleaved and not in sequence order. *)
Definition interleaved_lines : list Order :=
  [ line_of "A" "东路1号" 5 1; line_of "B" "西路2号" 1 2; line_of "A" "东路9号" 6 3 ].

(** A line with set count 3 and the barcode file "PID123.pdf". *)
Definition barcode_line : Order :=
  {| SKU := VStr "ABC";
     商品名称 := "水杯";
     商品图片数据 := None;
     SKU前缀 := "ABC";
     商品详情 := "蓝色";
     套数 := 3;
     总数量 := 15;
     货品id := VStr "PID123";
     仓库地址 := VStr "东路1号";
     仓库名称 := VStr "东仓";
     原始顺序 := 0;
     barcode_data := Some [x25; x50; x44; x46];
     barcode_filename := Some "PID123.pdf" |}.

(** ** Folder names *)

(** The characters that the folder names may not hold (lines 469 and
    477): backslash, slash, asterisk, question mark, colon, double quote,
    angle brackets and bar. *)
Definition is_reserved (c : ascii) : bool :=
  match c with
  | "092" | "/" | "*" | "?" | ":" | "034" | "<" | ">" | "|" => true
  | _ => false
  end%char.

(** [re.sub] of lines 469 and 477: every reserved character becomes an
    underscore. *)
Fixpoint sanitize (s : string) : string :=
  match s with
  | String c s' => String (if is_reserved c then "_"%char else c) (sanitize s')
  | EmptyString => EmptyString
  end.

(** ** Statements on the tables *)

(** Every row of the table holds one cell per column. *)
Definition rectangular (df : DataFrame) : Prop :=
  Forall (λ row : Series, length row = length (columns df)) (rows df).

(** The row writes the key [k] of the product-id index: its id text is
    [k], or reads as the number whose text is [k]. *)
Definition writes_key (col : nat) (k : string) (row : Series) : bool :=
  match row_product_id col row with
  | Some p =>
      bool_decide (p = k)
      || match normalize_id p with
         | Ok n => bool_decide (n = k)
         | Raise _ => false
         end
  | None => false
  end.


(** One of the patterns of a key accepts the column label (line 129). *)
Definition matching_column (patterns : list string) (col_name : string) : bool :=
  existsb (pattern_matches (py_strip col_name)) patterns.

(** The position of the first column label that [p] accepts. *)
Fixpoint first_column (p : string → bool) (cols : list string) : option nat :=
  match cols with
  | [] => None
  | c :: cols' => if p c then Some 0%nat else S <$> first_column p cols'
  end.

(** The last row of the table that writes the key [k]. *)
Definition last_writer (col : nat) (k : string) (rows : list Series)
    : option Series :=
  last (filter (λ row, writes_key col k row = true) rows).

(** The text reads as an infinite number, as "inf" and "1e999" do. *)
Definition reads_infinite (s : string) : Prop :=
  ∃ neg, float_of_str s = Ok (FInf neg).

(** ** Statements on the supplier cache *)

(** The text of a cell names a supplier (line 154). *)
Definition is_heading (cell_str : string) : bool :=
  has_cjk cell_str || py_in "供应商" cell_str || py_in "厂" cell_str.

(** The trimmed text of a cell that is not missing. *)
Definition cell_text (cell : value) : option string :=
  if pd_notna cell then Some (py_strip (py_str cell)) else None.

(** The supplier in force after the cells: the last heading among them,
    or the default supplier. *)
Definition current_supplier (cells : list value) : string :=
  default "其他供应商"
    (last (filter (λ t, is_heading t = true) (omap cell_text cells))).

(** The SKU texts among the cells, in reading order. *)
Definition sku_texts (cells : list value) : list string :=
  filter (λ t, is_heading t = false) (omap cell_text cells).

(** The elements of a list in the order of their first occurrence. *)
Definition first_occurrences {A} `{EqDecision A} (l : list A) : list A :=
  reverse (remove_dups (reverse l)).

(** ** Statements on the processing of a store *)

(** The rows of a store in the order in which [process_order_data] visits
    them. *)
Definition visited_rows (store_data : DataFrame) : list Series :=
  py_sorted
    (λ row, seq_of_value (row_get (columns store_data) row "原始顺序" (VInt 0)))
    (rows store_data).

(** The sequence column of a store holds pairwise different integers, as
    it does in every part of the main table after [__init__]. *)
Definition sequenced (store_data : DataFrame) : Prop :=
  (∀ row, row ∈ rows store_data →
          ∃ n, row_get (columns store_data) row "原始顺序" VNaN = VInt n)
  ∧ NoDup ((λ row, row_get (columns store_data) row "原始顺序" VNaN)
           <$> rows store_data).

(** The lines made from the rows: the supplier, the mark [found] and the
    line of each row. *)
Definition lines_of_rows (self : ShippingOrderGenerator) (cols : list string)
    (done : list Series) (lines : list (string * bool * Order)) : Prop :=
  Forall2 (λ row line, order_of_row self cols (order_columns cols) row = Ok line)
          done lines.

(** The state of the loop of [process_order_data] after the rows that
    gave [lines]. *)
Definition process_inv (st : list (string * list Order) * list Order)
    (lines : list (string * bool * Order)) : Prop :=
  st.2 = snd <$> filter (λ l, l.1.2 = false) lines
  ∧ NoDup st.1.*1
  ∧ (∀ supplier os,
       odict_get supplier st.1 = Some os →
       os ≠ []
       ∧ os = snd <$> filter (λ l, l.1.2 = true ∧ l.1.1 = supplier) lines)
  ∧ (∀ l, l ∈ lines → l.1.2 = true → is_Some (odict_get l.1.1 st.1))
  ∧ concat st.1.*2 ++ st.2 ≡ₚ snd <$> lines.

(** ** Statements on the document *)








(** ** Statements on the run of a store *)

(** The set count and the total quantity that a row of a store
    contributes ([0] when the reading raises). *)
Definition row_sets (cols : list string) (row : Series) : Z :=
  match _safe_int (get_or cols row (sets_col (order_columns cols)) (VInt 0)) 0 with
  | Ok n => n
  | Raise _ => 0
  end.

Definition row_total (self : ShippingOrderGenerator) (cols : list string)
    (row : Series) : Z :=
  match calculate_total_quantity self
          (get_or cols row (sku_col (order_columns cols)) (VStr ""))
          (get_or cols row (sets_col (order_columns cols)) (VInt 0))
          (get_or cols row (product_id_col (order_columns cols)) (VStr "")) with
  | Ok t => t
  | Raise _ => 0
  end.

(** Sum of a quantity over the rows of a table. *)
Definition sum_rows (f : Series → Z) (rows : list Series) : Z :=
  foldr (λ row acc, f row + acc) 0 rows.

(** The lines of the documents of a store (lines 480 and 498): the merged
    lines of every supplier and the merged abnormal lines. *)
Definition document_lines (buckets : list (string * list Order))
    (abnormal : list Order) : list Order :=
  concat (merge_orders <$> buckets.*2) ++ merge_orders abnormal.

(** A row of the name table names the prefix (lines 205 and 206). *)
Definition name_row_matches (prefix : string) (row : Series) : bool :=
  match row with
  | c0 :: _ :: _ => pd_notna c0 && py_in prefix (py_str c0)
  | _ => false
  end.

(** ** Further sample data *)



(** The rows of one store: two SKUs of known suppliers and one unknown
    SKU, not in sequence order. *)
Definition sample_store : DataFrame :=
  {| columns := ["货品编码"; "货品Id"; "发货数量"; "仓库名称"; "仓库地址"; "原始顺序"];
     rows := [ [VStr "XYZ-2X"; VStr "77"; VInt 1; VStr "东仓"; VStr "东路1号"; VInt 2];
               [VStr "ABC-6X"; VStr "123"; VInt 4; VStr "东仓"; VStr "东路1号"; VInt 0];
               [VStr "QQQ"; VStr "5"; VStr "2"; VStr "西仓"; VStr "西路2号"; VInt 1] ] |}.

Definition sample_processed : list (string * list Order) * list Order :=
  match process_order_data sample_generator sample_store with
  | Ok r => r
  | Raise _ => ([], [])
  end.

(** A generator with two barcode files, one of them without content. *)
Definition barcoded_generator : ShippingOrderGenerator :=
  {| main_df := assign_sequence sample_main_df;
     sku_id_df := sample_sku_id_df;
     supplier_sku_df := sample_supplier_df;
     sku_name_df := sample_name_df;
     barcode_files_dict := [("empty-123.pdf", []); ("label-77.pdf", [x25; x50])];
     image_files_dict := [];
     _product_id_index := sample_index;
     _supplier_sku_cache := _build_supplier_cache sample_supplier_df;
     _image_cache := [];
     col_mapping := _identify_columns sample_sku_id_df |}.

Definition barcoded_processed : list (string * list Order) * list Order :=
  match process_order_data barcoded_generator sample_store with
  | Ok r => r
  | Raise _ => ([], [])
  end.

(** * Properties *)

(** ** Texts *)

Lemma string_app_cons (c : ascii) (s t : string) :
  String c s +:+ t = String c (s +:+ t).
Proof. reflexivity. Qed.

Lemma string_app_nil_l (t : string) : "" +:+ t = t.
Proof. reflexivity. Qed.

Lemma string_app_length (s t : string) :
  String.length (s +:+ t) = (String.length s + String.length t)%nat.
Proof.
  induction s as [|c s IH]; [done|].
  rewrite string_app_cons. simpl. by rewrite IH.
Qed.

Lemma string_app_assoc (s t u : string) : (s +:+ t) +:+ u = s +:+ (t +:+ u).
Proof.
  induction s as [|c s IH]; [done|]. rewrite !string_app_cons. by rewrite IH.
Qed.

Lemma string_app_nil_r (s : string) : s +:+ "" = s.
Proof.
  induction s as [|c s IH]; [done|]. rewrite string_app_cons. by rewrite IH.
Qed.

Lemma string_forall_app (p : ascii → bool) (s t : string) :
  string_forall p (s +:+ t) = string_forall p s && string_forall p t.
Proof.
  induction s as [|c s IH]; [done|].
  rewrite string_app_cons. simpl. by rewrite IH, andb_assoc.
Qed.

Lemma string_forall_impl (p q : ascii → bool) (s : string) :
  (∀ c, p c = true → q c = true) →
  string_forall p s = true → string_forall q s = true.
Proof.
  intros Hpq. induction s as [|c s IH]; simpl; [done|].
  intros [Hc Hs]%andb_prop. by rewrite (Hpq _ Hc), IH.
Qed.

(** ** Empty prefix *)

Lemma startswith_empty (s : string) : startswith "" s = true.
Proof. by destruct s. Qed.

Lemma py_in_empty (s : string) : py_in "" s = true.
Proof. destruct s; simpl; by rewrite ?startswith_empty. Qed.

(** C9: for the empty SKU prefix the three fuzzy lookups return before
    their scan: the supplier lookup gives the default supplier with
    [found = false], the image lookup gives no image and the name lookup
    gives the empty text; the scan itself would have matched the first
    entry, whatever its key, because the empty text is contained in every
    text. *)
Theorem empty_prefix_short_circuits (self : ShippingOrderGenerator) :
  get_supplier_group self "" = ("其他供应商", false)
  ∧ find_image_data self "" = None
  ∧ get_product_name self "" = ""
  ∧ (∀ key : string, py_in "" key = true)
  ∧ (∀ (V : Type) (key : string) (v : V) (cache : list (string * V)),
       fuzzy_scan "" ((key, v) :: cache) = Some v).
Proof.
  split_and!; [reflexivity..| |].
  - apply py_in_empty.
  - intros V key v cache. unfold fuzzy_scan. simpl.
    by rewrite py_in_empty.
Qed.

(** ** Quantity calculator *)

Lemma get_row_some_nonempty self product_id row :
  _get_row_by_product_id self product_id = Ok (Some row) →
  str_truthy (_safe_str product_id) = true.
Proof.
  unfold _get_row_by_product_id.
  destruct (str_truthy (_safe_str product_id)); [done|]. simpl. congruence.
Qed.

(** The quantity chain, step by step. *)
Lemma calculate_total_quantity_steps self sku sets product_id :
  calculate_total_quantity self sku sets product_id =
  (sets_int ← _safe_int sets 0;
   if sets_int <=? 0 then Ok 0
   else
     unit_qty ← table_unit_quantity self product_id;
     match unit_qty with
     | Some unit_qty => Ok (sets_int * unit_qty)
     | None =>
         sku_str ← substituted_sku self sku product_id;
         if str_truthy sku_str then
           match _get_multiplier_from_sku sku_str with
           | Some multiplier =>
               if bool_decide (multiplier ≠ 0) then Ok (sets_int * multiplier)
               else Ok sets_int
           | None => Ok sets_int
           end
         else Ok sets_int
     end).
Proof.
  unfold calculate_total_quantity, table_unit_quantity, substituted_sku.
  destruct (_safe_int sets 0) as [n|e]; simpl; [|done].
  destruct (n <=? 0); [done|].
  destruct (str_truthy (_safe_str product_id)) eqn:Hpid; simpl.
  - destruct (col_mapping self !! "单套个数") as [col|]; simpl.
    + destruct (_get_row_by_product_id self product_id) as [[row|]|e]; simpl;
        try done.
      destruct (iloc row col) as [cell|e]; simpl; [|done].
      destruct (_safe_int cell 0) as [u|e]; simpl; [|done].
      by destruct (0 <? u).
    + done.
  - by rewrite andb_false_r.
Qed.

(** C1: when [sets] parses to a positive integer [n], the unit-quantity
    column is recognized, [product_id] resolves to a reference record and
    the unit quantity [u] of that record is positive, the total quantity is
    [n * u], whatever the SKU is (so also when it carries a multiplier
    suffix). *)
Theorem calculate_total_quantity_table_lookup
    (self : ShippingOrderGenerator) (sku sets product_id : value)
    (n u : Z) (col : nat) (row : Series) (cell : value) :
  _safe_int sets 0 = Ok n → 0 < n →
  col_mapping self !! "单套个数" = Some col →
  _get_row_by_product_id self product_id = Ok (Some row) →
  row !! col = Some cell →
  _safe_int cell 0 = Ok u → 0 < u →
  calculate_total_quantity self sku sets product_id = Ok (n * u).
Proof.
  intros Hsets Hn Hcol Hrow Hcell Hu Hpos.
  rewrite calculate_total_quantity_steps, Hsets. simpl.
  destruct (Z.leb_spec n 0); [lia|].
  unfold table_unit_quantity.
  rewrite (get_row_some_nonempty _ _ _ Hrow), Hcol, Hrow. simpl.
  unfold iloc. rewrite Hcell. simpl. rewrite Hu. simpl.
  by destruct (Z.ltb_spec 0 u); [|lia].
Qed.

Lemma calculate_total_quantity_table_lookup_witness :
  calculate_total_quantity sample_generator (VStr "ABC-6X") (VInt 4) (VStr "123")
  = Ok 20.
Proof.
  apply (calculate_total_quantity_table_lookup sample_generator
           (VStr "ABC-6X") (VInt 4) (VStr "123") 4 5 2%nat
           [VStr "ABC"; VStr "123.0"; VInt 5; VStr "蓝色"] (VInt 5)).
  - vm_compute. reflexivity.
  - lia.
  - vm_compute. reflexivity.
  - vm_compute. reflexivity.
  - reflexivity.
  - vm_compute. reflexivity.
  - lia.
Defined.

(** ** Supplier lookup *)

Lemma fuzzy_scan_first {V} (needle : string) (cache before after : list (string * V))
    (key : string) (v : V) :
  cache = before ++ (key, v) :: after →
  contains_either needle key = true →
  (∀ kv, kv ∈ before → contains_either needle kv.1 = false) →
  fuzzy_scan needle cache = Some v.
Proof.
  intros -> Hkey Hbefore. unfold fuzzy_scan, contains_either in *.
  induction before as [|kv before IH]; simpl.
  - by rewrite Hkey.
  - rewrite (Hbefore kv) by left. apply IH. intros kv' ?. apply Hbefore. by right.
Qed.

Lemma fuzzy_scan_none {V} (needle : string) (cache : list (string * V)) :
  (∀ kv, kv ∈ cache → contains_either needle kv.1 = false) →
  fuzzy_scan needle cache = None.
Proof.
  intros Hall. unfold fuzzy_scan, contains_either in *.
  induction cache as [|kv cache IH]; simpl; [done|].
  rewrite (Hall kv) by left. apply IH. intros kv' ?. apply Hall. by right.
Qed.

(** C6 (as amended): for every non-empty SKU prefix the supplier lookup
    returns the entry stored under the prefix when the prefix is a key of
    the index; otherwise the first entry, in insertion order, whose key
    contains the prefix or is contained in it; otherwise the default
    supplier with [found = false]. *)
Theorem get_supplier_group_nonempty_prefix
    (self : ShippingOrderGenerator) (prefix : string) :
  prefix ≠ "" → supplier_lookup_as_specified self prefix.
Proof.
  intros Hne. unfold supplier_lookup_as_specified, get_supplier_group.
  assert (str_truthy prefix = true) as -> by (by destruct prefix).
  cbn [negb]. split_and!.
  - by intros result ->.
  - intros -> before key result after Hcache Hkey Hbefore.
    by rewrite (fuzzy_scan_first _ _ _ _ _ _ Hcache Hkey Hbefore).
  - intros -> Hall. by rewrite (fuzzy_scan_none _ _ Hall).
Qed.

Lemma get_supplier_group_nonempty_prefix_witness :
  get_supplier_group sample_generator "AB" = ("甲供应商", true).
Proof.
  refine (proj1 (proj2 (get_supplier_group_nonempty_prefix sample_generator "AB" _))
            eq_refl [] "ABC" ("甲供应商", true)
            [("DEF", ("甲供应商", true)); ("XYZ", ("乙厂", true))] eq_refl eq_refl _).
  - discriminate.
  - intros kv Hin. by apply elem_of_nil in Hin.
Defined.

(** The empty prefix is not a key of the sample index and is contained in
    its first key; the lookup still answers with the default supplier. *)
Lemma get_supplier_group_empty_prefix_counterexample :
  _supplier_sku_cache sample_generator
  = [("ABC", ("甲供应商", true)); ("DEF", ("甲供应商", true)); ("XYZ", ("乙厂", true))]
  ∧ contains_either "" "ABC" = true
  ∧ get_supplier_group sample_generator "" = ("其他供应商", false)
  ∧ ¬ supplier_lookup_as_specified sample_generator "".
Proof.
  split_and!; [vm_compute; reflexivity..|].
  intros (_ & H & _).
  specialize (H eq_refl [] "ABC" ("甲供应商", true)
                [("DEF", ("甲供应商", true)); ("XYZ", ("乙厂", true))]
                eq_refl eq_refl).
  assert (get_supplier_group sample_generator "" = ("甲供应商", true)) as Habs.
  { apply H. intros kv Hin. by apply elem_of_nil in Hin. }
  vm_compute in Habs. discriminate.
Qed.

(** ** The store-column guard *)

Lemma index_of_elem (c : string) (cols : list string) :
  c ∈ cols → is_Some (index_of c cols).
Proof.
  induction 1 as [c cols|c c' cols _ IH]; simpl.
  - rewrite decide_True by done. eauto.
  - destruct (decide (c' = c)); [eauto|].
    destruct IH as [i ->]. simpl. eauto.
Qed.

Lemma assign_sequence_columns (df : DataFrame) (c : string) :
  c ∈ columns (assign_sequence df) ↔ c ∈ columns df ∨ c = "原始顺序".
Proof.
  unfold assign_sequence.
  destruct (index_of "原始顺序" (columns df)) as [i|] eqn:Hi; simpl.
  - split; [auto|]. intros [?| ->]; [done|].
    clear -Hi. revert i Hi.
    induction (columns df) as [|c' cols IH]; intros i Hi; simpl in *; [done|].
    destruct (decide (c' = "原始顺序")) as [->|]; [left|].
    destruct (index_of "原始顺序" cols) as [j|]; simplify_eq/=.
    right. by eapply IH.
  - rewrite elem_of_app, list_elem_of_singleton. tauto.
Qed.

Lemma first_present_none (candidates cols : list string) :
  (∀ c, c ∈ candidates → c ∉ cols) → first_present candidates cols = None.
Proof.
  intros H. unfold first_present.
  induction candidates as [|c candidates IH]; simpl; [done|].
  rewrite bool_decide_eq_false_2 by (apply H; left).
  apply IH. intros c' ?. apply H. by right.
Qed.

(** C8: when no column of the order table bears one of the store-column
    aliases, the run shows one error, whose text lists the columns of the
    table held by the generator (every column of the order table is among
    them), and returns no archive; the packaging of the stores is not
    entered, whatever it would do. *)
Theorem generate_all_orders_without_store_column
    (repr_label : string → string) (Zip : Type)
    (package_stores : ShippingOrderGenerator → string → res Zip)
    (main sku_id supplier_sku sku_name : DataFrame)
    (barcode_files image_files : list (string * bytes))
    (self : ShippingOrderGenerator) :
  (∀ c, c ∈ store_aliases → c ∉ columns main) →
  __init__ main sku_id supplier_sku sku_name barcode_files image_files = Ok self →
  generate_all_orders repr_label Zip package_stores self
  = ([st_error ("❌ 未找到店铺列。可用列: " +:+ "[" +:+
                String.concat ", " (repr_label <$> columns (main_df self))
                +:+ "]")],
     Ok None)
  ∧ (∀ c, c ∈ columns main → c ∈ columns (main_df self)).
Proof.
  intros Hno Hinit. unfold __init__ in Hinit.
  destruct (_build_product_id_index _ _) as [index|e]; simplify_eq/=.
  split.
  - unfold generate_all_orders.
    rewrite first_present_none; [done|]. cbn [main_df].
    intros c Hc [Hin| ->]%assign_sequence_columns; [by eapply Hno|].
    vm_compute in Hc. by repeat (inversion_clear Hc as [|??? Hc']; rename Hc' into Hc).
  - intros c Hc. apply assign_sequence_columns. by left.
Qed.

Lemma generate_all_orders_without_store_column_witness :
  generate_all_orders (λ c, "'" +:+ c +:+ "'") unit (λ _ _, Ok ()) sample_generator
  = ([st_error "❌ 未找到店铺列。可用列: ['门店', '货品编码', '货品Id', '发货数量', '仓库名称', '仓库地址', '原始顺序']"],
     Ok None).
Proof.
  refine (proj1 (generate_all_orders_without_store_column
            (λ c, "'" +:+ c +:+ "'") unit (λ _ _, Ok ())
            sample_main_df sample_sku_id_df sample_supplier_df sample_name_df
            [] [] sample_generator _ _)).
  - intros c Hc Hin. vm_compute in Hc, Hin.
    repeat (apply elem_of_cons in Hc as [->|Hc]);
      [| | | |by apply elem_of_nil in Hc];
      repeat (apply elem_of_cons in Hin as [Hin|Hin]; [discriminate|]);
      by apply elem_of_nil in Hin.
  - vm_compute. reflexivity.
Defined.

(** ** The multiplier suffix *)










(** ** Dictionaries and sorting *)

Section odict_facts.
Context {K V : Type} `{EqDecision K}.
Implicit Types (k : K) (v : V) (d : list (K * V)).

Lemma odict_values_set_new k v d :
  odict_get k d = None → odict_values (odict_set k v d) = odict_values d ++ [v].
Proof.
  unfold odict_values. induction d as [|[k' v'] d IH]; csimpl; [done|].
  destruct (decide (k' = k)); [done|]. intros Hd. csimpl. by rewrite IH.
Qed.

Lemma odict_get_set_eq k v d : odict_get k (odict_set k v d) = Some v.
Proof.
  induction d as [|[k' v'] d IH]; simpl.
  - by rewrite decide_True.
  - destruct (decide (k' = k)); simpl; [by rewrite decide_True|].
    by rewrite decide_False.
Qed.

Lemma odict_get_set_ne k k' v d :
  k ≠ k' → odict_get k' (odict_set k v d) = odict_get k' d.
Proof.
  intros Hne. induction d as [|[k0 v0] d IH]; simpl.
  - by rewrite decide_False.
  - destruct (decide (k0 = k)) as [->|]; simpl.
    + by rewrite !decide_False.
    + destruct (decide (k0 = k')); [done|]. apply IH.
Qed.

Lemma odict_get_elem k v d : odict_get k d = Some v → (k, v) ∈ d.
Proof.
  induction d as [|[k' v'] d IH]; simpl; [done|].
  destruct (decide (k' = k)) as [->|]; [intros [= ->]; left|right; auto].
Qed.
End odict_facts.

Section sorted_facts.
Context {A : Type} (key : A → Z).

Lemma insert_sorted_perm (x : A) (l : list A) : insert_sorted key x l ≡ₚ x :: l.
Proof.
  induction l as [|y l IH]; simpl; [done|].
  destruct (key x <=? key y); [done|]. rewrite IH. apply Permutation_swap.
Qed.

Lemma py_sorted_perm (l : list A) : py_sorted key l ≡ₚ l.
Proof.
  induction l as [|x l IH]; simpl; [done|].
  by rewrite insert_sorted_perm, IH.
Qed.

Lemma insert_sorted_sorted (x : A) (l : list A) :
  StronglySorted (λ a b, key a ≤ key b) l →
  StronglySorted (λ a b, key a ≤ key b) (insert_sorted key x l).
Proof.
  induction 1 as [|y l Hl IH Hy]; simpl.
  - repeat constructor.
  - destruct (Z.leb_spec (key x) (key y)).
    + constructor; [by constructor|]. constructor; [done|].
      eapply Forall_impl; [exact Hy|]. simpl. lia.
    + constructor; [done|]. rewrite insert_sorted_perm.
      constructor; [lia|done].
Qed.

Lemma py_sorted_sorted (l : list A) :
  StronglySorted (λ a b, key a ≤ key b) (py_sorted key l).
Proof.
  induction l as [|x l IH]; simpl; [constructor|].
  by apply insert_sorted_sorted.
Qed.
End sorted_facts.

(** ** Merging *)

Lemma total_of_app (f : Order → Z) (l1 l2 : list Order) :
  total_of f (l1 ++ l2) = total_of f l1 + total_of f l2.
Proof. induction l1 as [|o l1 IH]; simpl; [done|]. rewrite IH. lia. Qed.

Lemma total_of_perm (f : Order → Z) (l1 l2 : list Order) :
  l1 ≡ₚ l2 → total_of f l1 = total_of f l2.
Proof. induction 1; simpl; lia. Qed.

Lemma total_of_set_existing (f : Order → Z) (k : string) (m v : Order)
    (d : list (string * Order)) :
  odict_get k d = Some m →
  total_of f (odict_values (odict_set k v d))
  = total_of f (odict_values d) - f m + f v.
Proof.
  unfold odict_values. induction d as [|[k' v'] d IH]; csimpl; [done|].
  destruct (decide (k' = k)).
  - intros [= ->]. csimpl. lia.
  - intros Hd. csimpl. rewrite IH by done. lia.
Qed.

Lemma merge_step_total (f : Order → Z) (d : list (string * Order)) (o : Order) :
  (∀ m, f (add_quantities m (套数 o) (总数量 o)) = f m + f o) →
  total_of f (odict_values (merge_step d o)) = total_of f (odict_values d) + f o.
Proof.
  intros Hf. unfold merge_step.
  destruct (odict_get (merge_key o) d) as [m|] eqn:Hget.
  - rewrite (total_of_set_existing f _ m) by done. rewrite Hf. lia.
  - rewrite odict_values_set_new by done. rewrite total_of_app. simpl. lia.
Qed.

Lemma merge_fold_total (f : Order → Z) (l : list Order)
    (d : list (string * Order)) :
  (∀ m o, f (add_quantities m (套数 o) (总数量 o)) = f m + f o) →
  total_of f (odict_values (foldl merge_step d l))
  = total_of f (odict_values d) + total_of f l.
Proof.
  intros Hf. revert d. induction l as [|o l IH]; intros d; simpl; [lia|].
  rewrite IH, merge_step_total by done. lia.
Qed.

Lemma merge_orders_total (f : Order → Z) (lines : list Order) :
  (∀ m o, f (add_quantities m (套数 o) (总数量 o)) = f m + f o) →
  total_of f (merge_orders lines) = total_of f lines.
Proof.
  intros Hf. unfold merge_orders.
  rewrite (total_of_perm f _ _ (py_sorted_perm _ _)).
  rewrite merge_fold_total by done. simpl.
  apply total_of_perm, py_sorted_perm.
Qed.

(** C10: merging conserves the aggregate quantities: the set counts of
    the merged lines add up to the set counts of the input lines, and so
    do the total quantities. *)
Theorem merge_orders_conserves_totals (lines : list Order) :
  total_of 套数 (merge_orders lines) = total_of 套数 lines
  ∧ total_of 总数量 (merge_orders lines) = total_of 总数量 lines.
Proof. split; by apply merge_orders_total. Qed.

(** C2 (the code at the failing input): two lines that differ in warehouse
    name and in product id share the key text "A_B_C" and come out as one
    line, which carries the fields of the first and the summed
    quantities. *)
Theorem merge_orders_key_collision :
  仓库名称 colliding_line_1 ≠ 仓库名称 colliding_line_2
  ∧ 货品id colliding_line_1 ≠ 货品id colliding_line_2
  ∧ merge_key colliding_line_1 = merge_key colliding_line_2
  ∧ merge_orders [colliding_line_1; colliding_line_2]
    = [add_quantities colliding_line_1 3 3].
Proof. split_and!; [discriminate..| |]; vm_compute; reflexivity. Qed.

(** ** Grouping by warehouse *)

Section odict_keys_facts.
Context {K V : Type} `{EqDecision K}.
Implicit Types (k : K) (v : V) (d : list (K * V)).

Lemma odict_get_none_keys k d : odict_get k d = None ↔ k ∉ d.*1.
Proof.
  induction d as [|[k' v'] d IH]; csimpl.
  - split; [intros _; apply not_elem_of_nil|done].
  - rewrite not_elem_of_cons. destruct (decide (k' = k)) as [->|].
    + split; [done|]. by intros [].
    + rewrite IH. split; [intros ?; split; [congruence|done]|by intros [_ ?]].
Qed.

Lemma odict_keys_set k v d :
  (odict_set k v d).*1
  = match odict_get k d with Some _ => d.*1 | None => d.*1 ++ [k] end.
Proof.
  induction d as [|[k' v'] d IH]; csimpl; [done|].
  destruct (decide (k' = k)) as [->|]; csimpl; [done|].
  rewrite IH. by destruct (odict_get k d).
Qed.

Lemma odict_set_NoDup k v d : NoDup d.*1 → NoDup (odict_set k v d).*1.
Proof.
  intros Hd. rewrite odict_keys_set.
  destruct (odict_get k d) eqn:Hget; [done|].
  apply NoDup_app. split_and!; [done| |apply NoDup_singleton].
  intros k' Hk' ->%list_elem_of_singleton.
  by apply odict_get_none_keys in Hget.
Qed.

Lemma odict_elem_get k v d : NoDup d.*1 → (k, v) ∈ d → odict_get k d = Some v.
Proof.
  induction d as [|[k' v'] d IH]; csimpl; [by intros _ ?%elem_of_nil|].
  intros [Hk' Hd]%NoDup_cons [[= -> ->]|Hin]%elem_of_cons.
  - by rewrite decide_True.
  - rewrite decide_False; [by apply IH|].
    intros ->. apply Hk'. apply list_elem_of_fmap. by exists (k, v).
Qed.
End odict_keys_facts.






Lemma NoDup_fmap_transfer {A B C} (f : A → B) (g : A → C) (l : list A) :
  (∀ x y, x ∈ l → y ∈ l → g x = g y → f x = f y) →
  NoDup (f <$> l) → NoDup (g <$> l).
Proof.
  induction l as [|x l IH]; csimpl; [constructor|].
  intros Hfg [Hx Hl]%NoDup_cons. apply NoDup_cons. split.
  - intros (y & Hxy & Hy)%list_elem_of_fmap. apply Hx, list_elem_of_fmap.
    exists y. split; [|done]. apply Hfg; [left|by right|done].
  - apply IH; [|done]. intros y z ??. apply Hfg; by right.
Qed.





(** ** What merging keeps *)

Lemma add_quantities_zero (o : Order) : add_quantities o 0 0 = o.
Proof. destruct o. unfold add_quantities. simpl. f_equal; lia. Qed.

Lemma add_quantities_add (o : Order) (a b a' b' : Z) :
  add_quantities (add_quantities o a b) a' b' = add_quantities o (a + a') (b + b').
Proof. unfold add_quantities. simpl. f_equal; lia. Qed.

Lemma merge_key_add_quantities (o : Order) (a b : Z) :
  merge_key (add_quantities o a b) = merge_key o.
Proof. done. Qed.

Lemma merge_step_get (d : list (string * Order)) (o : Order) (k : string) :
  odict_get k (merge_step d o) =
  if decide (merge_key o = k) then
    Some (match odict_get k d with
          | Some m => add_quantities m (套数 o) (总数量 o)
          | None => o
          end)
  else odict_get k d.
Proof.
  unfold merge_step. destruct (decide (merge_key o = k)) as [<-|Hne].
  - destruct (odict_get (merge_key o) d); by rewrite odict_get_set_eq.
  - destruct (odict_get (merge_key o) d); by rewrite odict_get_set_ne.
Qed.

Lemma merge_step_inv (d : list (string * Order)) (l : list Order) (o : Order) :
  merged_inv d l → merged_inv (merge_step d o) (l ++ [o]).
Proof.
  intros (Hnd & Hmerged & Hall). split_and!.
  - unfold merge_step. destruct (odict_get (merge_key o) d);
      by apply odict_set_NoDup.
  - intros k m. rewrite merge_step_get.
    destruct (decide (merge_key o = k)) as [Hk|Hk].
    + destruct (odict_get k d) as [m0|] eqn:Hget; intros [= <-].
      * destruct (Hmerged _ _ Hget) as (first & rest & Hfilter & ->).
        exists first, (rest ++ [o]). split.
        -- by rewrite filter_app, filter_cons_True, filter_nil, Hfilter.
        -- by rewrite add_quantities_add, !total_of_app; simpl;
             rewrite !Z.add_0_r.
      * exists o, []. split; [|by rewrite add_quantities_zero].
        rewrite filter_app, filter_cons_True, filter_nil by done.
        destruct (filter _ l) as [|o1 rest] eqn:Hf; [done|].
        assert (o1 ∈ filter (λ o0, merge_key o0 = k) l) as Ho1
          by (rewrite Hf; left).
        apply list_elem_of_filter in Ho1 as [Hk1 Ho1].
        destruct (Hall _ Ho1) as [m1 Hm1]. congruence.
    + intros Hget. destruct (Hmerged _ _ Hget) as (first & rest & Hfilter & ->).
      exists first, rest. split; [|done].
      by rewrite filter_app, filter_cons_False, filter_nil, app_nil_r.
  - intros o1 Ho1. rewrite merge_step_get.
    destruct (decide (merge_key o = merge_key o1)); [eauto|].
    apply elem_of_app in Ho1 as [Ho1| ->%list_elem_of_singleton]; [auto|done].
Qed.

Lemma merge_fold_inv (l l0 : list Order) (d : list (string * Order)) :
  merged_inv d l0 → merged_inv (foldl merge_step d l) (l0 ++ l).
Proof.
  revert l0 d. induction l as [|o l IH]; intros l0 d Hinv; simpl.
  - by rewrite app_nil_r.
  - replace (l0 ++ o :: l) with ((l0 ++ [o]) ++ l) by (by rewrite <-app_assoc).
    apply IH. by apply merge_step_inv.
Qed.

(** The merged lines have pairwise different keys and every input line
    has its key among them; a merged line is the first line of its key in
    sequence order, with the set counts and total quantities of the later
    lines of that key added; and the merged lines come out in sequence
    order.  Lines are thus combined exactly when their key texts are
    equal. *)
Lemma merge_orders_spec (lines : list Order) :
  let merged := merge_orders lines in
  NoDup (merge_key <$> merged)
  ∧ (∀ o, o ∈ lines → ∃ m, m ∈ merged ∧ merge_key m = merge_key o)
  ∧ (∀ m, m ∈ merged →
       merged_of (merge_key m) m (py_sorted 原始顺序 lines))
  ∧ StronglySorted (λ m1 m2, 原始顺序 m1 ≤ 原始顺序 m2) merged.
Proof.
  intros merged. subst merged. unfold merge_orders.
  set (sorted := py_sorted 原始顺序 lines).
  assert (merged_inv [] []) as Hnil.
  { split_and!; [constructor|done|by intros o ?%elem_of_nil]. }
  destruct (merge_fold_inv sorted [] [] Hnil) as (Hnd & Hmerged & Hall).
  simpl in Hmerged, Hall.
  set (d := foldl merge_step [] sorted) in *.
  assert (∀ k m, (k, m) ∈ d → merge_key m = k ∧ merged_of k m sorted) as Hentry.
  { intros k m Hin. apply (odict_elem_get _ _ _ Hnd) in Hin.
    pose proof (Hmerged _ _ Hin) as Hm. split; [|done].
    destruct Hm as (first & rest & Hfilter & ->).
    assert (first ∈ filter (λ o, merge_key o = k) sorted) as Hfirst
      by (rewrite Hfilter; left).
    by apply list_elem_of_filter in Hfirst as [? _]. }
  split_and!.
  - rewrite py_sorted_perm. unfold odict_values. rewrite <-list_fmap_compose.
    apply (NoDup_fmap_transfer fst); [|done].
    intros [k1 m1] [k2 m2] H1 H2. simpl.
    destruct (Hentry _ _ H1) as [<- _], (Hentry _ _ H2) as [<- _]. done.
  - intros o Ho. destruct (Hall o) as [m Hm].
    { subst sorted. by rewrite py_sorted_perm. }
    exists m. apply odict_get_elem in Hm. split.
    + rewrite py_sorted_perm. apply list_elem_of_fmap. by exists (merge_key o, m).
    + by destruct (Hentry _ _ Hm).
  - intros m Hm. rewrite py_sorted_perm in Hm.
    apply list_elem_of_fmap in Hm as ([k m'] & -> & Hin). simpl.
    by destruct (Hentry _ _ Hin) as [-> ?].
  - apply py_sorted_sorted.
Qed.

(** ** The barcode column *)

Lemma for_enumerate_ind {S A} (Q : S → list A → Prop)
    (body : S → nat → A → S) (st0 : S) (l : list A) :
  Q st0 [] →
  (∀ st done x, Q st done → Q (body st (length done) x) (done ++ [x])) →
  Q (for_enumerate body st0 l) l.
Proof.
  intros H0 Hstep. unfold for_enumerate.
  cut (∀ done st,
         Q st done →
         Q (foldl (λ st ix, body st ix.1 ix.2) st
                  (imap (λ i x, ((length done + i)%nat, x)) l))
           (done ++ l)).
  { intros Hcut. apply (Hcut [] st0 H0). }
  induction l as [|x l IH]; intros done st HQ; simpl.
  - by rewrite app_nil_r.
  - rewrite Nat.add_0_r.
    replace (done ++ x :: l) with ((done ++ [x]) ++ l) by (by rewrite <-app_assoc).
    erewrite imap_ext; [apply (IH (done ++ [x])), Hstep, HQ|].
    intros i y _. simpl. rewrite length_app. simpl. f_equal. lia.
Qed.

Lemma ws_cell_lookup (r c : Z) (v : value) (ws : Worksheet) (rc : Z * Z) :
  cells (ws_cell r c v ws) !! rc
  = if decide ((r, c) = rc) then Some v else cells ws !! rc.
Proof. unfold ws_cell. simpl. apply lookup_insert. Qed.

Lemma ws_merge_cells_lookup (r1 c1 r2 c2 : Z) (ws : Worksheet) :
  cells (ws_merge_cells r1 c1 r2 c2 ws) = cells ws.
Proof. done. Qed.

Lemma write_order_barcode (wh_info : Group) (st : excel_state) (i : nat)
    (order : Order) :
  ∃ ws',
    write_order wh_info st i order
    = (st.1.1 + 1, ws', st.2 ++ option_list (emitted_barcode order))
    ∧ cells ws' !! (st.1.1, 9) = Some (barcode_cell order)
    ∧ (∀ r c, r ≠ st.1.1 → cells ws' !! (r, c) = cells st.1.2 !! (r, c)).
Proof.
  destruct st as [[current_row ws] barcode_files]. unfold write_order. simpl.
  unfold barcode_cell, emitted_barcode, resolved_barcode, renamed_barcode.
  destruct (barcode_data order) as [data|], (barcode_filename order) as [filename|];
    try destruct (bytes_truthy data && str_truthy filename);
    simpl; rewrite ?app_nil_r;
    (eexists; split; [reflexivity|]; split;
     [|intros r c Hr];
     destruct (decide (i = 0%nat));
     rewrite ?ws_cell_lookup; repeat case_decide; simplify_eq; done).
Qed.

Lemma omap_snoc {A B} (f : A → option B) (l : list A) (x : A) :
  omap f (l ++ [x]) = omap f l ++ option_list (f x).
Proof. rewrite omap_app. simpl. by destruct (f x). Qed.

Lemma write_order_inv (wh_info : Group) (st : excel_state) (i : nat)
    (order : Order) (done : list Order) :
  barcode_inv st done →
  barcode_inv (write_order wh_info st i order) (done ++ [order]).
Proof.
  intros (Hrow & Hcells & Hfiles).
  destruct (write_order_barcode wh_info st i order) as (ws' & -> & Hnew & Hold).
  unfold barcode_inv. simpl. split_and!.
  - rewrite length_app. simpl. lia.
  - intros k o Hk. destruct (decide (k = length done)) as [->|Hne].
    + rewrite list_lookup_middle in Hk by done. simplify_eq.
      by rewrite <-Hrow.
    + assert (k < length done)%nat as Hlt.
      { apply lookup_lt_Some in Hk. rewrite length_app in Hk. simpl in Hk. lia. }
      rewrite lookup_app_l in Hk by done.
      rewrite Hold by lia. by apply Hcells.
  - by rewrite omap_snoc, Hfiles.
Qed.

Lemma write_group_inv (st : excel_state) (wh_idx : nat) (wh_info : Group)
    (done : list Order) :
  barcode_inv st done →
  barcode_inv (write_group st wh_idx wh_info) (done ++ orders wh_info).
Proof.
  intros Hinv. unfold write_group.
  pose proof (for_enumerate_ind
    (λ st' done', barcode_inv st' (done ++ done'))
    (write_order wh_info) st (orders wh_info)) as Hloop.
  destruct (for_enumerate (write_order wh_info) st (orders wh_info))
    as [[current_row ws] barcode_files].
  destruct Hloop as (Hrow & Hcells & Hfiles).
  { by rewrite app_nil_r. }
  { intros st' done' x Hst'. rewrite app_assoc. by apply write_order_inv. }
  cbn [fst snd] in *. unfold barcode_inv. cbn [fst snd].
  split_and!; [done| |done].
  intros k order Hk. specialize (Hcells k order Hk).
  destruct (st.1.1 <? current_row - 1);
    rewrite ?ws_merge_cells_lookup, ws_cell_lookup;
    by rewrite decide_False by (intros [=]).
Qed.

Lemma add_images_cells (ws : Worksheet) (l : list Order) :
  cells (add_images ws l) = cells ws.
Proof.
  unfold add_images.
  apply (for_enumerate_ind (λ ws' _, cells ws' = cells ws)); [done|].
  intros ws' done order Hws'.
  destruct (商品图片数据 order) as [data|]; [|done].
  by destruct (bytes_truthy data).
Qed.

Lemma concat_fmap_snoc {A B} (f : A → list B) (l : list A) (x : A) :
  concat (f <$> (l ++ [x])) = concat (f <$> l) ++ f x.
Proof. by rewrite fmap_app, concat_app; simpl; rewrite app_nil_r. Qed.

(** C7: in every assembled document the row of the [k]-th line (row
    [4 + k], the lines being those of the warehouse groups in order) has in
    the barcode column the text [s--f] when the line carries a barcode
    payload with file name [f] and has the set count [s], and that text
    paired with the payload is in the list of emitted files; the column
    has the marker "无条码" when the line carries no barcode; and the list
    of emitted files holds exactly the pairs of the lines with a barcode,
    in row order. *)
Theorem create_excel_barcode_column
    (today supplier : string) (lines : list Order) (is_abnormal : bool) :
  let data_rows := concat (orders <$> group_by_warehouse lines) in
  let document := create_excel today supplier lines is_abnormal in
  (∀ k order,
     data_rows !! k = Some order →
     match resolved_barcode order with
     | Some (f, payload) =>
         cells document.1 !! (4 + Z.of_nat k, 9)
         = Some (VStr (str_of_int (套数 order) +:+ "--" +:+ f))
         ∧ (str_of_int (套数 order) +:+ "--" +:+ f, payload) ∈ document.2
     | None => cells document.1 !! (4 + Z.of_nat k, 9) = Some (VStr "无条码")
     end)
  ∧ document.2 = omap emitted_barcode data_rows.
Proof.
  intros data_rows document. subst data_rows document. unfold create_excel.
  set (ws0 := for_enumerate _ _ headers).
  pose proof (for_enumerate_ind
    (λ st' done', barcode_inv st' (concat (orders <$> done')))
    write_group (4, ws0, []) (group_by_warehouse lines)) as Hloop.
  destruct (for_enumerate write_group _ _) as [[current_row ws] barcode_files].
  destruct Hloop as (_ & Hcells & Hfiles).
  { by split_and!. }
  { intros st' done' g Hst'. rewrite concat_fmap_snoc. by apply write_group_inv. }
  simpl in *. rewrite add_images_cells. split; [|done].
  intros k order Hk. specialize (Hcells k order Hk).
  unfold barcode_cell in Hcells.
  destruct (resolved_barcode order) as [[f payload]|] eqn:Hres; [|done].
  split; [done|]. rewrite Hfiles. apply list_elem_of_omap.
  exists order. split; [by eapply list_elem_of_lookup_2|].
  unfold emitted_barcode. by rewrite Hres.
Qed.

(** A line built by [process_order_data] carries a barcode exactly when it
    carries a payload: the payload and the file name are then non-empty. *)
Lemma order_of_row_barcode self cols col_names row supplier found order :
  order_of_row self cols col_names row = Ok (supplier, found, order) →
  match barcode_data order with
  | Some payload =>
      ∃ f, barcode_filename order = Some f
           ∧ resolved_barcode order = Some (f, payload)
  | None => barcode_filename order = None ∧ resolved_barcode order = None
  end.
Proof.
  unfold order_of_row.
  destruct (get_supplier_group _ _) as [s fnd].
  destruct (get_product_details _ _) as [details|]; simpl; [|done].
  destruct (_safe_int _ _) as [sets_int|]; simpl; [|done].
  destruct (calculate_total_quantity _ _ _ _) as [total|]; simpl; [|done].
  unfold find_barcode_data.
  destruct (str_truthy (_safe_str _)) eqn:Hpid; simpl.
  - destruct (List.find _ _) as [[filename content]|] eqn:Hfind;
      intros [= <- <- <-]; simpl; [|done].
    destruct (bytes_truthy content) eqn:Hc; [|done].
    exists filename. split; [done|].
    unfold resolved_barcode. simpl. rewrite Hc.
    apply find_some in Hfind as [_ Hin]. simpl in Hin.
    destruct filename; [|done].
    destruct (_safe_str _); [done|]. by destruct a.
  - by intros [= <- <- <-].
Qed.

Lemma create_excel_barcode_column_witness :
  cells (create_excel "2024-01-01" "甲供应商" [barcode_line] false).1 !! (4, 9)
  = Some (VStr "3--PID123.pdf")
  ∧ ("3--PID123.pdf", [x25; x50; x44; x46])
    ∈ (create_excel "2024-01-01" "甲供应商" [barcode_line] false).2.
Proof.
  exact (proj1 (create_excel_barcode_column "2024-01-01" "甲供应商"
                  [barcode_line] false) 0%nat barcode_line eq_refl).
Defined.

(** ** Rounding to binary64 and back *)

Lemma round_div_exact (q d : Z) : 0 < d → round_div (q * d) d = q.
Proof.
  intros Hd. unfold round_div.
  rewrite Z.mod_mul, Z.div_mul by lia. simpl.
  by destruct d.
Qed.

Lemma round_div_bounds (n d : Z) :
  0 ≤ n → 0 < d → n / d ≤ round_div n d ≤ n / d + 1.
Proof.
  intros Hn Hd. unfold round_div.
  destruct (2 * (n mod d) ?= d); [destruct (Z.even (n / d))|..]; lia.
Qed.

Lemma pow2_pos (a : Z) : 0 ≤ a → 0 < 2 ^ a.
Proof. intros. by apply Z.pow_pos_nonneg. Qed.

Lemma pow2_le (a b : Z) : 0 ≤ a ≤ b → 2 ^ a ≤ 2 ^ b.
Proof. intros. apply Z.pow_le_mono_r; lia. Qed.

(** The estimate [k] of [float_round] is not below the binary logarithm of
    the quotient. *)
Lemma ge_pow2_false (num den k : Z) :
  ge_pow2 num den k = false →
  if 0 <=? k then num < den * 2 ^ k else num * 2 ^ (- k) < den.
Proof.
  unfold ge_pow2. destruct (0 <=? k); intros ?%Z.leb_gt; lia.
Qed.

Lemma log2_quotient_upper (num den : Z) :
  0 < num → 0 < den →
  let k := Z.log2 num - Z.log2 den + 1 in
  if 0 <=? k then num < den * 2 ^ k else num * 2 ^ (- k) < den.
Proof.
  intros Hnum Hden k.
  destruct (Z.log2_spec num Hnum) as [_ Hn].
  destruct (Z.log2_spec den Hden) as [Hd _].
  pose proof (Z.log2_nonneg num). pose proof (Z.log2_nonneg den).
  destruct (Z.leb_spec 0 k).
  - apply Z.lt_le_trans with (2 ^ Z.log2 den * 2 ^ k).
    + rewrite <-Z.pow_add_r by lia.
      replace (Z.log2 den + k) with (Z.succ (Z.log2 num)) by lia. done.
    + apply Z.mul_le_mono_nonneg_r; [|done]. apply Z.lt_le_incl, pow2_pos. lia.
  - apply Z.lt_le_trans with (2 ^ Z.log2 den); [|done].
    apply Z.lt_le_trans with (2 ^ Z.succ (Z.log2 num) * 2 ^ (- k)).
    + apply Z.mul_lt_mono_pos_r; [apply pow2_pos; lia|done].
    + rewrite <-Z.pow_add_r by lia. apply pow2_le. lia.
Qed.

(** The quotient that [float_round] rounds is below [2^53]. *)
Lemma float_round_quotient (num den k s : Z) :
  0 < num → 0 < den →
  (if 0 <=? k + 1 then num < den * 2 ^ (k + 1)
   else num * 2 ^ (- (k + 1)) < den) →
  k - 52 ≤ s →
  if 0 <=? s then num < den * 2 ^ s * 2 ^ 53
  else num * 2 ^ (- s) < den * 2 ^ 53.
Proof.
  intros Hnum Hden Hk Hs.
  destruct (Z.leb_spec 0 s), (Z.leb_spec 0 (k + 1)).
  - apply Z.lt_le_trans with (den * 2 ^ (k + 1)); [done|].
    rewrite <-Z.mul_assoc, <-Z.pow_add_r by lia.
    apply Z.mul_le_mono_nonneg_l; [lia|]. apply pow2_le. lia.
  - assert (0 < 2 ^ (- (k + 1))) by (apply pow2_pos; lia).
    assert (0 < 2 ^ s) by (by apply pow2_pos).
    nia.
  - apply Z.lt_le_trans with (den * 2 ^ (k + 1) * 2 ^ (- s)).
    + apply Z.mul_lt_mono_pos_r; [apply pow2_pos; lia|done].
    + rewrite <-Z.mul_assoc, <-Z.pow_add_r by lia.
      apply Z.mul_le_mono_nonneg_l; [lia|]. apply pow2_le. lia.
  - destruct (Z.le_gt_cases (- s) (- (k + 1))).
    + apply Z.le_lt_trans with (num * 2 ^ (- (k + 1))).
      * apply Z.mul_le_mono_nonneg_l; [lia|]. apply pow2_le. lia.
      * nia.
    + replace (- s) with (- (k + 1) + (- s + (k + 1))) by lia.
      rewrite Z.pow_add_r, Z.mul_assoc by lia.
      apply Z.lt_le_trans with (den * 2 ^ (- s + (k + 1))).
      * apply Z.mul_lt_mono_pos_r; [apply pow2_pos; lia|done].
      * apply Z.mul_le_mono_nonneg_l; [lia|]. apply pow2_le. lia.
Qed.

Lemma float_round_bounds (num den q s : Z) :
  0 < num → 0 < den →
  float_round num den = Some (q, s) →
  0 ≤ q ≤ 2 ^ 53 ∧ (0 ≤ s → q * 2 ^ s < 2 ^ 1024).
Proof.
  intros Hnum Hden. unfold float_round.
  destruct (Z.eqb_spec num 0); [lia|].
  set (k0 := Z.log2 num - Z.log2 den).
  set (k := if ge_pow2 num den k0 then k0 else k0 - 1).
  set (s' := Z.max (k - 52) (-1074)).
  assert (if 0 <=? k + 1 then num < den * 2 ^ (k + 1)
          else num * 2 ^ (- (k + 1)) < den) as Hk.
  { subst k. destruct (ge_pow2 num den k0) eqn:Hge.
    - by apply log2_quotient_upper.
    - replace (k0 - 1 + 1) with k0 by lia. by apply ge_pow2_false. }
  pose proof (float_round_quotient num den k s' Hnum Hden Hk ltac:(lia)) as Hq.
  destruct (Z.leb_spec 0 s') as [Hs'|Hs']; simpl.
  - destruct (Z.leb_spec (2 ^ 1024) (round_div num (den * 2 ^ s') * 2 ^ s'));
      [done|]. intros [= <- <-].
    assert (0 < den * 2 ^ s') by (apply Z.mul_pos_pos; [done|by apply pow2_pos]).
    pose proof (round_div_bounds num (den * 2 ^ s') ltac:(lia) ltac:(lia)).
    assert (num / (den * 2 ^ s') < 2 ^ 53).
    { apply Z.div_lt_upper_bound; lia. }
    assert (0 ≤ num / (den * 2 ^ s')) by (apply Z.div_pos; lia).
    split; [lia|done].
  - intros [= <- <-].
    assert (0 ≤ num * 2 ^ (- s')).
    { apply Z.mul_nonneg_nonneg; [lia|]. apply Z.lt_le_incl, pow2_pos. lia. }
    pose proof (round_div_bounds (num * 2 ^ (- s')) den ltac:(lia) ltac:(lia)).
    assert (num * 2 ^ (- s') / den < 2 ^ 53).
    { apply Z.div_lt_upper_bound; lia. }
    assert (0 ≤ num * 2 ^ (- s') / den) by (apply Z.div_pos; lia).
    split; [lia|]. lia.
Qed.

Lemma float_round_zero (den : Z) : float_round 0 den = Some (0, 0).
Proof. done. Qed.

(** The integer part of a rounded value is representable. *)
Lemma float_trunc_representable (num den q s : Z) :
  0 ≤ num → 0 < den →
  float_round num den = Some (q, s) →
  0 ≤ float_trunc q s ∧ representable (float_trunc q s).
Proof.
  intros Hnum Hden Hround.
  destruct (decide (num = 0)) as [->|].
  { rewrite float_round_zero in Hround. simplify_eq. split; [done|by left]. }
  destruct (float_round_bounds num den q s ltac:(lia) Hden Hround)
    as [[Hq0 Hq] Hover].
  unfold float_trunc. destruct (Z.leb_spec 0 s) as [Hs|Hs].
  - pose proof (pow2_pos s Hs). split; [nia|].
    destruct (decide (q = 0)) as [->|]; [by left|]. right.
    destruct (decide (q = 2 ^ 53)) as [->|].
    + exists (2 ^ 52), (s + 1). split_and!; [done|done|lia| |auto].
      rewrite Z.pow_add_r by lia. change (2 ^ 53) with (2 ^ 52 * 2 ^ 1). lia.
    + exists q, s. split_and!; [lia|lia|done|done|auto].
  - assert (0 < 2 ^ (- s)) by (apply pow2_pos; lia).
    assert (0 ≤ q / 2 ^ (- s)) by (apply Z.div_pos; lia).
    split; [done|].
    destruct (decide (q / 2 ^ (- s) = 0)) as [->|]; [by left|]. right.
    exists (q / 2 ^ (- s)), 0.
    assert (q / 2 ^ (- s) ≤ q / 2 ^ 1).
    { apply Z.div_le_compat_l; [done|]. split; [done|]. apply pow2_le. lia. }
    assert (q / 2 ^ 1 ≤ 2 ^ 53 / 2 ^ 1) by (apply Z.div_le_mono; lia).
    change (2 ^ 53 / 2 ^ 1) with (2 ^ 52) in *.
    split_and!; [lia|lia|done|lia|].
    apply Z.le_lt_trans with (2 ^ 52); [lia|done].
Qed.

(** A representable integer survives the conversion to binary64 and
    back. *)
Lemma float_round_representable (n : Z) :
  0 ≤ n → representable n →
  ∃ q s, float_round n 1 = Some (q, s) ∧ float_trunc q s = n.
Proof.
  intros Hn [->|(q & s & Hq & Hs & -> & Hlt)].
  { by exists 0, 0. }
  pose proof (pow2_pos s Hs) as Hs2.
  unfold float_round.
  destruct (Z.eqb_spec (q * 2 ^ s) 0); [nia|]. cbv zeta.
  change (Z.log2 1) with 0. rewrite Z.sub_0_r.
  rewrite Z.log2_mul_pow2, (Z.add_comm s (Z.log2 q)) by lia.
  assert (0 ≤ Z.log2 q) by apply Z.log2_nonneg.
  assert (Z.log2 q < 53) by (apply Z.log2_lt_pow2; lia).
  assert (ge_pow2 (q * 2 ^ s) 1 (Z.log2 q + s) = true) as ->.
  { unfold ge_pow2. destruct (Z.leb_spec 0 (Z.log2 q + s)); [|lia].
    apply Z.leb_le. rewrite Z.mul_1_l, Z.pow_add_r by lia.
    apply Z.mul_le_mono_nonneg_r; [lia|].
    by destruct (Z.log2_spec q) as [? _]; [lia|]. }
  rewrite Z.max_l by lia.
  set (s' := Z.log2 q + s - 52).
  destruct (Z.leb_spec 0 s') as [Hs'|Hs']; simpl.
  - rewrite Z.mul_1_l.
    replace (q * 2 ^ s) with (q * 2 ^ (s - s') * 2 ^ s').
    2:{ rewrite <-Z.mul_assoc, <-Z.pow_add_r by lia. do 2 f_equal. lia. }
    rewrite round_div_exact by (apply pow2_pos; lia).
    destruct (Z.leb_spec (2 ^ 1024) (q * 2 ^ (s - s') * 2 ^ s')).
    + exfalso. rewrite <-Z.mul_assoc, <-Z.pow_add_r in * by lia.
      replace (s - s' + s') with s in * by lia. lia.
    + eexists _, _. split; [done|]. unfold float_trunc.
      by destruct (Z.leb_spec 0 s'); [|lia].
  - pose proof (round_div_exact (q * 2 ^ s * 2 ^ (- s')) 1 ltac:(lia)) as Hr.
    rewrite Z.mul_1_r in Hr. rewrite Hr.
    eexists _, _. split; [done|]. unfold float_trunc.
    destruct (Z.leb_spec 0 s'); [lia|].
    apply Z.div_mul. apply Z.pow_nonzero; lia.
Qed.

(** ** Decimal texts *)

Lemma is_nat_pretty_char (d : N) :
  (d < 10)%N → Ascii.is_nat (pretty_N_char d) = Some (N.to_nat d).
Proof.
  intros Hd.
  assert (d = 0 ∨ d = 1 ∨ d = 2 ∨ d = 3 ∨ d = 4 ∨ d = 5 ∨ d = 6 ∨ d = 7
          ∨ d = 8 ∨ d = 9)%N as Hcases by lia.
  repeat (destruct Hcases as [->|Hcases]; [reflexivity|]).
  by subst.
Qed.

(** What a decimal digit is not. *)
Lemma is_digit_class (c : ascii) :
  is_digit c = true →
  is_space c = false ∧ is_cspace c = false ∧ lower_char c = c
  ∧ c ≠ "_"%char ∧ c ≠ "-"%char ∧ c ≠ "+"%char ∧ c ≠ "."%char
  ∧ c ≠ "i"%char ∧ c ≠ "n"%char.
Proof.
  destruct c as [[] [] [] [] [] [] [] []]; intros Hc; try discriminate Hc;
    by repeat split.
Qed.

Lemma scan_digits_all (ds : string) (acc : Z) (k : nat) :
  string_forall is_digit ds = true →
  scan_digits ds acc k
  = (acc * 10 ^ Z.of_nat (String.length ds) + int_of_digits ds,
     (k + String.length ds)%nat, "").
Proof.
  unfold int_of_digits. revert acc k.
  induction ds as [|d ds IH]; intros acc k; simpl.
  - intros _. do 2 f_equal; [lia|by rewrite Nat.add_0_r].
  - intros [Hd Hds]%andb_prop. unfold is_digit in Hd.
    destruct (Ascii.is_nat d) as [dv|]; [|done].
    rewrite (IH (acc * 10 + Z.of_nat dv) (S k) Hds),
      (IH (0 * 10 + Z.of_nat dv) 1%nat Hds). simpl.
    rewrite Nat2Z.inj_succ, Z.pow_succ_r by lia.
    do 2 f_equal; [lia|by rewrite Nat.add_succ_r].
Qed.

Lemma scan_digits_app (ds rest : string) (acc : Z) (k : nat) :
  string_forall is_digit ds = true →
  scan_digits (ds +:+ rest) acc k
  = scan_digits rest (acc * 10 ^ Z.of_nat (String.length ds) + int_of_digits ds)
                (k + String.length ds)%nat.
Proof.
  revert acc k. induction ds as [|d ds IH]; intros acc k; simpl.
  - intros _. f_equal; [unfold int_of_digits; simpl; lia|by rewrite Nat.add_0_r].
  - intros [Hd Hds]%andb_prop. unfold is_digit in Hd.
    destruct (Ascii.is_nat d) as [dv|] eqn:Hdv; [|done].
    rewrite (IH (acc * 10 + Z.of_nat dv) (S k) Hds).
    unfold int_of_digits at 2. simpl. rewrite Hdv.
    rewrite (scan_digits_all ds (0 * 10 + Z.of_nat dv) 1%nat Hds). simpl.
    rewrite Nat2Z.inj_succ, Z.pow_succ_r by lia.
    f_equal; [lia|by rewrite Nat.add_succ_r].
Qed.

Lemma scan_digits_nonneg (s : string) (acc : Z) (k : nat) :
  0 ≤ acc → 0 ≤ (scan_digits s acc k).1.1.
Proof.
  revert acc k. induction s as [|c s IH]; intros acc k Hacc; simpl; [done|].
  destruct (Ascii.is_nat c) as [d|]; [|done]. apply IH. lia.
Qed.


(** The digits that [pretty] puts before [s]. *)
Lemma pretty_N_go_digits (x : N) (s : string) :
  ∃ ds, pretty_N_go x s = ds +:+ s
        ∧ string_forall is_digit ds = true
        ∧ int_of_digits ds = Z.of_N x
        ∧ ((0 < x)%N → ds ≠ "").
Proof.
  revert s. induction (N.lt_wf_0 x) as [x _ IH]; intros s.
  destruct (decide (x = 0%N)) as [->|Hx].
  { exists "". by rewrite pretty_N_go_0. }
  rewrite pretty_N_go_step by lia.
  destruct (IH (x `div` 10)%N ltac:(apply N.div_lt; lia)
               (String (pretty_N_char (x `mod` 10)) s))
    as (ds & -> & Hds & Hval & _).
  assert (x `mod` 10 < 10)%N as Hmod by (apply N.mod_lt; lia).
  pose proof (is_nat_pretty_char _ Hmod) as Hchar.
  exists (ds +:+ String (pretty_N_char (x `mod` 10)) "").
  split_and!.
  - by rewrite string_app_assoc.
  - rewrite string_forall_app, Hds. simpl. unfold is_digit. by rewrite Hchar.
  - unfold int_of_digits. rewrite scan_digits_app by done. simpl.
    rewrite Hchar, Hval. simpl.
    pose proof (N.div_mod x 10 ltac:(lia)) as Hdm.
    apply (f_equal Z.of_N) in Hdm. rewrite N2Z.inj_add, N2Z.inj_mul in Hdm.
    change (Z.of_N 10) with 10 in Hdm. rewrite N_nat_Z. lia.
  - intros _. by destruct ds.
Qed.

Lemma pretty_N_numeral (x : N) : is_numeral (pretty x) (Z.of_N x).
Proof.
  unfold pretty, pretty_N. destruct (decide (x = 0%N)) as [->|Hx].
  { by repeat split. }
  destruct (pretty_N_go_digits x "") as (ds & -> & Hds & Hval & Hne).
  rewrite string_app_nil_r. split_and!; [done..|]. apply Hne. lia.
Qed.

(** [str(n)] is an optional minus sign and the numeral of [|n|]. *)
Lemma str_of_int_numeral (n : Z) :
  ∃ ds, str_of_int n = (if n <? 0 then "-" else "") +:+ ds
        ∧ is_numeral ds (Z.abs n).
Proof.
  unfold str_of_int, pretty, pretty_Z. destruct n as [|p|p]; simpl.
  - exists "0". by repeat split.
  - exists (pretty (N.pos p)). split; [done|]. apply (pretty_N_numeral (N.pos p)).
  - exists (pretty (N.pos p)). split; [done|]. apply (pretty_N_numeral (N.pos p)).
Qed.

(** ** Trimming *)

Section strip_facts.
Context (sp : ascii → bool).

Lemma lstrip_id (s : string) :
  string_forall (λ c, negb (sp c)) s = true → lstrip_with sp s = s.
Proof. destruct s as [|c s]; simpl; [done|]. by destruct (sp c). Qed.

Lemma rstrip_id (s : string) :
  string_forall (λ c, negb (sp c)) s = true → rstrip_with sp s = s.
Proof.
  induction s as [|c s IH]; simpl; [done|].
  intros [Hc Hs]%andb_prop. rewrite IH by done.
  destruct s; [|done]. by destruct (sp c).
Qed.

Lemma strip_id (s : string) :
  string_forall (λ c, negb (sp c)) s = true → strip_with sp s = s.
Proof. intros Hs. unfold strip_with. by rewrite lstrip_id, rstrip_id. Qed.









End strip_facts.

Lemma is_cspace_is_space (c : ascii) : is_cspace c = true → is_space c = true.
Proof. destruct c as [[] [] [] [] [] [] [] []]; by intros. Qed.

(** ** Numbers written as texts *)

Lemma py_in_char_absent (a : ascii) (s : string) :
  string_forall (λ c, negb (bool_decide (c = a))) s = true →
  py_in (String a "") s = false.
Proof.
  induction s as [|c s IH]; simpl; [done|].
  intros [Hc Hs]%andb_prop. apply negb_true_iff, bool_decide_eq_false in Hc.
  rewrite decide_False by congruence. by rewrite IH.
Qed.


Lemma scan_sign_digit (d : ascii) (s : string) :
  is_digit d = true → scan_sign (String d s) = (false, String d s).
Proof. destruct d as [[] [] [] [] [] [] [] []]; by intros. Qed.



Lemma digits_nonspace (ds : string) :
  string_forall is_digit ds = true →
  string_forall (λ c, negb (is_space c)) ds = true.
Proof.
  apply string_forall_impl. intros c Hc.
  by destruct (is_digit_class c Hc) as (-> & _).
Qed.



Lemma parse_decimal_nonneg (v : string) (m e : Z) :
  parse_decimal v = Some (m, e) → 0 ≤ m.
Proof.
  unfold parse_decimal.
  pose proof (scan_digits_nonneg v 0 0 ltac:(done)) as Hip.
  destruct (scan_digits v 0 0) as [[ip ni] s1]. simpl in Hip.
  assert (∀ (m0 : Z) (nf : nat) (s2 : string),
            0 ≤ m0 →
            (if decide ((ni + nf)%nat = 0%nat) then None
             else
               match s2 with
               | "" => Some (m0, - Z.of_nat nf)
               | String c s3 =>
                   if decide (c = "e"%char ∨ c = "E"%char) then
                     let '(eneg, s4) := scan_sign s3 in
                     let '(ex, ne, s5) := scan_digits s4 0 0 in
                     if decide (ne = 0%nat) then None
                     else
                       match s5 with
                       | "" => Some (m0, (if eneg then - ex else ex) - Z.of_nat nf)
                       | String _ _ => None
                       end
                   else None
               end) = Some (m, e) →
            0 ≤ m) as Htail.
  { intros m0 nf s2 Hm0. destruct (decide _); [done|].
    destruct s2 as [|c s3]; [by intros [= <- _]|].
    destruct (decide _); [|done].
    destruct (scan_sign s3) as [eneg s4].
    destruct (scan_digits s4 0 0) as [[ex ne] s5].
    destruct (decide (ne = 0%nat)); [done|].
    destruct s5; [|done]. by intros [= <- _]. }
  destruct s1 as [|c s1']; [exact (Htail ip 0%nat "" Hip)|].
  destruct (decide (c = "."%char)) as [->|Hc].
  - pose proof (scan_digits_nonneg s1' ip 0 Hip) as Hm0.
    destruct (scan_digits s1' ip 0) as [[m0 nf] s2]. by apply Htail.
  - intros H. eapply (Htail ip 0%nat (String c s1') Hip).
    revert H. by destruct c as [[] [] [] [] [] [] [] []].
Qed.

Lemma nonspace_noncspace (s : string) :
  string_forall (λ c, negb (is_space c)) s = true →
  string_forall (λ c, negb (is_cspace c)) s = true.
Proof.
  apply string_forall_impl. intros c Hc. simpl in *.
  destruct (is_cspace c) eqn:Hcs; [|done].
  by rewrite (is_cspace_is_space _ Hcs) in Hc.
Qed.



(** [float()] of the text of an integer. *)
Lemma float_of_str_numeral (neg : bool) (ds : string) (x : Z) :
  is_numeral ds x →
  float_of_str ((if neg then "-" else "") +:+ ds)
  = Ok (float_of_decimal neg x 0).
Proof.
  intros (Hds & Hval & Hne).
  set (s := (if neg then "-" else "") +:+ ds).
  assert (string_forall (λ c, negb (is_space c)) s = true) as Hns.
  { subst s. rewrite string_forall_app, (digits_nonspace _ Hds).
    by destruct neg. }
  assert (strip_with is_cspace s = s) as Hstrip.
  { by apply strip_id, nonspace_noncspace. }
  assert (py_in "_" s = false) as Hus.
  { apply py_in_char_absent. subst s. rewrite string_forall_app.
    apply andb_true_intro. split; [by destruct neg|].
    eapply string_forall_impl; [|exact Hds].
    intros c Hc. destruct (is_digit_class c Hc) as (_ & _ & _ & Hc' & _).
    by apply negb_true_iff, bool_decide_eq_false. }
  destruct ds as [|d ds]; [done|].
  simpl in Hds. apply andb_prop in Hds as [Hd Hds].
  assert (scan_sign s = (neg, String d ds)) as Hsign.
  { subst s. destruct neg; [done|]. by apply scan_sign_digit. }
  unfold float_of_str. rewrite Hstrip, Hus, Hsign.
  destruct (is_digit_class d Hd) as (_ & _ & Hlow & _ & _ & _ & _ & Hi & Hn).
  cbn [py_lower]. rewrite Hlow.
  rewrite decide_False by (intros [[=]|[=]]; done).
  rewrite decide_False by (intros [=]; done).
  assert (string_forall is_digit (String d ds) = true) as Hall
    by (simpl; by rewrite Hd, Hds).
  unfold parse_decimal. rewrite (scan_digits_all _ _ _ Hall). simpl.
  by rewrite Hval.
Qed.



(** ** Normalized ids *)

Lemma normalize_str_of_int (n : Z) :
  representable (Z.abs n) → normalize_id (str_of_int n) = Ok (str_of_int n).
Proof.
  intros Hrep. unfold normalize_id.
  assert (float_of_str (str_of_int n)
          = Ok (float_of_decimal (n <? 0) (Z.abs n) 0)) as ->.
  { destruct (str_of_int_numeral n) as (ds & -> & Hnum).
    by apply float_of_str_numeral. }
  unfold float_of_decimal. simpl. rewrite Z.mul_1_r.
  destruct (float_round_representable (Z.abs n) ltac:(lia) Hrep)
    as (q & s & -> & Htrunc).
  simpl. rewrite Htrunc. do 2 f_equal.
  destruct (Z.ltb_spec n 0); lia.
Qed.

Lemma normalize_id_representable (s t : string) :
  normalize_id s = Ok t → ∃ n, t = str_of_int n ∧ representable (Z.abs n).
Proof.
  unfold normalize_id.
  destruct (float_of_str s) as [[neg q s'| |]|] eqn:Hf; simpl; try done.
  intros [= <-]. eexists. split; [done|].
  unfold float_of_str in Hf.
  destruct (if py_in "_" _ then _ else _) as [u|]; [|done].
  destruct (scan_sign u) as [neg' v]. simpl in Hf.
  destruct (decide (py_lower v = "inf" ∨ py_lower v = "infinity")); [done|].
  destruct (decide (py_lower v = "nan")); [done|].
  destruct (parse_decimal v) as [[m e]|] eqn:Hp; [|done].
  pose proof (parse_decimal_nonneg _ _ _ Hp) as Hm.
  unfold float_of_decimal in Hf.
  assert (0 ≤ float_trunc q s' ∧ representable (float_trunc q s')) as [Hpos Hrep].
  { destruct (Z.leb_spec 0 e).
    - destruct (float_round (m * 10 ^ e) 1) as [[q0 s0]|] eqn:Hr; [|done].
      simplify_eq.
      apply (float_trunc_representable (m * 10 ^ e) 1); [|lia|exact Hr].
      apply Z.mul_nonneg_nonneg; [done|]. apply Z.pow_nonneg. lia.
    - destruct (float_round m (10 ^ (- e))) as [[q0 s0]|] eqn:Hr; [|done].
      simplify_eq.
      apply (float_trunc_representable m (10 ^ (- e))); [done| |exact Hr].
      apply Z.pow_pos_nonneg; lia. }
  destruct neg; [rewrite Z.abs_opp|]; by rewrite Z.abs_eq.
Qed.

Lemma normalize_id_idem (s t : string) :
  normalize_id s = Ok t → normalize_id t = Ok t.
Proof.
  intros (n & -> & Hrep)%normalize_id_representable.
  by apply normalize_str_of_int.
Qed.




(** ** The product-id index *)

Lemma for_each_inv {S A} (Q : S → list A → Prop) (body : S → A → res S)
    (s0 s' : S) (l : list A) :
  Q s0 [] →
  (∀ s done x rest s1,
     l = done ++ x :: rest → Q s done → body s x = Ok s1 → Q s1 (done ++ [x])) →
  for_each body s0 l = Ok s' → Q s' l.
Proof.
  intros H0 Hstep.
  cut (∀ done rest s,
         l = done ++ rest → Q s done → for_each body s rest = Ok s' → Q s' l).
  { intros Hcut. by apply (Hcut [] l s0). }
  intros done rest. revert done.
  induction rest as [|x rest IH]; intros done s Hl HQ; simpl.
  - intros [= <-]. by rewrite Hl, app_nil_r.
  - destruct (body s x) as [s1|] eqn:Hbody; simpl; [|done].
    apply (IH (done ++ [x])).
    + by rewrite <-app_assoc.
    + by eapply Hstep.
Qed.

Lemma ids_consistent_spec (col : nat) (rows : list Series)
    (r1 r2 : Series) (p1 p2 n : string) :
  ids_consistent col rows = true →
  r1 ∈ rows → r2 ∈ rows →
  row_product_id col r1 = Some p1 → row_product_id col r2 = Some p2 →
  normalize_id p1 = Ok n → normalize_id p2 = Ok n →
  p1 = p2.
Proof.
  unfold ids_consistent. intros Hall Hr1 Hr2 Hp1 Hp2 Hn1 Hn2.
  rewrite forallb_forall in Hall.
  assert (p1 ∈ omap (row_product_id col) rows) as Hin1
    by (apply list_elem_of_omap; eauto).
  assert (p2 ∈ omap (row_product_id col) rows) as Hin2
    by (apply list_elem_of_omap; eauto).
  apply list_elem_of_In in Hin1, Hin2.
  specialize (Hall _ Hin1). rewrite forallb_forall in Hall.
  specialize (Hall _ Hin2). unfold ids_clash in Hall.
  rewrite Hn1, Hn2, bool_decide_eq_true_2 in Hall by done. simpl in Hall.
  rewrite negb_involutive in Hall. by apply bool_decide_eq_true in Hall.
Qed.








(** ** The examples of the specification *)

Example extract_sku_prefix_examples :
  _extract_sku_prefix (VStr "ABC-6X") = "ABC"
  ∧ _extract_sku_prefix (VStr "NOHYPHEN") = "NOHYPHEN"
  ∧ _extract_sku_prefix (VStr "") = "".
Proof. split_and!; vm_compute; reflexivity. Qed.

Example total_quantity_of_no_sets :
  calculate_total_quantity sample_generator (VStr "ABC") (VInt 0) (VStr "123")
  = Ok 0.
Proof. vm_compute. reflexivity. Qed.

Example normalized_id_examples :
  normalize_id "123.0" = Ok "123"
  ∧ normalize_id " 1_000e-1 " = Ok "100"
  ∧ normalize_id "-0.5" = Ok "0"
  ∧ normalize_id "9007199254740993" = Ok "9007199254740992"
  ∧ normalize_id "1e999" = Raise OverflowError
  ∧ normalize_id "nan" = Raise ValueError
  ∧ normalize_id "12a" = Raise ValueError.
Proof. split_and!; vm_compute; reflexivity. Qed.

Example interleaved_groups :
  (λ g, (warehouse_name g, warehouse_address g, min_order g, 原始顺序 <$> orders g))
    <$> group_by_warehouse interleaved_lines
  = [ (VStr "B", VStr "西路2号", 1, [1]);
      (VStr "A", VStr "东路1号", 5, [5; 6]) ].
Proof. vm_compute. reflexivity. Qed.

(** ** Cell readers *)

Section strip_shape.
Context (sp : ascii → bool).





End strip_shape.


Lemma float_of_str_raises (s : string) (e : exn) :
  float_of_str s = Raise e → e = ValueError.
Proof.
  unfold float_of_str.
  destruct (if py_in "_" _ then _ else _) as [u|]; [|by intros [= <-]].
  destruct (scan_sign u) as [neg v].
  destruct (decide _); [done|]. destruct (decide _); [done|].
  destruct (parse_decimal v) as [[m ex]|]; [done|]. by intros [= <-].
Qed.




Lemma representable_small (n : Z) : 0 ≤ n ≤ 2 ^ 53 → representable n.
Proof.
  intros Hn. unfold representable.
  destruct (decide (n = 0)) as [->|Hn0]; [by left|]. right.
  destruct (decide (n = 2 ^ 53)) as [->|Hn53].
  - exists 1, 53. split_and!; [lia|lia|lia|lia|]. 
    apply Z.pow_lt_mono_r; lia.
  - exists n, 0. split_and!; [lia|lia|lia|lia|].
    assert (2 ^ 53 < 2 ^ 1024) by (apply Z.pow_lt_mono_r; lia). lia.
Qed.

(** X3: an integer of magnitude at most [2^53] passes through
    [_safe_int] unchanged, whether the cell holds the integer or its
    decimal text. *)
Theorem safe_int_exact (n dflt : Z) :
  Z.abs n ≤ 2 ^ 53 →
  _safe_int (VInt n) dflt = Ok n
  ∧ _safe_int (VStr (str_of_int n)) dflt = Ok n.
Proof.
  intros Hn.
  assert (representable (Z.abs n)) as Hrep by (apply representable_small; lia).
  destruct (float_round_representable (Z.abs n) ltac:(lia) Hrep)
    as (q & s & Hround & Htrunc).
  assert ((if n <? 0 then - Z.abs n else Z.abs n) = n) as Hsign
    by (destruct (Z.ltb_spec n 0); lia).
  unfold _safe_int. simpl. split.
  - unfold float_of_int. rewrite Hround. simpl. by rewrite Htrunc, Hsign.
  - assert (float_of_str (str_of_int n)
            = Ok (float_of_decimal (n <? 0) (Z.abs n) 0)) as ->.
    { destruct (str_of_int_numeral n) as (ds & -> & Hnum).
      by apply float_of_str_numeral. }
    unfold float_of_decimal. simpl. rewrite Z.mul_1_r, Hround. simpl.
    by rewrite Htrunc, Hsign.
Qed.

Lemma safe_int_exact_witness :
  _safe_int (VInt (-9007199254740992)) 0 = Ok (-9007199254740992)
  ∧ _safe_int (VStr (str_of_int (-9007199254740992))) 0
    = Ok (-9007199254740992).
Proof. apply (safe_int_exact (-9007199254740992) 0). vm_compute. discriminate. Defined.

(** ** SKU texts *)

Lemma split_char_hd (sep : ascii) (s : string) :
  ∃ h t, split_char sep s = h :: t
         ∧ string_forall (λ c, negb (bool_decide (c = sep))) h = true
         ∧ (s = h ∨ ∃ rest, s = h +:+ String sep rest).
Proof.
  induction s as [|c s (h & t & Hsplit & Hh & Hs)]; simpl.
  - exists "", []. split_and!; [done..|by left].
  - destruct (decide (c = sep)) as [->|Hne].
    + exists "", (split_char sep s). split_and!; [done..|]. right. by exists s.
    + rewrite Hsplit. exists (String c h), t. split_and!; [done| |].
      * simpl. by rewrite Hh, bool_decide_eq_false_2.
      * destruct Hs as [->|[rest ->]]; [by left|right]. by exists rest.
Qed.

Lemma py_in_char_false (a : ascii) (s : string) :
  py_in (String a "") s = false →
  string_forall (λ c, negb (bool_decide (c = a))) s = true.
Proof.
  induction s as [|c s IH]; simpl; [done|].
  destruct (decide (a = c)) as [->|Hne]; [done|].
  simpl. intros Hs. rewrite IH by done.
  by rewrite bool_decide_eq_false_2 by congruence.
Qed.

(** X4: the SKU prefix holds no hyphen and is the part of the trimmed SKU
    text before its first hyphen: the whole text when it has none. *)
Theorem extract_sku_prefix_spec (sku : value) :
  let s := _safe_str sku in
  let p := _extract_sku_prefix sku in
  py_in "-" p = false
  ∧ (s = p ∨ ∃ rest, s = p +:+ "-" +:+ rest)
  ∧ (py_in "-" s = false ↔ p = s).
Proof.
  intros s p. subst s p. unfold _extract_sku_prefix.
  destruct (split_char_hd "-" (_safe_str sku)) as (h & t & Hsplit & Hh & Hs).
  rewrite Hsplit. simpl hd.
  destruct (py_in "-" (_safe_str sku)) eqn:Hin.
  - split_and!; [by apply py_in_char_absent|done|].
    split; [done|]. intros Heq. rewrite Heq in Hh.
    by rewrite (py_in_char_absent _ _ Hh) in Hin.
  - split_and!; [done|by left|done].
Qed.






(** ** Total quantities *)

(** X6: the total quantity is [0] when the set count reads as [0] or
    less, and otherwise a positive multiple of the set count, hence never
    below it. *)
Theorem calculate_total_quantity_multiple
    (self : ShippingOrderGenerator) (sku sets product_id : value) (n t : Z) :
  _safe_int sets 0 = Ok n →
  calculate_total_quantity self sku sets product_id = Ok t →
  (n ≤ 0 → t = 0) ∧ (0 < n → ∃ k, 0 < k ∧ t = n * k ∧ n ≤ t).
Proof.
  intros Hsets. rewrite calculate_total_quantity_steps, Hsets. simpl.
  destruct (Z.leb_spec n 0) as [Hn|Hn].
  { intros [= <-]. split; [done|lia]. }
  intros Ht. split; [lia|]. intros _.
  assert (∀ k, 0 < k → ∃ k', 0 < k' ∧ n * k = n * k' ∧ n ≤ n * k) as Hmul.
  { intros k Hk. exists k. split_and!; [done..|nia]. }
  assert (∃ k', 0 < k' ∧ n = n * k' ∧ n ≤ n) as Hone.
  { exists 1. lia. }
  destruct (table_unit_quantity self product_id) as [[u|]|] eqn:Hu;
    simpl in Ht; [| |done].
  - simplify_eq. apply Hmul.
    unfold table_unit_quantity in Hu.
    destruct (str_truthy _); [|done].
    destruct (col_mapping self !! "单套个数"); [|done].
    destruct (_get_row_by_product_id _ _) as [[row|]|]; simpl in Hu; [|done..].
    destruct (iloc row n0) as [cell|]; simpl in Hu; [|done].
    destruct (_safe_int cell 0) as [u'|]; simpl in Hu; [|done].
    destruct (Z.ltb_spec 0 u'); by simplify_eq.
  - destruct (substituted_sku self sku product_id) as [s|]; simpl in Ht; [|done].
    destruct (str_truthy s); [|by simplify_eq].
    destruct (_get_multiplier_from_sku s) as [m|] eqn:Hm; [|by simplify_eq].
    destruct (decide (m = 0)) as [->|Hm0].
    + rewrite bool_decide_eq_false_2 in Ht by tauto. by simplify_eq.
    + rewrite bool_decide_eq_true_2 in Ht by done. simplify_eq. apply Hmul.
      unfold _get_multiplier_from_sku in Hm.
      destruct (re_search s) as [g|]; [|done]. simpl in Hm. simplify_eq.
      pose proof (scan_digits_nonneg g 0 0 ltac:(lia)) as Hg.
      unfold int_of_digits in *. lia.
Qed.

Lemma calculate_total_quantity_multiple_witness :
  (3 ≤ 0 → 18 = 0) ∧ (0 < 3 → ∃ k, 0 < k ∧ 18 = 3 * k ∧ 3 ≤ 18).
Proof.
  apply (calculate_total_quantity_multiple sample_generator
           (VStr "ABC-6X") (VInt 3) (VStr "999") 3 18);
    vm_compute; reflexivity.
Defined.

(** ** Column identification *)

Lemma identify_key_lookup (i : nat) (c : string) (m : gmap string nat)
    (kp : string * list string) (k : string) :
  identify_key i c m kp !! k
  = match m !! k with
    | Some j => Some j
    | None =>
        if decide (kp.1 = k)
        then if existsb (pattern_matches c) kp.2 then Some i else None
        else None
    end.
Proof.
  unfold identify_key. destruct (m !! kp.1) as [j|] eqn:Hkp.
  - destruct (m !! k) as [j'|] eqn:Hk; [done|].
    destruct (decide (kp.1 = k)) as [Heq|]; [|done]. congruence.
  - destruct (existsb _ _).
    + destruct (decide (kp.1 = k)) as [<-|Hne].
      * by rewrite lookup_insert_eq, Hkp.
      * rewrite lookup_insert_ne by done. by destruct (m !! k).
    + destruct (decide (kp.1 = k)) as [<-|Hne]; [by rewrite Hkp|].
      by destruct (m !! k).
Qed.

Lemma identify_fold_lookup (i : nat) (c : string)
    (ps : list (string * list string)) (m : gmap string nat) (k : string) :
  NoDup ps.*1 →
  foldl (identify_key i c) m ps !! k
  = match m !! k with
    | Some j => Some j
    | None =>
        match odict_get k ps with
        | Some pats => if existsb (pattern_matches c) pats then Some i else None
        | None => None
        end
    end.
Proof.
  revert m. induction ps as [|kp ps IH]; intros m Hnd; simpl.
  - by destruct (m !! k).
  - apply NoDup_cons in Hnd as [Hkp Hnd]. rewrite IH by done.
    rewrite identify_key_lookup. destruct kp as [k' pats]. simpl in *.
    destruct (m !! k) as [j|]; [done|].
    destruct (decide (k' = k)) as [->|Hne]; [|done].
    destruct (existsb _ pats); [done|].
    by apply odict_get_none_keys in Hkp as ->.
Qed.

Lemma column_patterns_NoDup : NoDup column_patterns.*1.
Proof. apply (bool_decide_unpack _). vm_compute. exact I. Qed.

Lemma identify_columns_fold (ps : list (string * list string))
    (cols : list string) (offset : nat) (m : gmap string nat) (k : string) :
  NoDup ps.*1 →
  foldl (λ m '(col_idx, col_name),
           foldl (identify_key col_idx (py_strip col_name)) m ps)
        m (imap (λ i c, ((offset + i)%nat, c)) cols) !! k
  = match m !! k with
    | Some j => Some j
    | None =>
        match odict_get k ps with
        | Some pats =>
            (λ i, (offset + i)%nat) <$> first_column (matching_column pats) cols
        | None => None
        end
    end.
Proof.
  intros Hnd. revert offset m. induction cols as [|c cols IH]; intros offset m.
  - simpl. destruct (m !! k); [done|]. by destruct (odict_get k ps).
  - rewrite imap_cons. cbn [foldl].
    erewrite (imap_ext _ (λ i c0, ((S offset + i)%nat, c0))); last first.
    { intros i x _. simpl. f_equal. lia. }
    rewrite IH, identify_fold_lookup by done.
    destruct (m !! k) as [j|]; [done|].
    destruct (odict_get k ps) as [pats|]; [|done].
    cbn [first_column]. unfold matching_column at 2.
    destruct (existsb _ pats); simpl; [f_equal; lia|].
    destruct (first_column _ cols); simpl; [f_equal; lia|done].
Qed.

Lemma identify_defaults_lookup (m0 : gmap string nat) (wide : bool) (k : string) :
  (let m := match m0 !! "货品id" with
            | Some _ => m0
            | None => <["货品id" := 1%nat]> m0
            end in
   match m !! "商品详情" with
   | None => if wide then <["商品详情" := 2%nat]> m else m
   | Some _ => m
   end) !! k
  = match m0 !! k with
    | Some i => Some i
    | None =>
        if decide (k = "货品id") then Some 1%nat
        else if decide (k = "商品详情")
             then if wide then Some 2%nat else None
             else None
    end.
Proof.
  cbn zeta.
  destruct (m0 !! "货品id") as [i|] eqn:H1;
    destruct (m0 !! "商品详情") as [j|] eqn:H2;
    rewrite ?lookup_insert_ne, ?H2 by done;
    destruct wide;
    (destruct (decide (k = "货品id")) as [->|Hk1];
     [|destruct (decide (k = "商品详情")) as [->|Hk2]]);
    rewrite ?lookup_insert_eq, ?lookup_insert_ne, ?H1, ?H2 by done;
    try done; try (by destruct (m0 !! k)); by rewrite lookup_insert_eq.
Qed.

(** What [_identify_columns] maps a key to. *)
Lemma identify_columns_lookup (df : DataFrame) (k : string) :
  _identify_columns df !! k
  = match odict_get k column_patterns with
    | Some pats =>
        match first_column (matching_column pats) (columns df) with
        | Some i => Some i
        | None =>
            if decide (k = "货品id") then Some 1%nat
            else if decide (k = "商品详情")
                 then if (2 <? length (columns df))%nat then Some 2%nat else None
                 else None
        end
    | None => None
    end.
Proof.
  unfold _identify_columns.
  set (m0 := foldl _ ∅ _).
  assert (m0 !! k = match odict_get k column_patterns with
                    | Some pats =>
                        first_column (matching_column pats) (columns df)
                    | None => None
                    end) as Hm0.
  { subst m0.
    etrans; [exact (identify_columns_fold column_patterns (columns df) 0 ∅ k
                      column_patterns_NoDup)|].
    cbn [Nat.add].
    destruct (odict_get k column_patterns); [|done].
    by destruct (first_column _ _). }
  etrans; [exact (identify_defaults_lookup m0 (2 <? length (columns df))%nat k)|].
  rewrite Hm0.
  destruct (odict_get k column_patterns) as [pats|] eqn:Hget.
  - by destruct (first_column _ _).
  - destruct (decide (k = "货品id")) as [->|]; [done|].
    by destruct (decide (k = "商品详情")) as [->|].
Qed.

Lemma first_column_lt (p : string → bool) (cols : list string) (i : nat) :
  first_column p cols = Some i → (i < length cols)%nat.
Proof.
  revert i. induction cols as [|c cols IH]; intros i; simpl; [done|].
  destruct (p c); [intros [= <-]; lia|].
  destruct (first_column p cols) as [j|]; [|done]. simpl. intros [= <-].
  specialize (IH j eq_refl). lia.
Qed.

Lemma first_column_spec (p : string → bool) (cols : list string) (i : nat) :
  first_column p cols = Some i
  ↔ (∃ c, cols !! i = Some c ∧ p c = true)
    ∧ (∀ j c, (j < i)%nat → cols !! j = Some c → p c = false).
Proof.
  revert i. induction cols as [|c cols IH]; intros i; simpl.
  - split; [done|]. by intros [(c & Hc & _) _].
  - destruct (p c) eqn:Hpc.
    + split.
      * intros [= <-]. split; [by exists c|]. intros j c' Hj. lia.
      * intros [(c' & Hc' & Hp) Hmin]. destruct i as [|i]; [done|].
        by rewrite (Hmin 0%nat c ltac:(lia) eq_refl) in Hpc.
    + destruct i as [|i].
      * split; [by destruct (first_column p cols)|].
        intros [(c' & [= <-] & Hp) _]. congruence.
      * transitivity (first_column p cols = Some i).
        { destruct (first_column p cols); simpl; split; congruence. }
        rewrite IH. split; intros [Hc Hmin]; (split; [done|]).
        -- intros [|j] c' Hj; simpl; [by intros [= <-]|]. apply Hmin. lia.
        -- intros j c' Hj Hc'. apply (Hmin (S j) c'); [lia|done].
Qed.

(** The columns other than the product-id column that [_identify_columns]
    names are columns of the table. *)
Lemma identify_columns_range (df : DataFrame) (k : string) (i : nat) :
  _identify_columns df !! k = Some i → k ≠ "货品id" →
  (i < length (columns df))%nat.
Proof.
  rewrite identify_columns_lookup. intros Hi Hk.
  destruct (odict_get k column_patterns) as [pats|]; [|done].
  destruct (first_column _ _) as [j|] eqn:Hfirst.
  - simplify_eq. by eapply first_column_lt.
  - rewrite decide_False in Hi by done.
    destruct (decide _); [|done].
    destruct (Nat.ltb_spec 2 (length (columns df))); by simplify_eq.
Qed.

(** X7: [_identify_columns] maps each of its four keys to the first
    column whose trimmed label contains one of the key's patterns, as
    written or with the letter case ignored; when no label does, the
    product id falls back on column 1 and the details on column 2 of a
    table with more than two columns, and the other keys stay unmapped.
    The product id is thus always mapped, and every other mapped column
    lies inside the table. *)
Theorem identify_columns_spec (df : DataFrame) :
  let mapping := _identify_columns df in
  (∀ key patterns,
     (key, patterns) ∈ column_patterns →
     match mapping !! key with
     | Some i =>
         (∃ label, columns df !! i = Some label
                   ∧ matching_column patterns label = true)
         ∧ (∀ j label, (j < i)%nat → columns df !! j = Some label →
                       matching_column patterns label = false)
         ∨ (∀ label, label ∈ columns df → matching_column patterns label = false)
           ∧ (key = "货品id" ∧ i = 1%nat
              ∨ key = "商品详情" ∧ i = 2%nat ∧ (2 < length (columns df))%nat)
     | None =>
         (∀ label, label ∈ columns df → matching_column patterns label = false)
         ∧ key ≠ "货品id"
         ∧ (key = "商品详情" → (length (columns df) ≤ 2)%nat)
     end)
  ∧ is_Some (mapping !! "货品id")
  ∧ (∀ key i, mapping !! key = Some i →
       key ∈ column_patterns.*1
       ∧ (key ≠ "货品id" → (i < length (columns df))%nat)).
Proof.
  intros mapping. subst mapping.
  assert (∀ p cols, first_column p cols = None →
                    ∀ label, label ∈ cols → p label = false) as Hnone.
  { intros p cols. induction cols as [|c cols IH]; simpl.
    - by intros _ label ?%elem_of_nil.
    - destruct (p c) eqn:Hpc; [done|].
      destruct (first_column p cols); [done|]. intros _ label.
      intros [->|Hin]%elem_of_cons; [done|by apply IH]. }
  split_and!.
  - intros key patterns Hin.
    assert (odict_get key column_patterns = Some patterns) as Hget.
    { apply odict_elem_get; [apply column_patterns_NoDup|done]. }
    rewrite identify_columns_lookup, Hget.
    destruct (first_column _ _) as [i|] eqn:Hfirst.
    + left. by apply first_column_spec.
    + pose proof (Hnone _ _ Hfirst) as Hno.
      destruct (decide (key = "货品id")) as [->|Hk1]; [right; by eauto|].
      destruct (decide (key = "商品详情")) as [->|Hk2].
      * destruct (Nat.ltb_spec 2 (length (columns df))).
        -- right. split; [done|]. right. done.
        -- done.
      * done.
  - rewrite identify_columns_lookup.
    destruct (odict_get "货品id" column_patterns) as [pats|] eqn:Hget;
      [|by vm_compute in Hget].
    destruct (first_column (matching_column pats) (columns df)); by eauto.
  - intros key i Hi. split; [|by apply identify_columns_range].
    rewrite identify_columns_lookup in Hi.
    destruct (odict_get key column_patterns) as [pats|] eqn:Hget; [|done].
    apply odict_get_elem in Hget. apply list_elem_of_fmap. by exists (key, pats).
Qed.

(** ** The product-id index and its lookup *)

Lemma normalize_id_raises (s : string) (e : exn) :
  normalize_id s = Raise e →
  e = ValueError ∨ e = OverflowError ∧ reads_infinite s.
Proof.
  unfold normalize_id, reads_infinite.
  destruct (float_of_str s) as [[neg q s'|neg|]|e'] eqn:Hf; simpl.
  - done.
  - intros [= <-]. right. eauto.
  - intros [= <-]. by left.
  - intros [= <-]. left. by eapply float_of_str_raises.
Qed.

Lemma normalize_id_overflow (s : string) :
  normalize_id s = Raise OverflowError ↔ reads_infinite s.
Proof.
  split.
  - by intros [|[_ ?]]%normalize_id_raises.
  - intros [neg Hf]. unfold normalize_id. by rewrite Hf.
Qed.

Lemma index_row_lookup (col : nat) (index index' : gmap string Series)
    (row : Series) (k : string) :
  index_row col index row = Ok index' →
  index' !! k = if writes_key col k row then Some row else index !! k.
Proof.
  unfold index_row, writes_key, row_product_id.
  destruct (row !! col) as [cell|]; [|by intros [= <-]].
  destruct (pd_notna cell); [|by intros [= <-]].
  destruct (normalize_id (_safe_str cell)) as [n|[]] eqn:Hn; simpl;
    intros [= <-].
  - destruct (decide (_safe_str cell = k)) as [->|Hp].
    + by rewrite bool_decide_eq_true_2, lookup_insert_eq.
    + rewrite bool_decide_eq_false_2, lookup_insert_ne by done. simpl.
      destruct (decide (n = k)) as [->|Hk].
      * by rewrite bool_decide_eq_true_2, lookup_insert_eq.
      * by rewrite bool_decide_eq_false_2, lookup_insert_ne.
  - rewrite orb_false_r. destruct (decide (_safe_str cell = k)) as [->|Hp].
    + by rewrite bool_decide_eq_true_2, lookup_insert_eq.
    + by rewrite bool_decide_eq_false_2, lookup_insert_ne.
  - rewrite orb_false_r. destruct (decide (_safe_str cell = k)) as [->|Hp].
    + by rewrite bool_decide_eq_true_2, lookup_insert_eq.
    + by rewrite bool_decide_eq_false_2, lookup_insert_ne.
Qed.

(** The index answers a key with the last row that wrote it. *)
Lemma build_index_lookup (mapping : gmap string nat) (df : DataFrame)
    (index : gmap string Series) (k : string) :
  _build_product_id_index mapping df = Ok index →
  index !! k = last_writer (default 1%nat (mapping !! "货品id")) k (rows df).
Proof.
  unfold _build_product_id_index, last_writer.
  set (col := default 1%nat (mapping !! "货品id")).
  intros Hbuild. revert k.
  refine (for_each_inv
    (λ index done, ∀ k, index !! k
                        = last (filter (λ row, writes_key col k row = true) done))
    _ _ _ _ _ _ Hbuild).
  - intros k. by rewrite lookup_empty.
  - intros index0 done row rest index1 _ Hinv Hrow k.
    rewrite (index_row_lookup _ _ _ _ k Hrow), filter_app.
    destruct (writes_key col k row) eqn:Hw.
    + by rewrite filter_cons_True, filter_nil, last_snoc.
    + rewrite filter_cons_False, filter_nil, app_nil_r by (by rewrite Hw).
      apply Hinv.
Qed.

Lemma last_writer_spec (col : nat) (k : string) (rows : list Series)
    (row : Series) :
  last_writer col k rows = Some row →
  row ∈ rows ∧ writes_key col k row = true.
Proof.
  unfold last_writer. intros Hlast.
  assert (row ∈ filter (λ r, writes_key col k r = true) rows) as Hin.
  { apply last_Some in Hlast as [l' ->]. apply elem_of_app. right. left. }
  apply list_elem_of_filter in Hin. tauto.
Qed.

Lemma last_writer_is_Some (col : nat) (k : string) (rows : list Series)
    (row : Series) :
  row ∈ rows → writes_key col k row = true → is_Some (last_writer col k rows).
Proof.
  intros Hin Hw. unfold last_writer.
  assert (row ∈ filter (λ r, writes_key col k r = true) rows) as Hf
    by (by apply list_elem_of_filter).
  destruct (filter _ rows) as [|r l] eqn:Heq using rev_ind.
  - by apply elem_of_nil in Hf.
  - rewrite last_snoc. eauto.
Qed.

(** X8: on the index built from a reference table, the lookup of a
    product id answers with the last row of the table whose id text is the
    trimmed id or reads as the number it writes; failing that, with the
    last such row for the normalized form of the id; and with nothing for
    a missing or blank id or one that matches no row. *)
Theorem get_row_by_product_id_built
    (mapping : gmap string nat) (df : DataFrame)
    (self : ShippingOrderGenerator) (id : value) :
  let col := default 1%nat (mapping !! "货品id") in
  _build_product_id_index mapping df = Ok (_product_id_index self) →
  _get_row_by_product_id self id
  = let s := _safe_str id in
    if negb (str_truthy s) then Ok None
    else
      match last_writer col s (rows df) with
      | Some row => Ok (Some row)
      | None =>
          match normalize_id s with
          | Ok n => Ok (last_writer col n (rows df))
          | Raise ValueError | Raise TypeError => Ok None
          | Raise e => Raise e
          end
      end.
Proof.
  intros col Hbuild. unfold _get_row_by_product_id. cbn zeta.
  destruct (negb (str_truthy (_safe_str id))); [done|].
  rewrite (build_index_lookup _ _ _ (_safe_str id) Hbuild).
  fold col. destruct (last_writer col (_safe_str id) (rows df)); [done|].
  destruct (normalize_id (_safe_str id)) as [n|e]; [|done].
  by rewrite (build_index_lookup _ _ _ n Hbuild).
Qed.

Lemma get_row_by_product_id_built_witness :
  _get_row_by_product_id sample_generator (VStr " 123.00 ")
  = Ok (Some [VStr "ABC"; VStr "123.0"; VInt 5; VStr "蓝色"]).
Proof.
  etrans; [apply (get_row_by_product_id_built
                    (_identify_columns sample_sku_id_df) sample_sku_id_df
                    sample_generator (VStr " 123.00 "))|];
    vm_compute; reflexivity.
Defined.

(** X9: when no two rows of the reference table carry different id texts
    of the same number and a row is the only one with its id text, every
    id that trims to that text, or that reads as the same number, finds
    that row. *)
Theorem get_row_by_product_id_round_trip
    (mapping : gmap string nat) (df : DataFrame)
    (self : ShippingOrderGenerator) (row : Series) (p : string) (id : value) :
  let col := default 1%nat (mapping !! "货品id") in
  _build_product_id_index mapping df = Ok (_product_id_index self) →
  ids_consistent col (rows df) = true →
  row ∈ rows df → row_product_id col row = Some p →
  (∀ r, r ∈ rows df → row_product_id col r = Some p → r = row) →
  str_truthy (_safe_str id) = true →
  (_safe_str id = p
   ∨ ∃ n, normalize_id (_safe_str id) = Ok n ∧ normalize_id p = Ok n) →
  _get_row_by_product_id self id = Ok (Some row).
Proof.
  intros col Hbuild Hcons Hrow Hp Huniq Hne Hid.
  (* a row that writes the text or the number of [p] is [row] *)
  assert (∀ k r, (k = p ∨ normalize_id p = Ok k) →
                 last_writer col k (rows df) = Some r → r = row) as Hwriter.
  { intros k r Hk [Hr Hw]%last_writer_spec.
    unfold writes_key in Hw.
    destruct (row_product_id col r) as [p'|] eqn:Hp'; [|done].
    apply Huniq; [done|]. rewrite Hp'. f_equal.
    apply orb_prop in Hw as [Hw|Hw].
    - apply bool_decide_eq_true in Hw as ->.
      destruct Hk as [->|Hk]; [done|].
      apply (ids_consistent_spec col (rows df) r row k p k); try done.
      by eapply normalize_id_idem.
    - destruct (normalize_id p') as [n'|] eqn:Hn'; [|done].
      apply bool_decide_eq_true in Hw as ->.
      apply (ids_consistent_spec col (rows df) r row p' p k); try done.
      destruct Hk as [->|Hk]; [|done]. by eapply normalize_id_idem. }
  assert (∀ k, (k = p ∨ normalize_id p = Ok k) →
               last_writer col k (rows df) = Some row) as Hfound.
  { intros k Hk.
    destruct (last_writer_is_Some col k (rows df) row Hrow) as [r Hr].
    - unfold writes_key. rewrite Hp.
      destruct Hk as [-> | ->]; [by rewrite bool_decide_eq_true_2|].
      rewrite (bool_decide_eq_true_2 (k = k)) by done. apply orb_true_r.
    - by rewrite Hr, (Hwriter k r Hk Hr). }
  unfold _get_row_by_product_id. rewrite Hne. cbn [negb].
  rewrite (build_index_lookup _ _ _ (_safe_str id) Hbuild). fold col.
  destruct Hid as [->|(n & Hn & Hpn)].
  - by rewrite Hfound by (by left).
  - destruct (last_writer col (_safe_str id) (rows df)) as [r|] eqn:Hr.
    + do 2 f_equal. destruct (last_writer_spec _ _ _ _ Hr) as [Hin Hw].
      unfold writes_key in Hw.
      destruct (row_product_id col r) as [p'|] eqn:Hp'; [|done].
      apply Huniq; [done|]. rewrite Hp'. f_equal.
      apply orb_prop in Hw as [Hw|Hw].
      * apply bool_decide_eq_true in Hw as ->.
        by apply (ids_consistent_spec col (rows df) r row (_safe_str id) p n).
      * destruct (normalize_id p') as [n'|] eqn:Hn'; [|done].
        apply bool_decide_eq_true in Hw. subst n'.
        apply (ids_consistent_spec col (rows df) r row p' p n); try done.
        pose proof (normalize_id_idem _ _ Hn'). congruence.
    + rewrite Hn, (build_index_lookup _ _ _ n Hbuild). fold col.
      by rewrite Hfound by (by right).
Qed.

Lemma get_row_by_product_id_round_trip_witness :
  _get_row_by_product_id sample_generator (VStr "123")
  = Ok (Some [VStr "ABC"; VStr "123.0"; VInt 5; VStr "蓝色"]).
Proof.
  apply (get_row_by_product_id_round_trip
           (_identify_columns sample_sku_id_df) sample_sku_id_df
           sample_generator
           [VStr "ABC"; VStr "123.0"; VInt 5; VStr "蓝色"] "123.0" (VStr "123")).
  - vm_compute. reflexivity.
  - vm_compute. reflexivity.
  - left.
  - vm_compute. reflexivity.
  - intros r Hin.
    apply elem_of_cons in Hin as [->|Hin]; [done|].
    apply elem_of_cons in Hin as [->|Hin]; [by vm_compute|].
    by apply elem_of_nil in Hin.
  - vm_compute. reflexivity.
  - right. exists "123". split; vm_compute; reflexivity.
Defined.

(** ** What the reference lookups raise *)

Lemma for_each_raise_inv {S A} (R : A → exn → Prop) (body : S → A → res S)
    (s : S) (l : list A) (e : exn) :
  (∀ s x e, x ∈ l → body s x = Raise e → R x e) →
  for_each body s l = Raise e → ∃ x, x ∈ l ∧ R x e.
Proof.
  revert s. induction l as [|x l IH]; intros s Hbody; simpl; [done|].
  destruct (body s x) as [s'|e'] eqn:Hx; simpl.
  - intros Hl. destruct (IH s') as (y & Hy & HR); [|done|].
    + intros s0 y e0 Hy. apply Hbody. by right.
    + exists y. split; [by right|done].
  - intros [= <-]. exists x. split; [left|]. eapply Hbody; [left|done].
Qed.

Lemma for_each_raise_intro {S A} (body : S → A → res S)
    (s : S) (l : list A) (x : A) (e0 : exn) :
  (∀ s y e, y ∈ l → body s y = Raise e → e = e0) →
  x ∈ l → (∀ s, body s x = Raise e0) →
  for_each body s l = Raise e0.
Proof.
  revert s. induction l as [|y l IH]; intros s Hbody Hin Hx.
  - by apply elem_of_nil in Hin.
  - simpl. destruct (body s y) as [s'|e] eqn:Hy; simpl.
    + apply IH; [|by apply elem_of_cons in Hin as [->|?]; [congruence|]|done].
      intros s0 z e Hz. apply Hbody. by right.
    + f_equal. eapply Hbody; [left|done].
Qed.

Lemma index_row_raises (col : nat) (index : gmap string Series) (row : Series)
    (e : exn) :
  index_row col index row = Raise e →
  e = OverflowError
  ∧ ∃ p, row_product_id col row = Some p ∧ reads_infinite p.
Proof.
  unfold index_row, row_product_id.
  destruct (row !! col) as [cell|]; [|done].
  destruct (pd_notna cell); [|done].
  destruct (normalize_id (_safe_str cell)) as [n|e'] eqn:Hn; simpl; [done|].
  destruct (normalize_id_raises _ _ Hn) as [->|[-> Hinf]]; [done|].
  intros [= <-]. eauto.
Qed.

Lemma index_row_overflow (col : nat) (index : gmap string Series)
    (row : Series) (p : string) :
  row_product_id col row = Some p → reads_infinite p →
  index_row col index row = Raise OverflowError.
Proof.
  unfold index_row, row_product_id.
  destruct (row !! col) as [cell|]; [|done].
  destruct (pd_notna cell); [|done]. intros [= <-] Hinf.
  apply normalize_id_overflow in Hinf. by rewrite Hinf.
Qed.

Lemma build_index_raises (mapping : gmap string nat) (df : DataFrame) :
  let col := default 1%nat (mapping !! "货品id") in
  (∀ e, _build_product_id_index mapping df = Raise e → e = OverflowError)
  ∧ (_build_product_id_index mapping df = Raise OverflowError
     ↔ ∃ row p, row ∈ rows df ∧ row_product_id col row = Some p
                ∧ reads_infinite p).
Proof.
  intros col. unfold _build_product_id_index. fold col.
  assert (∀ e, for_each (index_row col) ∅ (rows df) = Raise e →
               e = OverflowError
               ∧ ∃ row p, row ∈ rows df ∧ row_product_id col row = Some p
                          ∧ reads_infinite p) as Hinv.
  { intros e He.
    apply (for_each_raise_inv
             (λ row e, e = OverflowError
                       ∧ ∃ p, row_product_id col row = Some p
                              ∧ reads_infinite p)) in He
      as (row & Hrow & -> & p & Hp & Hinf); [by eauto 6|].
    intros s row e0 _ Hraise. by eapply index_row_raises. }
  split; [intros e He; by destruct (Hinv e He)|]. split.
  - intros He. by destruct (Hinv _ He).
  - intros (row & p & Hrow & Hp & Hinf).
    apply (for_each_raise_intro _ _ _ row); [|done|].
    + intros s y e _ Hy. by destruct (index_row_raises _ _ _ _ Hy).
    + intros s. by eapply index_row_overflow.
Qed.

(** X10: building the generator fails only with [OverflowError], and it
    does so exactly when some row of the reference table has a product id
    that reads as an infinite number. *)
Theorem init_overflow (main sku_id supplier_sku sku_name : DataFrame)
    (barcode_files image_files : list (string * bytes)) :
  let col := default 1%nat (_identify_columns sku_id !! "货品id") in
  let made := __init__ main sku_id supplier_sku sku_name
                barcode_files image_files in
  (∀ e, made = Raise e → e = OverflowError)
  ∧ (made = Raise OverflowError
     ↔ ∃ row p, row ∈ rows sku_id ∧ row_product_id col row = Some p
                ∧ reads_infinite p).
Proof.
  intros col made. subst made. unfold __init__.
  destruct (build_index_raises (_identify_columns sku_id) sku_id) as [Honly Hiff].
  fold col in Hiff.
  destruct (_build_product_id_index _ _) as [index|e] eqn:Hbuild; simpl.
  - split; [done|]. split; [done|]. intros Hex. by apply Hiff in Hex.
  - split.
    + intros e' [= <-]. by apply Honly.
    + rewrite <-Hiff. split; congruence.
Qed.

Lemma built_index_finite (mapping : gmap string nat) (df : DataFrame)
    (index : gmap string Series) (row : Series) (p : string) :
  _build_product_id_index mapping df = Ok index →
  row ∈ rows df →
  row_product_id (default 1%nat (mapping !! "货品id")) row = Some p →
  ¬ reads_infinite p.
Proof.
  intros Hbuild Hrow Hp Hinf.
  destruct (build_index_raises mapping df) as [_ Hiff].
  assert (_build_product_id_index mapping df = Raise OverflowError) as Hraise.
  { apply Hiff. eauto. }
  congruence.
Qed.

Lemma reads_infinite_nonempty (s : string) :
  reads_infinite s → str_truthy s = true.
Proof. intros [neg Hf]. by destruct s. Qed.

(** What the lookup raises on a built index. *)
Lemma get_row_built_raises (mapping : gmap string nat) (df : DataFrame)
    (self : ShippingOrderGenerator) (id : value) (e : exn) :
  _build_product_id_index mapping df = Ok (_product_id_index self) →
  _get_row_by_product_id self id = Raise e
  ↔ e = OverflowError ∧ reads_infinite (_safe_str id).
Proof.
  intros Hbuild. unfold _get_row_by_product_id.
  set (s := _safe_str id). split.
  - destruct (negb (str_truthy s)); [done|].
    destruct (_product_id_index self !! s); [done|].
    destruct (normalize_id s) as [n|e'] eqn:Hn; [done|].
    destruct (normalize_id_raises _ _ Hn) as [->|[-> Hinf]]; [done|].
    by intros [= <-].
  - intros [-> Hinf].
    rewrite (reads_infinite_nonempty _ Hinf). cbn [negb].
    pose proof (proj2 (normalize_id_overflow s) Hinf) as Hn.
    rewrite (build_index_lookup _ _ _ s Hbuild).
    destruct (last_writer _ s (rows df)) as [row|] eqn:Hlast;
      [|by rewrite Hn].
    destruct (last_writer_spec _ _ _ _ Hlast) as [Hrow Hw].
    unfold writes_key in Hw.
    destruct (row_product_id _ row) as [p|] eqn:Hp; [|done].
    apply orb_prop in Hw as [Hw|Hw].
    + apply bool_decide_eq_true in Hw as ->.
      by destruct (built_index_finite _ _ _ _ _ Hbuild Hrow Hp).
    + destruct (normalize_id p) as [n|] eqn:Hnp; [|done].
      apply bool_decide_eq_true in Hw as ->.
      pose proof (normalize_id_idem _ _ Hnp). congruence.
Qed.

(** X11: on the index built from a reference table, the lookup of a
    product id raises exactly when the trimmed id reads as an infinite
    number, and what it raises is [OverflowError]. *)
Theorem get_row_by_product_id_overflow
    (mapping : gmap string nat) (df : DataFrame)
    (self : ShippingOrderGenerator) (id : value) :
  _build_product_id_index mapping df = Ok (_product_id_index self) →
  (∀ e, _get_row_by_product_id self id = Raise e → e = OverflowError)
  ∧ (_get_row_by_product_id self id = Raise OverflowError
     ↔ reads_infinite (_safe_str id)).
Proof.
  intros Hbuild. split.
  - intros e He. by apply (get_row_built_raises _ _ _ _ _ Hbuild) in He as [-> _].
  - rewrite (get_row_built_raises _ _ _ _ _ Hbuild). tauto.
Qed.

Lemma get_row_by_product_id_overflow_witness :
  _get_row_by_product_id sample_generator (VStr " 1e999 ") = Raise OverflowError.
Proof.
  apply (get_row_by_product_id_overflow
           (_identify_columns sample_sku_id_df) sample_sku_id_df
           sample_generator (VStr " 1e999 ")).
  - vm_compute. reflexivity.
  - exists false. vm_compute. reflexivity.
Defined.

(** ** The built generator *)





Section built.
Context (main sku_id supplier_sku sku_name : DataFrame).
Context (barcode_files image_files : list (string * bytes)).
Context (self : ShippingOrderGenerator).
Hypothesis Hrect : rectangular sku_id.
Hypothesis Hinit :
  __init__ main sku_id supplier_sku sku_name barcode_files image_files = Ok self.








End built.



(** ** The supplier cache *)

Lemma foldl_concat {S A} (f : S → A → S) (s : S) (ls : list (list A)) :
  foldl (λ s l, foldl f s l) s ls = foldl f s (concat ls).
Proof.
  revert s. induction ls as [|l ls IH]; intros s; simpl; [done|].
  by rewrite foldl_app, IH.
Qed.

Lemma build_supplier_cache_flat (df : DataFrame) :
  _build_supplier_cache df
  = (foldl supplier_cell ("其他供应商", []) (concat (rows df))).2.
Proof. unfold _build_supplier_cache. by rewrite foldl_concat. Qed.

Lemma supplier_cell_step (cur : string) (cache : list (string * (string * bool)))
    (cell : value) :
  supplier_cell (cur, cache) cell
  = match cell_text cell with
    | Some t =>
        if is_heading t then (t, cache)
        else (cur, odict_set t (cur, true) cache)
    | None => (cur, cache)
    end.
Proof.
  unfold supplier_cell, cell_text, is_heading. by destruct (pd_notna cell).
Qed.

Lemma first_occurrences_snoc {A} `{EqDecision A} (l : list A) (x : A) :
  first_occurrences (l ++ [x])
  = if decide (x ∈ l) then first_occurrences l else first_occurrences l ++ [x].
Proof.
  unfold first_occurrences. rewrite reverse_snoc. simpl.
  destruct (decide_rel elem_of x (reverse l)) as [Hin|Hin];
    rewrite elem_of_reverse in Hin.
  - by rewrite decide_True.
  - rewrite decide_False by done. by rewrite reverse_cons.
Qed.

Lemma elem_of_first_occurrences {A} `{EqDecision A} (l : list A) (x : A) :
  x ∈ first_occurrences l ↔ x ∈ l.
Proof.
  unfold first_occurrences.
  by rewrite elem_of_reverse, elem_of_remove_dups, elem_of_reverse.
Qed.

(** The state of the loop after the cells [done]. *)
Lemma supplier_fold_inv (cells : list value) :
  let st := foldl supplier_cell ("其他供应商", []) cells in
  st.1 = current_supplier cells
  ∧ st.2.*1 = first_occurrences (sku_texts cells)
  ∧ (∀ k v, odict_get k st.2 = Some v → v.2 = true ∧ is_heading k = false).
Proof.
  induction cells as [|cell cells IH] using rev_ind; [done|].
  rewrite foldl_app. cbn [foldl].
  destruct (foldl supplier_cell _ cells) as [cur cache].
  destruct IH as (Hcur & Hkeys & Hvals). cbn [fst snd] in *.
  rewrite supplier_cell_step.
  unfold current_supplier, sku_texts in *. rewrite omap_app. simpl.
  destruct (cell_text cell) as [t|]; simpl; [|by rewrite !app_nil_r].
  rewrite !filter_app.
  destruct (is_heading t) eqn:Hh; simpl.
  - rewrite filter_cons_True, filter_nil, last_snoc by done.
    rewrite filter_cons_False, filter_nil, app_nil_r by (by rewrite Hh).
    done.
  - rewrite filter_cons_False, filter_nil, app_nil_r by (by rewrite Hh).
    rewrite filter_cons_True, filter_nil by done.
    split_and!; [done| |].
    + rewrite odict_keys_set, first_occurrences_snoc, <-Hkeys.
      destruct (odict_get t cache) eqn:Hget.
      * rewrite decide_True; [done|].
        apply elem_of_first_occurrences. rewrite <-Hkeys.
        apply odict_get_elem in Hget. apply list_elem_of_fmap. by eexists (_, _).
      * rewrite decide_False; [done|].
        rewrite <-elem_of_first_occurrences, <-Hkeys.
        by apply odict_get_none_keys.
    + intros k v. destruct (decide (t = k)) as [->|Hne].
      * rewrite odict_get_set_eq. by intros [= <-].
      * rewrite odict_get_set_ne by done. apply Hvals.
Qed.

Lemma supplier_fold_keep (k : string) (cells : list value) (cur : string)
    (cache : list (string * (string * bool))) :
  (∀ c, c ∈ cells → cell_text c ≠ Some k) → is_heading k = false →
  odict_get k (foldl supplier_cell (cur, cache) cells).2 = odict_get k cache.
Proof.
  revert cur cache. induction cells as [|cell cells IH]; intros cur cache Hno Hk;
    [done|].
  cbn [foldl]. rewrite supplier_cell_step.
  assert (∀ c, c ∈ cells → cell_text c ≠ Some k) as Hno'
    by (intros c ?; apply Hno; by right).
  destruct (cell_text cell) as [t|] eqn:Ht; [|by apply IH].
  destruct (is_heading t) eqn:Hh; [by apply IH|].
  rewrite IH by done. apply odict_get_set_ne.
  intros ->. by apply (Hno cell); [left|].
Qed.

Lemma build_supplier_cache_get (df : DataFrame) (before after : list value)
    (cell : value) (sku : string) :
  concat (rows df) = before ++ cell :: after →
  cell_text cell = Some sku → is_heading sku = false →
  (∀ c, c ∈ after → cell_text c ≠ Some sku) →
  odict_get sku (_build_supplier_cache df)
  = Some (current_supplier before, true).
Proof.
  intros Hcells Hcell Hsku Hafter.
  rewrite build_supplier_cache_flat, Hcells, foldl_app. cbn [foldl].
  destruct (supplier_fold_inv before) as (Hcur & _ & _).
  destruct (foldl supplier_cell _ before) as [cur cache]. cbn [fst] in Hcur.
  rewrite supplier_cell_step, Hcell, Hsku.
  rewrite supplier_fold_keep by done.
  by rewrite odict_get_set_eq, Hcur.
Qed.

(** X13: the supplier cache holds the SKU texts of the supplier table in
    the order of their first occurrence, the table being read row by row
    and the cells of a row from left to right; each SKU text is filed
    under the supplier heading that precedes its last occurrence most
    closely, or under the default supplier when no heading precedes it,
    always with the mark [found]; no key of the cache is a heading; and
    the supplier lookup answers a SKU text of the table that is not empty
    with the supplier it is filed under. *)
Theorem build_supplier_cache_spec (df : DataFrame) :
  let cells := concat (rows df) in
  let cache := _build_supplier_cache df in
  cache.*1 = first_occurrences (sku_texts cells)
  ∧ (∀ before cell after sku,
       cells = before ++ cell :: after →
       cell_text cell = Some sku → is_heading sku = false →
       (∀ c, c ∈ after → cell_text c ≠ Some sku) →
       odict_get sku cache = Some (current_supplier before, true)
       ∧ ∀ self, _supplier_sku_cache self = cache → sku ≠ "" →
                 get_supplier_group self sku = (current_supplier before, true))
  ∧ (∀ sku supplier found,
       odict_get sku cache = Some (supplier, found) →
       found = true ∧ is_heading sku = false ∧ sku ∈ sku_texts cells).
Proof.
  intros cells cache. subst cells cache. split_and!.
  - rewrite build_supplier_cache_flat.
    by destruct (supplier_fold_inv (concat (rows df))) as (_ & ? & _).
  - intros before cell after sku Hcells Hcell Hsku Hafter.
    pose proof (build_supplier_cache_get _ _ _ _ _ Hcells Hcell Hsku Hafter)
      as Hget.
    split; [done|]. intros self Hcache Hne. unfold get_supplier_group.
    assert (str_truthy sku = true) as -> by (by destruct sku).
    cbn [negb]. by rewrite Hcache, Hget.
  - rewrite build_supplier_cache_flat. intros sku supplier found Hget.
    destruct (supplier_fold_inv (concat (rows df))) as (_ & Hkeys & Hvals).
    destruct (Hvals _ _ Hget) as [Hfound Hsku]. split_and!; [done..|].
    apply elem_of_first_occurrences. rewrite <-Hkeys.
    apply odict_get_elem in Hget. apply list_elem_of_fmap. by eexists (_, _).
Qed.

(** ** Found and not found *)

Lemma startswith_refl (s : string) : startswith s s = true.
Proof. induction s as [|c s IH]; simpl; [done|]. by rewrite decide_True. Qed.

Lemma py_in_refl (s : string) : py_in s s = true.
Proof. destruct s; simpl; [done|]. by rewrite decide_True, startswith_refl. Qed.

(** X14: with a cache all of whose entries carry the mark [found], as the
    built cache does, the supplier lookup reports [found] exactly for a
    non-empty prefix that contains a key of the cache or is contained in
    one; every other prefix gets the default supplier, not found. *)
Theorem get_supplier_group_found (self : ShippingOrderGenerator)
    (prefix : string) :
  (∀ kv, kv ∈ _supplier_sku_cache self → kv.2.2 = true) →
  ((get_supplier_group self prefix).2 = true
   ↔ prefix ≠ ""
     ∧ ∃ kv, kv ∈ _supplier_sku_cache self
             ∧ contains_either prefix kv.1 = true)
  ∧ ((get_supplier_group self prefix).2 = false →
     get_supplier_group self prefix = ("其他供应商", false)).
Proof.
  intros Hmarks. unfold get_supplier_group.
  destruct prefix as [|a prefix]; simpl.
  { split; [|done]. split; [done|]. by intros [? _]. }
  set (p := String a prefix).
  destruct (odict_get p (_supplier_sku_cache self)) as [result|] eqn:Hget.
  - apply odict_get_elem in Hget. pose proof (Hmarks _ Hget) as Hmark.
    simpl in Hmark. split; [|congruence]. split; [|done].
    intros _. split; [done|]. exists (p, result). split; [done|].
    unfold contains_either. cbn [fst]. by rewrite py_in_refl.
  - unfold fuzzy_scan.
    destruct (List.find _ _) as [[key result]|] eqn:Hfind; simpl.
    + apply find_some in Hfind as [Hin Hrel].
      pose proof (Hmarks _ (proj2 (list_elem_of_In _ _) Hin)) as Hmark.
      simpl in Hmark, Hrel. split; [|congruence]. split; [|done].
      intros _. split; [done|]. exists (key, result).
      split; [by apply list_elem_of_In|done].
    + split; [|done]. split; [done|].
      intros [_ (kv & Hin & Hrel)].
      apply list_elem_of_In in Hin.
      pose proof (find_none _ _ Hfind kv Hin) as Hno. cbv beta in Hno.
      unfold contains_either in Hrel. congruence.
Qed.

Lemma get_supplier_group_found_witness :
  (get_supplier_group sample_generator "AB").2 = true.
Proof.
  apply (get_supplier_group_found sample_generator "AB").
  - intros kv Hin. vm_compute in Hin.
    repeat (apply elem_of_cons in Hin as [->|Hin]; [done|]).
    by apply elem_of_nil in Hin.
  - split; [done|]. exists ("ABC", ("甲供应商", true)). split; [|done].
    vm_compute. left.
Defined.

(** ** File names and the image cache *)

Lemma split_last_dot_none (s : string) :
  split_last_dot s = None ↔ py_in "." s = false.
Proof.
  induction s as [|c s IH]; simpl; [done|].
  destruct (split_last_dot s) as [[root ext]|].
  - split; [done|]. intros [_ Hs]%orb_false_elim. by apply IH in Hs.
  - destruct (decide (c = "."%char)) as [->|Hne].
    + by rewrite decide_True.
    + rewrite decide_False by congruence. simpl. by rewrite <-IH.
Qed.

Lemma split_last_dot_spec (s root ext : string) :
  split_last_dot s = Some (root, ext) →
  s = root +:+ ext ∧ ∃ e, ext = String "." e ∧ py_in "." e = false.
Proof.
  revert root. induction s as [|c s IH]; intros root; simpl; [done|].
  destruct (split_last_dot s) as [[root' ext']|] eqn:Hs.
  - intros [= <- <-]. destruct (IH root' eq_refl) as [-> He].
    by rewrite string_app_cons.
  - destruct (decide (c = "."%char)) as [->|]; [|done].
    intros [= <- <-]. split; [done|]. exists s. split; [done|].
    by apply split_last_dot_none.
Qed.

Lemma split_last_dot_app (stem e : string) :
  py_in "." e = false →
  split_last_dot (stem +:+ "." +:+ e) = Some (stem, String "." e).
Proof.
  intros He. induction stem as [|c stem IH].
  - change (split_last_dot (String "." e) = Some ("", String "." e)).
    simpl. by rewrite (proj2 (split_last_dot_none e) He).
  - rewrite string_app_cons. simpl. by rewrite IH.
Qed.

Lemma basename_no_slash (s : string) : py_in "/" s = false → basename s = s.
Proof. destruct s as [|c s]; [done|]. intros Hs. cbn [basename]. by rewrite Hs. Qed.

Lemma filter_nil_intro {A} (P : A → Prop) `{∀ x, Decision (P x)} (l : list A) :
  (∀ x, x ∈ l → ¬ P x) → filter P l = [].
Proof.
  induction l as [|x l IH]; intros Hl; [done|].
  rewrite filter_cons_False by (apply Hl; left).
  apply IH. intros y ?. apply Hl. by right.
Qed.

(** [os.path.splitext] cuts a path into a root and an extension that is
    empty or is a dot followed by a text without dot or slash; and the
    root of [stem.ext] is [stem] when [stem] has no slash and does not
    start with a dot and [ext] has neither dot nor slash. *)
Lemma splitext_root_spec (p : string) :
  (∃ ext, p = splitext_root p +:+ ext
          ∧ (ext = ""
             ∨ ∃ e, ext = String "." e
                    ∧ py_in "." e = false ∧ py_in "/" e = false))
  ∧ (∀ c stem e,
       p = String c stem +:+ "." +:+ e →
       c ≠ "."%char → py_in "/" (String c stem) = false →
       py_in "." e = false → py_in "/" e = false →
       splitext_root p = String c stem).
Proof.
  split.
  - unfold splitext_root.
    destruct (split_last_dot p) as [[root ext]|] eqn:Hsplit;
      [|exists ""; split; [by rewrite string_app_nil_r|by left]].
    destruct (py_in "/" ext) eqn:Hslash;
      [exists ""; split; [by rewrite string_app_nil_r|by left]|].
    destruct (str_truthy _);
      [|exists ""; split; [by rewrite string_app_nil_r|by left]].
    destruct (split_last_dot_spec _ _ _ Hsplit) as [-> (e & -> & He)].
    exists (String "." e). split; [done|]. right. exists e.
    split_and!; [done..|].
    by simpl in Hslash.
  - intros c stem e -> Hc Hstem Hdot Hslash.
    unfold splitext_root. rewrite (split_last_dot_app _ _ Hdot).
    assert (py_in "/" (String "." e) = false) as ->.
    { simpl. by rewrite Hslash. }
    rewrite (basename_no_slash _ Hstem). simpl lstrip_with.
    by rewrite bool_decide_eq_false_2.
Qed.




Section odict_fold.
Context {K V A : Type} `{EqDecision K}.
Context (key : A → K) (val : A → V) (f : list (K * V) → A → list (K * V)).
Hypothesis Hf : ∀ d x, f d x = odict_set (key x) (val x) d.


End odict_fold.




(** ** Processing a store *)

Section odict_concat.
Context {K V A : Type} `{EqDecision K} (f : V → list A).

Lemma odict_set_concat_perm (k : K) (v' : V) (o : A) (d : list (K * V)) :
  f v' = default [] (f <$> odict_get k d) ++ [o] →
  concat (f <$> odict_values (odict_set k v' d))
  ≡ₚ concat (f <$> odict_values d) ++ [o].
Proof.
  unfold odict_values. induction d as [|[k0 v0] d IH]; csimpl.
  - intros ->. by rewrite app_nil_r.
  - destruct (decide (k0 = k)) as [->|Hne]; csimpl.
    + intros ->. rewrite <-!app_assoc. f_equiv. apply Permutation_app_comm.
    + intros Hv'. by rewrite IH, app_assoc.
Qed.
End odict_concat.

Lemma bucket_append_perm (supplier : string) (order : Order)
    (buckets : list (string * list Order)) :
  concat (bucket_append supplier order buckets).*2
  ≡ₚ concat buckets.*2 ++ [order].
Proof.
  unfold bucket_append.
  pose proof (odict_set_concat_perm (λ os : list Order, os) supplier
                (default [] (odict_get supplier buckets) ++ [order]) order
                buckets) as Hperm.
  unfold odict_values in Hperm. rewrite !list_fmap_id in Hperm.
  apply Hperm. by destruct (odict_get supplier buckets).
Qed.

Lemma process_step (st : list (string * list Order) * list Order)
    (lines : list (string * bool * Order)) (supplier : string) (found : bool)
    (order : Order) :
  process_inv st lines →
  process_inv (if found then (bucket_append supplier order st.1, st.2)
               else (st.1, st.2 ++ [order]))
              (lines ++ [(supplier, found, order)]).
Proof.
  destruct st as [buckets abnormal].
  intros (Habn & Hnd & Hbuckets & Hall & Hperm). cbn [fst snd] in *.
  unfold process_inv. destruct found; cbn [fst snd].
  - split_and!.
    + by rewrite filter_app, filter_cons_False, filter_nil, app_nil_r.
    + by apply odict_set_NoDup.
    + intros s os. unfold bucket_append.
      rewrite filter_app.
      destruct (decide (supplier = s)) as [->|Hne].
      * rewrite odict_get_set_eq. intros [= <-].
        rewrite filter_cons_True, filter_nil by done.
        split; [by destruct (default _ _)|].
        rewrite fmap_app. f_equal.
        destruct (odict_get s buckets) as [os0|] eqn:Hget.
        -- by destruct (Hbuckets _ _ Hget).
        -- simpl. rewrite filter_nil_intro; [done|].
           intros l Hl [Hf Hs]. destruct (Hall l Hl Hf) as [? Hsome].
           congruence.
      * rewrite odict_get_set_ne by done.
        rewrite filter_cons_False, filter_nil, app_nil_r by (simpl; tauto).
        apply Hbuckets.
    + intros l [Hl| ->%list_elem_of_singleton]%elem_of_app Hf.
      * unfold bucket_append.
        destruct (decide (supplier = l.1.1)) as [->|Hne].
        -- rewrite odict_get_set_eq. eauto.
        -- rewrite odict_get_set_ne by done. by apply Hall.
      * unfold bucket_append. cbn [fst]. rewrite odict_get_set_eq. eauto.
    + rewrite bucket_append_perm, fmap_app. simpl.
      rewrite <-Hperm, <-!app_assoc. f_equiv. apply Permutation_app_comm.
  - split_and!.
    + rewrite filter_app, filter_cons_True, filter_nil, fmap_app by done.
      by rewrite Habn.
    + done.
    + intros s os Hget. rewrite filter_app.
      rewrite filter_cons_False, filter_nil, app_nil_r by (simpl; by intros [? _]).
      by apply Hbuckets.
    + intros l [Hl| ->%list_elem_of_singleton]%elem_of_app Hf; [by apply Hall|done].
    + by rewrite fmap_app, app_assoc, Hperm.
Qed.

(** The lines that [process_order_data] makes and where it puts them. *)
Lemma process_order_data_lines (self : ShippingOrderGenerator)
    (store_data : DataFrame) (buckets : list (string * list Order))
    (abnormal : list Order) :
  process_order_data self store_data = Ok (buckets, abnormal) →
  ∃ lines,
    lines_of_rows self (columns store_data) (visited_rows store_data) lines
    ∧ process_inv (buckets, abnormal) lines.
Proof.
  unfold process_order_data. fold (visited_rows store_data).
  set (cols := columns store_data). intros Hrun.
  refine (for_each_inv
    (λ st done, ∃ lines, lines_of_rows self cols done lines ∧ process_inv st lines)
    _ _ _ _ _ _ Hrun).
  - exists []. split; [constructor|]. unfold process_inv. cbn [fst snd].
    split_and!; [done|constructor|done| |done].
    by intros l ?%elem_of_nil.
  - intros [b a] done row rest st1 _ (lines & Hlines & Hinv).
    destruct (order_of_row self cols (order_columns cols) row)
      as [[[supplier found] order]|e] eqn:Horder; simpl; [|done].
    intros Hst1. exists (lines ++ [(supplier, found, order)]). split.
    + apply Forall2_app; [done|]. by repeat constructor.
    + pose proof (process_step _ _ supplier found order Hinv) as Hstep.
      cbn [fst snd] in Hstep. by destruct found; simplify_eq.
Qed.

Lemma order_of_row_fields (self : ShippingOrderGenerator) (cols : list string)
    (col_names : OrderColumns) (row : Series) (supplier : string)
    (found : bool) (order : Order) :
  order_of_row self cols col_names row = Ok (supplier, found, order) →
  get_supplier_group self (SKU前缀 order) = (supplier, found)
  ∧ SKU前缀 order = _extract_sku_prefix (SKU order)
  ∧ 原始顺序 order = seq_of_value (row_get cols row "原始顺序" (VInt 0))
  ∧ _safe_int (get_or cols row (sets_col col_names) (VInt 0)) 0
    = Ok (套数 order)
  ∧ calculate_total_quantity self (SKU order)
      (get_or cols row (sets_col col_names) (VInt 0)) (货品id order)
    = Ok (总数量 order).
Proof.
  unfold order_of_row.
  destruct (get_supplier_group _ _) as [s fnd] eqn:Hgroup.
  destruct (get_product_details _ _) as [details|]; simpl; [|done].
  destruct (_safe_int _ _) as [sets_int|] eqn:Hsets; simpl; [|done].
  destruct (calculate_total_quantity _ _ _ _) as [total|] eqn:Htotal; simpl;
    [|done].
  destruct (find_barcode_data _ _) as [barcode barcode_name].
  intros [= <- <- <-]. by split_and!.
Qed.

Lemma Forall2_length_eq {A B} (P : A → B → Prop) (l : list A) (k : list B) :
  Forall2 P l k → length l = length k.
Proof. induction 1; simpl; by f_equal. Qed.

(** X16: when the processing of a store whose sequence column holds
    pairwise different integers succeeds, every row of the store gives exactly one line,
    which lands either in the list of one supplier or in the abnormal
    list; the suppliers of the lists are pairwise different and no list is
    empty; a line lies in the list of the supplier that the supplier
    lookup finds for its SKU prefix, and in the abnormal list when the
    lookup finds none. *)
Theorem process_order_data_partition (self : ShippingOrderGenerator)
    (store_data : DataFrame) (buckets : list (string * list Order))
    (abnormal : list Order) :
  sequenced store_data →
  process_order_data self store_data = Ok (buckets, abnormal) →
  (length (concat buckets.*2) + length abnormal = length (rows store_data))%nat
  ∧ NoDup buckets.*1
  ∧ (∀ supplier os,
       (supplier, os) ∈ buckets →
       os ≠ []
       ∧ ∀ o, o ∈ os →
              SKU前缀 o = _extract_sku_prefix (SKU o)
              ∧ get_supplier_group self (SKU前缀 o) = (supplier, true))
  ∧ (∀ o, o ∈ abnormal →
          SKU前缀 o = _extract_sku_prefix (SKU o)
          ∧ (get_supplier_group self (SKU前缀 o)).2 = false).
Proof.
  intros _.
  intros (lines & Hlines & Habn & Hnd & Hbuckets & _ & Hperm)%process_order_data_lines.
  cbn [fst snd] in *.
  assert (∀ l, l ∈ lines →
               get_supplier_group self (SKU前缀 l.2) = l.1
               ∧ SKU前缀 l.2 = _extract_sku_prefix (SKU l.2)) as Hfields.
  { intros [[s f] o] Hl.
    apply list_elem_of_lookup in Hl as [i Hi].
    destruct (Forall2_lookup_r _ _ _ _ _ Hlines Hi) as (row & _ & Hrow).
    by destruct (order_of_row_fields _ _ _ _ _ _ _ Hrow) as (? & ? & _). }
  split_and!.
  - rewrite <-length_app, Hperm, length_fmap.
    rewrite <-(Forall2_length_eq _ _ _ Hlines).
    unfold visited_rows. by rewrite py_sorted_perm.
  - done.
  - intros supplier os Hin. apply (odict_elem_get _ _ _ Hnd) in Hin.
    destruct (Hbuckets _ _ Hin) as [Hne ->]. split; [done|].
    intros o (l & -> & Hl)%list_elem_of_fmap.
    apply list_elem_of_filter in Hl as [[Hf Hs] Hl].
    destruct (Hfields l Hl) as [Hgroup Hprefix]. split; [done|].
    rewrite Hgroup. destruct l as [[s f] o]. simpl in *. by subst.
  - intros o Ho. rewrite Habn in Ho.
    apply list_elem_of_fmap in Ho as (l & -> & Hl).
    apply list_elem_of_filter in Hl as [Hf Hl].
    destruct (Hfields l Hl) as [Hgroup Hprefix]. split; [done|].
    by rewrite Hgroup.
Qed.

Lemma sample_store_sequenced : sequenced sample_store.
Proof.
  split.
  - intros row Hin. unfold sample_store in Hin. cbn [rows] in Hin.
    repeat (apply elem_of_cons in Hin as [->|Hin];
            [eexists; vm_compute; reflexivity|]).
    by apply elem_of_nil in Hin.
  - apply (bool_decide_unpack _). vm_compute. exact I.
Qed.

Lemma process_order_data_partition_witness :
  (length (concat sample_processed.1.*2) + length sample_processed.2 = 3)%nat
  ∧ sample_processed.1.*1 = ["甲供应商"; "乙厂"]
  ∧ 货品id <$> sample_processed.2 = [VStr "5"].
Proof.
  split_and!; [|vm_compute; reflexivity..].
  apply (process_order_data_partition sample_generator sample_store
           sample_processed.1 sample_processed.2).
  - apply sample_store_sequenced.
  - vm_compute. reflexivity.
Defined.

(** ** Sequence order *)

Section sorted_more.
Context {A : Type} (key : A → Z).

Lemma py_sorted_id (l : list A) :
  StronglySorted (λ a b, key a ≤ key b) l → py_sorted key l = l.
Proof.
  induction 1 as [|x l Hl IH Hx]; simpl; [done|].
  rewrite IH. destruct l as [|y l]; simpl; [done|].
  apply Forall_cons in Hx as [Hxy _].
  by destruct (Z.leb_spec (key x) (key y)); [|lia].
Qed.

Lemma StronglySorted_filter (P : A → Prop) `{∀ x, Decision (P x)}
    (R : A → A → Prop) (l : list A) :
  StronglySorted R l → StronglySorted R (filter P l).
Proof.
  induction 1 as [|x l Hl IH Hx]; [constructor|].
  destruct (decide (P x)).
  - rewrite filter_cons_True by done. constructor; [done|].
    apply Forall_forall. intros y [_ Hy]%list_elem_of_filter.
    rewrite Forall_forall in Hx. by apply Hx.
  - by rewrite filter_cons_False.
Qed.
End sorted_more.

Lemma StronglySorted_fmap_2 {A B} (f : A → B) (R : B → B → Prop) (l : list A) :
  StronglySorted (λ a b, R (f a) (f b)) l → StronglySorted R (f <$> l).
Proof.
  induction 1 as [|x l Hl IH Hx]; csimpl; constructor; [done|].
  by apply Forall_fmap.
Qed.

Lemma lines_of_rows_sorted (self : ShippingOrderGenerator) (cols : list string)
    (done : list Series) (lines : list (string * bool * Order)) :
  lines_of_rows self cols done lines →
  StronglySorted
    (λ r1 r2, seq_of_value (row_get cols r1 "原始顺序" (VInt 0))
              ≤ seq_of_value (row_get cols r2 "原始顺序" (VInt 0))) done →
  StronglySorted (λ l1 l2, 原始顺序 l1.2 ≤ 原始顺序 l2.2) lines.
Proof.
  intros Hlines. induction Hlines as [|row line done lines Hline Hlines IH];
    [constructor|].
  intros [Hdone Hrow]%StronglySorted_inv. constructor; [by apply IH|].
  destruct line as [[s f] o].
  destruct (order_of_row_fields _ _ _ _ _ _ _ Hline) as (_ & _ & Hseq & _).
  simpl. rewrite Hseq.
  apply Forall_forall. intros [[s' f'] o'] Hin.
  apply list_elem_of_lookup in Hin as [i Hi].
  destruct (Forall2_lookup_r _ _ _ _ _ Hlines Hi) as (row' & Hrow' & Hline').
  destruct (order_of_row_fields _ _ _ _ _ _ _ Hline') as (_ & _ & Hseq' & _).
  simpl. rewrite Hseq'. rewrite Forall_forall in Hrow. apply Hrow.
  by eapply list_elem_of_lookup_2.
Qed.

(** X17: the abnormal list and the list of every supplier come out of
    the processing of a store whose sequence column holds pairwise
    different integers in sequence order, the rows being visited in that
    order; the sort with which [merge_orders] begins leaves such a list as
    it is. *)
Theorem process_order_data_sequence (self : ShippingOrderGenerator)
    (store_data : DataFrame) (buckets : list (string * list Order))
    (abnormal : list Order) :
  sequenced store_data →
  process_order_data self store_data = Ok (buckets, abnormal) →
  ∀ os, os = abnormal ∨ os ∈ buckets.*2 →
        StronglySorted (λ a b, 原始顺序 a ≤ 原始顺序 b) os
        ∧ py_sorted 原始顺序 os = os.
Proof.
  intros _.
  intros (lines & Hlines & Habn & Hnd & Hbuckets & _)%process_order_data_lines.
  cbn [fst snd] in *.
  pose proof (lines_of_rows_sorted _ _ _ _ Hlines (py_sorted_sorted _ _)) as Hsorted.
  assert (∀ (P : string * bool * Order → Prop) `{∀ l, Decision (P l)},
            StronglySorted (λ a b, 原始顺序 a ≤ 原始顺序 b)
              (snd <$> filter P lines)) as Hpart.
  { intros P HP. apply StronglySorted_fmap_2. by apply StronglySorted_filter. }
  intros os Hos.
  assert (StronglySorted (λ a b, 原始顺序 a ≤ 原始顺序 b) os) as Hs.
  { destruct Hos as [->|Hin].
    - rewrite Habn. apply Hpart.
    - apply list_elem_of_fmap in Hin as ([supplier os'] & -> & Hin).
      apply (odict_elem_get _ _ _ Hnd) in Hin.
      destruct (Hbuckets _ _ Hin) as [_ ->]. apply Hpart. }
  split; [done|]. by apply py_sorted_id.
Qed.

Lemma process_order_data_sequence_witness :
  StronglySorted (λ a b, 原始顺序 a ≤ 原始顺序 b) sample_processed.2
  ∧ py_sorted 原始顺序 sample_processed.2 = sample_processed.2.
Proof.
  apply (process_order_data_sequence sample_generator sample_store
           sample_processed.1 sample_processed.2).
  - apply sample_store_sequenced.
  - vm_compute. reflexivity.
  - by left.
Defined.

(** ** Merging once more *)

Section odict_more.
Context {K V : Type} `{EqDecision K}.
Implicit Types (k : K) (v : V) (d : list (K * V)).

Lemma odict_set_new k v d : odict_get k d = None → odict_set k v d = d ++ [(k, v)].
Proof.
  induction d as [|[k' v'] d IH]; simpl; [done|].
  destruct (decide (k' = k)); [done|]. intros Hd. by rewrite IH.
Qed.

Lemma odict_set_set k v v0 d : odict_set k v (odict_set k v0 d) = odict_set k v d.
Proof.
  induction d as [|[k' v'] d IH]; simpl.
  - by rewrite decide_True.
  - destruct (decide (k' = k)) as [->|Hne]; simpl.
    + by rewrite decide_True.
    + by rewrite decide_False, IH.
Qed.
End odict_more.

Lemma merge_fold_distinct (l : list Order) (d : list (string * Order)) :
  NoDup (d.*1 ++ (merge_key <$> l)) →
  foldl merge_step d l = d ++ ((λ o, (merge_key o, o)) <$> l).
Proof.
  revert d. induction l as [|o l IH]; intros d Hnd; simpl.
  - by rewrite app_nil_r.
  - assert (odict_get (merge_key o) d = None) as Hget.
    { apply odict_get_none_keys. intros Hin.
      apply NoDup_app in Hnd as (_ & Hdis & _). apply (Hdis _ Hin). left. }
    unfold merge_step at 2. rewrite Hget, odict_set_new by done.
    rewrite IH; [by rewrite <-app_assoc|].
    rewrite fmap_app, <-app_assoc. done.
Qed.

Lemma merge_orders_distinct (l : list Order) :
  NoDup (merge_key <$> l) → merge_orders l = py_sorted 原始顺序 l.
Proof.
  intros Hnd. unfold merge_orders.
  rewrite merge_fold_distinct; last first.
  { simpl. by rewrite py_sorted_perm. }
  unfold odict_values. simpl.
  assert (∀ l0 : list Order, ((λ o, (merge_key o, o)) <$> l0).*2 = l0) as ->.
  { induction l0 as [|o l0 IH]; csimpl; [done|]. by rewrite IH. }
  apply py_sorted_id, py_sorted_sorted.
Qed.

(** X18: merging leaves the lines as they are, apart from putting them
    in sequence order, exactly when their key texts are pairwise
    different. *)
Theorem merge_orders_distinct_keys (lines : list Order) :
  NoDup (merge_key <$> lines)
  ↔ merge_orders lines = py_sorted 原始顺序 lines.
Proof.
  split; [apply merge_orders_distinct|].
  intros Heq. destruct (merge_orders_spec lines) as (Hnd & _).
  cbn zeta in Hnd. rewrite Heq in Hnd. by rewrite py_sorted_perm in Hnd.
Qed.

(** X19: merging is idempotent: merged lines merge to themselves. *)
Theorem merge_orders_idempotent (lines : list Order) :
  merge_orders (merge_orders lines) = merge_orders lines.
Proof.
  destruct (merge_orders_spec lines) as (Hnd & _ & _ & Hsorted).
  cbn zeta in *. rewrite merge_orders_distinct by done.
  by apply py_sorted_id.
Qed.

(** ** Grouping once more *)

Lemma concat_fmap_perm {A B} (f : A → list B) (l1 l2 : list A) :
  l1 ≡ₚ l2 → concat (f <$> l1) ≡ₚ concat (f <$> l2).
Proof.
  induction 1 as [|x l1 l2 _ IH|x y l|l1 l2 l3 _ IH1 _ IH2]; csimpl.
  - done.
  - by rewrite IH.
  - rewrite !app_assoc. f_equiv. apply Permutation_app_comm.
  - by rewrite IH1.
Qed.

Lemma group_step_perm (d : list (value * Group)) (o : Order) :
  concat (orders <$> odict_values (group_step d o))
  ≡ₚ concat (orders <$> odict_values d) ++ [o].
Proof.
  unfold group_step.
  destruct (odict_get (仓库名称 o) d) as [g|] eqn:Hget.
  - rewrite Hget. apply odict_set_concat_perm. by rewrite Hget.
  - rewrite odict_get_set_eq, odict_set_set.
    apply odict_set_concat_perm. by rewrite Hget.
Qed.

Lemma group_fold_perm (l : list Order) (d : list (value * Group)) :
  concat (orders <$> odict_values (foldl group_step d l))
  ≡ₚ concat (orders <$> odict_values d) ++ l.
Proof.
  revert d. induction l as [|o l IH]; intros d; simpl.
  - by rewrite app_nil_r.
  - by rewrite IH, group_step_perm, <-app_assoc.
Qed.

Lemma group_by_warehouse_perm (lines : list Order) :
  concat (orders <$> group_by_warehouse lines) ≡ₚ lines.
Proof.
  unfold group_by_warehouse.
  rewrite (concat_fmap_perm _ _ _ (py_sorted_perm _ _)).
  by rewrite group_fold_perm.
Qed.

(** X20: grouping by warehouse neither loses nor repeats a line: the
    lines of the groups, taken together, are the input lines in another
    order, so that a document has one data row for each line. *)
Theorem group_by_warehouse_partition (lines : list Order) :
  concat (orders <$> group_by_warehouse lines) ≡ₚ lines
  ∧ length (concat (orders <$> group_by_warehouse lines)) = length lines
  ∧ (lines = [] → group_by_warehouse lines = []).
Proof.
  split_and!.
  - apply group_by_warehouse_perm.
  - by rewrite group_by_warehouse_perm.
  - by intros ->.
Qed.

(** ** The assembled document *)



















Example create_excel_sample_cells :
  let ws := (create_excel "2024-01-01" "甲供应商" interleaved_lines false).1 in
  (λ rc, cells ws !! rc)
    <$> [(1, 1); (2, 1); (3, 9); (4, 1); (4, 4); (5, 1); (5, 11); (6, 1);
         (6, 11); (7, 2)]
  = [ Some (VStr "甲供应商 出货单 - 2024-01-01"); None; Some (VStr "条码文件");
      Some (VStr "第一单"); None; Some (VStr "第二单"); Some (VStr "A");
      None; None; None ]
  ∧ merged_cells ws = [(1, 1, 1, 11); (5, 1, 6, 1); (5, 10, 6, 10); (5, 11, 6, 11)].
Proof. split; vm_compute; reflexivity. Qed.

(** ** Shipment labels *)

Lemma string_app_inv_tail (s1 s2 t : string) : s1 +:+ t = s2 +:+ t → s1 = s2.
Proof.
  revert s2. induction s1 as [|c s1 IH]; intros [|c' s2] Heq.
  - done.
  - apply (f_equal String.length) in Heq.
    rewrite string_app_nil_l, string_app_length in Heq. simpl in Heq. lia.
  - apply (f_equal String.length) in Heq.
    rewrite string_app_nil_l, string_app_length in Heq. simpl in Heq. lia.
  - rewrite !string_app_cons in Heq. injection Heq as -> Heq.
    by rewrite (IH _ Heq).
Qed.

Lemma chinese_numbers_NoDup : NoDup CHINESE_NUMBERS.
Proof. apply (bool_decide_unpack _). vm_compute. exact I. Qed.

Lemma chinese_numbers_head (name : string) :
  name ∈ CHINESE_NUMBERS → ∃ c r, name = String c r ∧ is_digit c = false.
Proof.
  intros Hin. unfold CHINESE_NUMBERS in Hin.
  repeat (apply elem_of_cons in Hin as [->|Hin]; [by eexists _, _|]).
  by apply elem_of_nil in Hin.
Qed.

Lemma str_of_int_head (n : Z) :
  0 ≤ n → ∃ c r, str_of_int n = String c r ∧ is_digit c = true.
Proof.
  intros Hn. destruct (str_of_int_numeral n) as (ds & -> & Hds & _ & Hne).
  destruct (Z.ltb_spec n 0); [lia|]. rewrite string_app_nil_l.
  destruct ds as [|c r]; [done|]. exists c, r. split; [done|].
  simpl in Hds. by apply andb_prop in Hds as [? _].
Qed.

(** X23: the shipments of a document get pairwise different labels: the
    first twenty are numbered with Chinese numerals, the later ones with
    decimal numerals. *)
Theorem order_num_injective (i j : nat) : order_num i = order_num j ↔ i = j.
Proof.
  split; [|by intros ->]. unfold order_num.
  assert (∀ a b : string, "第" +:+ a +:+ "单" = "第" +:+ b +:+ "单" → a = b)
    as Hcancel.
  { intros a b Heq. apply (String.app_inj "第") in Heq.
    by apply string_app_inv_tail in Heq. }
  destruct (CHINESE_NUMBERS !! i) as [a|] eqn:Hi,
    (CHINESE_NUMBERS !! j) as [b|] eqn:Hj; intros Heq%Hcancel.
  - subst b. by eapply NoDup_lookup; [apply chinese_numbers_NoDup|..].
  - apply list_elem_of_lookup_2 in Hi.
    destruct (chinese_numbers_head _ Hi) as (c & r & -> & Hc).
    destruct (str_of_int_head (Z.of_nat j + 1) ltac:(lia)) as (c' & r' & Hs & Hc').
    rewrite Hs in Heq. congruence.
  - apply list_elem_of_lookup_2 in Hj.
    destruct (chinese_numbers_head _ Hj) as (c & r & -> & Hc).
    destruct (str_of_int_head (Z.of_nat i + 1) ltac:(lia)) as (c' & r' & Hs & Hc').
    rewrite Hs in Heq. congruence.
  - apply (inj pretty) in Heq. lia.
Qed.

(** ** Sequence numbers *)

Lemma index_of_lookup (c : string) (cols : list string) (i : nat) :
  index_of c cols = Some i → cols !! i = Some c.
Proof.
  revert i. induction cols as [|c' cols IH]; intros i; simpl; [done|].
  destruct (decide (c' = c)) as [->|]; [by intros [= <-]|].
  destruct (index_of c cols) as [j|]; [|done]. simpl. intros [= <-].
  by apply IH.
Qed.

Lemma index_of_snoc (c x : string) (cols : list string) :
  index_of c (cols ++ [x])
  = match index_of c cols with
    | Some i => Some i
    | None => if decide (x = c) then Some (length cols) else None
    end.
Proof.
  induction cols as [|c' cols IH]; simpl.
  - by destruct (decide (x = c)).
  - destruct (decide (c' = c)); [done|]. rewrite IH.
    destruct (index_of c cols); [done|]. by destruct (decide (x = c)).
Qed.

(** X24: on a table whose rows hold one cell per column, [__init__]
    numbers the rows in the column '原始顺序' by position, from [0],
    whether the table had such a column or not; the table keeps its
    shape and its other columns. *)
Theorem assign_sequence_numbers (df : DataFrame) :
  rectangular df →
  rectangular (assign_sequence df)
  ∧ length (rows (assign_sequence df)) = length (rows df)
  ∧ (∀ k row dflt,
       rows (assign_sequence df) !! k = Some row →
       row_get (columns (assign_sequence df)) row "原始顺序" dflt
       = VInt (Z.of_nat k))
  ∧ (∀ k row row' label dflt,
       label ≠ "原始顺序" →
       rows df !! k = Some row → rows (assign_sequence df) !! k = Some row' →
       row_get (columns (assign_sequence df)) row' label dflt
       = row_get (columns df) row label dflt).
Proof.
  intros Hrect. unfold rectangular in Hrect. rewrite Forall_forall in Hrect.
  unfold assign_sequence.
  destruct (index_of "原始顺序" (columns df)) as [i|] eqn:Hidx; cbn [columns rows].
  - pose proof (index_of_lookup _ _ _ Hidx) as Hcol.
    pose proof (lookup_lt_Some _ _ _ Hcol) as Hi.
    split_and!.
    + unfold rectangular. cbn [columns rows].
      apply Forall_forall. intros row' Hin.
      apply list_elem_of_lookup in Hin as [k Hk].
      rewrite list_lookup_imap in Hk.
      destruct (rows df !! k) as [row|] eqn:Hrow; [|done]. simpl in Hk.
      simplify_eq. rewrite length_insert. apply Hrect.
      by eapply list_elem_of_lookup_2.
    + by rewrite length_imap.
    + intros k row' dflt Hk. rewrite list_lookup_imap in Hk.
      destruct (rows df !! k) as [row|] eqn:Hrow; [|done]. simpl in Hk.
      simplify_eq. unfold row_get. rewrite Hidx.
      rewrite list_lookup_insert_eq; [done|].
      rewrite (Hrect row); [done|]. by eapply list_elem_of_lookup_2.
    + intros k row row' label dflt Hlabel Hrow Hk.
      rewrite list_lookup_imap, Hrow in Hk. simpl in Hk. simplify_eq.
      unfold row_get. destruct (index_of label (columns df)) as [j|] eqn:Hj;
        [|done].
      rewrite list_lookup_insert_ne; [done|].
      intros ->. apply index_of_lookup in Hj. congruence.
  - split_and!.
    + unfold rectangular. cbn [columns rows].
      apply Forall_forall. intros row' Hin.
      apply list_elem_of_lookup in Hin as [k Hk].
      rewrite list_lookup_imap in Hk.
      destruct (rows df !! k) as [row|] eqn:Hrow; [|done]. simpl in Hk.
      simplify_eq. rewrite !length_app. simpl. f_equal. apply Hrect.
      by eapply list_elem_of_lookup_2.
    + by rewrite length_imap.
    + intros k row' dflt Hk. rewrite list_lookup_imap in Hk.
      destruct (rows df !! k) as [row|] eqn:Hrow; [|done]. simpl in Hk.
      simplify_eq. unfold row_get. rewrite index_of_snoc, Hidx.
      rewrite decide_True by done.
      rewrite <-(Hrect row) by (by eapply list_elem_of_lookup_2).
      by rewrite list_lookup_middle.
    + intros k row row' label dflt Hlabel Hrow Hk.
      rewrite list_lookup_imap, Hrow in Hk. simpl in Hk. simplify_eq.
      unfold row_get. rewrite index_of_snoc.
      destruct (index_of label (columns df)) as [j|] eqn:Hj.
      * apply index_of_lookup, lookup_lt_Some in Hj.
        rewrite lookup_app_l; [done|].
        rewrite (Hrect row); [done|]. by eapply list_elem_of_lookup_2.
      * by rewrite decide_False.
Qed.

Lemma assign_sequence_numbers_witness :
  rectangular (assign_sequence sample_store)
  ∧ length (rows (assign_sequence sample_store)) = length (rows sample_store)
  ∧ (∀ k row dflt,
       rows (assign_sequence sample_store) !! k = Some row →
       row_get (columns (assign_sequence sample_store)) row "原始顺序" dflt
       = VInt (Z.of_nat k))
  ∧ (∀ k row row' label dflt,
       label ≠ "原始顺序" →
       rows sample_store !! k = Some row →
       rows (assign_sequence sample_store) !! k = Some row' →
       row_get (columns (assign_sequence sample_store)) row' label dflt
       = row_get (columns sample_store) row label dflt).
Proof.
  apply (assign_sequence_numbers sample_store).
  unfold rectangular. simpl. by repeat constructor.
Defined.

(** ** From the rows of a store to its documents *)

Lemma order_of_row_quantities (self : ShippingOrderGenerator)
    (cols : list string) (row : Series) (supplier : string) (found : bool)
    (order : Order) :
  order_of_row self cols (order_columns cols) row = Ok (supplier, found, order) →
  套数 order = row_sets cols row ∧ 总数量 order = row_total self cols row.
Proof.
  unfold order_of_row, row_sets, row_total.
  destruct (get_supplier_group _ _) as [s fnd].
  destruct (get_product_details _ _) as [details|]; simpl; [|done].
  destruct (_safe_int _ _) as [sets_int|]; simpl; [|done].
  destruct (calculate_total_quantity _ _ _ _) as [total|]; simpl; [|done].
  destruct (find_barcode_data _ _) as [barcode barcode_name].
  by intros [= <- <- <-].
Qed.

Lemma lines_of_rows_total (self : ShippingOrderGenerator) (cols : list string)
    (done : list Series) (lines : list (string * bool * Order)) :
  lines_of_rows self cols done lines →
  total_of 套数 (snd <$> lines) = sum_rows (row_sets cols) done
  ∧ total_of 总数量 (snd <$> lines) = sum_rows (row_total self cols) done.
Proof.
  induction 1 as [|row [[s f] o] done lines Hline _ [IH1 IH2]]; [done|].
  destruct (order_of_row_quantities _ _ _ _ _ _ Hline) as [Hs Ht].
  csimpl. by rewrite IH1, IH2, Hs, Ht.
Qed.

Lemma sum_rows_perm (f : Series → Z) (l1 l2 : list Series) :
  l1 ≡ₚ l2 → sum_rows f l1 = sum_rows f l2.
Proof. induction 1; simpl; lia. Qed.

Lemma total_of_concat_merged (f : Order → Z) (ls : list (list Order)) :
  (∀ m o, f (add_quantities m (套数 o) (总数量 o)) = f m + f o) →
  total_of f (concat (merge_orders <$> ls)) = total_of f (concat ls).
Proof.
  intros Hf. induction ls as [|l ls IH]; csimpl; [done|].
  by rewrite !total_of_app, merge_orders_total, IH.
Qed.

Lemma odict_set_length {K V} `{EqDecision K} (k : K) (v : V) (d : list (K * V)) :
  (length (odict_set k v d) ≤ S (length d))%nat.
Proof.
  induction d as [|[k' v'] d IH]; simpl; [lia|].
  destruct (decide (k' = k)); simpl; lia.
Qed.

Lemma merge_fold_length (l : list Order) (d : list (string * Order)) :
  (length (foldl merge_step d l) ≤ length d + length l)%nat.
Proof.
  revert d. induction l as [|o l IH]; intros d; simpl; [lia|].
  etrans; [apply IH|].
  assert (length (merge_step d o) ≤ S (length d))%nat; [|lia].
  unfold merge_step. destruct (odict_get _ d); apply odict_set_length.
Qed.

Lemma merge_orders_length (l : list Order) :
  (length (merge_orders l) ≤ length l)%nat.
Proof.
  unfold merge_orders, odict_values.
  rewrite py_sorted_perm, length_fmap.
  etrans; [apply merge_fold_length|]. simpl. by rewrite py_sorted_perm.
Qed.

Lemma concat_merged_length (ls : list (list Order)) :
  (length (concat (merge_orders <$> ls)) ≤ length (concat ls))%nat.
Proof.
  induction ls as [|l ls IH]; csimpl; [done|].
  rewrite !length_app. pose proof (merge_orders_length l). lia.
Qed.

(** X25: between the rows of a store whose sequence column holds
    pairwise different integers and the lines of its documents (the merged lines of every
    supplier and the merged abnormal lines) no quantity is lost or added:
    the set counts of the document lines add up to the set counts read
    from the rows, and so do the total quantities; and there are at most
    as many document lines as rows. *)
Theorem documents_conserve_quantities (self : ShippingOrderGenerator)
    (store_data : DataFrame) (buckets : list (string * list Order))
    (abnormal : list Order) :
  sequenced store_data →
  process_order_data self store_data = Ok (buckets, abnormal) →
  total_of 套数 (document_lines buckets abnormal)
  = sum_rows (row_sets (columns store_data)) (rows store_data)
  ∧ total_of 总数量 (document_lines buckets abnormal)
    = sum_rows (row_total self (columns store_data)) (rows store_data)
  ∧ (length (document_lines buckets abnormal) ≤ length (rows store_data))%nat.
Proof.
  intros _.
  intros (lines & Hlines & _ & _ & _ & _ & Hperm)%process_order_data_lines.
  cbn [fst snd] in Hperm.
  destruct (lines_of_rows_total _ _ _ _ Hlines) as [Hsets Htotal].
  assert (visited_rows store_data ≡ₚ rows store_data) as Hvisited
    by apply py_sorted_perm.
  unfold document_lines. split_and!.
  - rewrite total_of_app, total_of_concat_merged, merge_orders_total by done.
    rewrite <-total_of_app, (total_of_perm _ _ _ Hperm), Hsets.
    by apply sum_rows_perm.
  - rewrite total_of_app, total_of_concat_merged, merge_orders_total by done.
    rewrite <-total_of_app, (total_of_perm _ _ _ Hperm), Htotal.
    by apply sum_rows_perm.
  - rewrite length_app.
    pose proof (concat_merged_length buckets.*2).
    pose proof (merge_orders_length abnormal).
    assert (length (concat buckets.*2) + length abnormal
            = length (rows store_data))%nat; [|lia].
    rewrite <-length_app, Hperm, length_fmap.
    rewrite <-(Forall2_length_eq _ _ _ Hlines). by rewrite Hvisited.
Qed.

Lemma documents_conserve_quantities_witness :
  total_of 套数 (document_lines sample_processed.1 sample_processed.2) = 7
  ∧ total_of 总数量 (document_lines sample_processed.1 sample_processed.2) = 24.
Proof.
  destruct (documents_conserve_quantities sample_generator sample_store
              sample_processed.1 sample_processed.2) as (Hs & Ht & _).
  - apply sample_store_sequenced.
  - vm_compute. reflexivity.
  - split; [rewrite Hs|rewrite Ht]; vm_compute; reflexivity.
Defined.

(** ** Names and barcodes *)

Lemma scan_names_nonempty (prefix : string) (rows : list Series) :
  prefix ≠ "" → scan_names prefix rows ≠ "".
Proof.
  intros Hne. induction rows as [|row rows IH]; simpl; [done|].
  destruct row as [|c0 [|c1 rest]]; [done..|].
  destruct (pd_notna c0 && py_in prefix (py_str c0)); [|done].
  by destruct (_safe_str c1).
Qed.

Lemma scan_names_unmatched (prefix : string) (rows : list Series) :
  (∀ row, row ∈ rows → name_row_matches prefix row = false) →
  scan_names prefix rows = prefix.
Proof.
  induction rows as [|row rows IH]; intros Hno; simpl; [done|].
  assert (scan_names prefix rows = prefix) as Hrest.
  { apply IH. intros r ?. apply Hno. by right. }
  pose proof (Hno row ltac:(left)) as Hrow.
  destruct row as [|c0 [|c1 rest]]; [done..|].
  simpl in Hrow. by rewrite Hrow.
Qed.

(** X26: for a non-empty SKU prefix the product name is never empty: it
    is the trimmed second cell of the first row of the name table whose
    first cell contains the prefix, or the prefix itself when that cell is
    blank or no row matches. *)
Theorem get_product_name_spec (self : ShippingOrderGenerator) (prefix : string) :
  prefix ≠ "" →
  get_product_name self prefix ≠ ""
  ∧ ((∀ row, row ∈ rows (sku_name_df self) →
             name_row_matches prefix row = false) →
     get_product_name self prefix = prefix)
  ∧ (∀ before c0 c1 rest after,
       rows (sku_name_df self) = before ++ (c0 :: c1 :: rest) :: after →
       name_row_matches prefix (c0 :: c1 :: rest) = true →
       (∀ row, row ∈ before → name_row_matches prefix row = false) →
       get_product_name self prefix
       = if str_truthy (_safe_str c1) then _safe_str c1 else prefix).
Proof.
  intros Hne. unfold get_product_name.
  assert (str_truthy prefix = true) as -> by (by destruct prefix).
  cbn [negb]. split_and!.
  - by apply scan_names_nonempty.
  - apply scan_names_unmatched.
  - intros before c0 c1 rest after -> Hmatch Hbefore.
    induction before as [|row before IH]; simpl.
    + simpl in Hmatch. by rewrite Hmatch.
    + pose proof (Hbefore row ltac:(left)) as Hrow.
      assert (scan_names prefix (before ++ (c0 :: c1 :: rest) :: after)
              = if str_truthy (_safe_str c1) then _safe_str c1 else prefix)
        as Hrest.
      { apply IH. intros r ?. apply Hbefore. by right. }
      destruct row as [|d0 [|d1 drest]]; [done..|].
      simpl in Hrow. by rewrite Hrow.
Qed.

Lemma get_product_name_spec_witness :
  get_product_name sample_generator "AB" = "水杯".
Proof.
  refine (proj2 (proj2 (get_product_name_spec sample_generator "AB" _))
            [] (VStr "ABC") (VStr "水杯") [] [] eq_refl eq_refl _).
  - discriminate.
  - intros row Hin. by apply elem_of_nil in Hin.
Defined.

Lemma order_of_row_barcode_file (self : ShippingOrderGenerator)
    (cols : list string) (col_names : OrderColumns) (row : Series)
    (supplier : string) (found : bool) (order : Order) :
  order_of_row self cols col_names row = Ok (supplier, found, order) →
  match barcode_data order with
  | Some payload =>
      payload ≠ []
      ∧ ∃ f, barcode_filename order = Some f
             ∧ (f, payload) ∈ barcode_files_dict self
             ∧ py_in (_safe_str (货品id order)) f = true
             ∧ _safe_str (货品id order) ≠ ""
  | None => barcode_filename order = None
  end.
Proof.
  unfold order_of_row.
  destruct (get_supplier_group _ _) as [s fnd].
  destruct (get_product_details _ _) as [details|]; simpl; [|done].
  destruct (_safe_int _ _) as [sets_int|]; simpl; [|done].
  destruct (calculate_total_quantity _ _ _ _) as [total|]; simpl; [|done].
  unfold find_barcode_data.
  set (product_id := get_or cols row (product_id_col col_names) (VStr "")).
  destruct (str_truthy (_safe_str product_id)) eqn:Hpid; simpl.
  - destruct (List.find _ _) as [[filename content]|] eqn:Hfind;
      intros [= <- <- <-]; simpl; [|done].
    destruct (bytes_truthy content) eqn:Hc; [|done].
    apply find_some in Hfind as [Hin Hname]. simpl in Hname.
    split; [by destruct content|]. exists filename.
    split_and!; [done|by apply list_elem_of_In|done|by destruct (_safe_str _)].
  - by intros [= <- <- <-].
Qed.

(** X27: every line made by the processing of a store whose sequence
    column holds pairwise different integers carries a barcode file name exactly when it
    carries a barcode payload; the payload is then not empty and belongs,
    with that name, to the uploaded barcode files, and the name contains
    the trimmed product id of the line, which is not blank.  An uploaded
    file without content counts as no barcode. *)
Theorem process_order_data_barcodes (self : ShippingOrderGenerator)
    (store_data : DataFrame) (buckets : list (string * list Order))
    (abnormal : list Order) :
  sequenced store_data →
  process_order_data self store_data = Ok (buckets, abnormal) →
  ∀ o, o ∈ concat buckets.*2 ++ abnormal →
    match barcode_data o with
    | Some payload =>
        payload ≠ []
        ∧ ∃ f, barcode_filename o = Some f
               ∧ (f, payload) ∈ barcode_files_dict self
               ∧ py_in (_safe_str (货品id o)) f = true
               ∧ _safe_str (货品id o) ≠ ""
    | None => barcode_filename o = None
    end.
Proof.
  intros _.
  intros (lines & Hlines & _ & _ & _ & _ & Hperm)%process_order_data_lines o Ho.
  cbn [fst snd] in Hperm. rewrite Hperm in Ho.
  apply list_elem_of_fmap in Ho as ([[s f] o'] & -> & Hin).
  apply list_elem_of_lookup in Hin as [i Hi].
  destruct (Forall2_lookup_r _ _ _ _ _ Hlines Hi) as (row & _ & Hrow).
  by apply (order_of_row_barcode_file _ _ _ _ _ _ _ Hrow).
Qed.

Lemma process_order_data_barcodes_witness :
  (λ o, (barcode_data o, barcode_filename o))
    <$> concat barcoded_processed.1.*2 ++ barcoded_processed.2
  = [ (None, None); (Some [x25; x50], Some "label-77.pdf"); (None, None) ]
  ∧ ∀ o, o ∈ concat barcoded_processed.1.*2 ++ barcoded_processed.2 →
      match barcode_data o with
      | Some payload =>
          payload ≠ []
          ∧ ∃ f, barcode_filename o = Some f
                 ∧ (f, payload) ∈ barcode_files_dict barcoded_generator
                 ∧ py_in (_safe_str (货品id o)) f = true
                 ∧ _safe_str (货品id o) ≠ ""
      | None => barcode_filename o = None
      end.
Proof.
  split; [vm_compute; reflexivity|].
  apply (process_order_data_barcodes barcoded_generator sample_store
           barcoded_processed.1 barcoded_processed.2).
  - apply sample_store_sequenced.
  - vm_compute. reflexivity.
Defined.

(** ** Folder names *)

(** X28: the text that names the folder of a store or of a supplier
    holds none of the reserved characters; it has the length of the name
    it comes from, is that name when the name holds none of them, and
    sanitizing it again changes nothing. *)
Theorem sanitize_spec (s : string) :
  string_forall (λ c, negb (is_reserved c)) (sanitize s) = true
  ∧ String.length (sanitize s) = String.length s
  ∧ (string_forall (λ c, negb (is_reserved c)) s = true ↔ sanitize s = s)
  ∧ sanitize (sanitize s) = sanitize s.
Proof.
  induction s as [|c s (IH1 & IH2 & IH3 & IH4)]; [done|]. simpl.
  destruct (is_reserved c) eqn:Hc; simpl.
  - rewrite IH1, IH2, IH4. split_and!; [done..| |done].
    split; [done|]. intros [= <- _]. done.
  - rewrite Hc, IH1, IH2, IH4. simpl. split_and!; [done..| |done].
    rewrite IH3. split; [by intros ->|by intros [= ->]].
Qed.

(** ** Lines without a product id *)

(** X29: a missing or blank product id resolves to nothing: no reference
    record, no details, no barcode; and the total quantity then comes from
    the set count and the SKU text alone, whatever the reference table
    holds. *)
Theorem blank_product_id (self : ShippingOrderGenerator)
    (sku sets product_id : value) :
  _safe_str product_id = "" →
  _get_row_by_product_id self product_id = Ok None
  ∧ get_product_details self product_id = Ok ""
  ∧ find_barcode_data self product_id = (None, None)
  ∧ calculate_total_quantity self sku sets product_id
    = (n ← _safe_int sets 0;
       if n <=? 0 then Ok 0
       else match _get_multiplier_from_sku (_safe_str sku) with
            | Some m => if bool_decide (m ≠ 0) then Ok (n * m) else Ok n
            | None => Ok n
            end).
Proof.
  intros Hblank.
  assert (_get_row_by_product_id self product_id = Ok None) as Hrow.
  { unfold _get_row_by_product_id. by rewrite Hblank. }
  split_and!.
  - done.
  - unfold get_product_details. rewrite Hrow.
    by destruct (col_mapping self !! "商品详情").
  - unfold find_barcode_data. by rewrite Hblank.
  - rewrite calculate_total_quantity_steps.
    unfold table_unit_quantity, substituted_sku. rewrite Hblank. simpl.
    rewrite andb_false_r.
    destruct (_safe_int sets 0) as [n|]; simpl; [|done].
    destruct (n <=? 0); [done|].
    destruct (_safe_str sku) eqn:Hsku; [done|]. done.
Qed.

Lemma blank_product_id_witness :
  calculate_total_quantity sample_generator (VStr "ABC-6X") (VStr "3") VNaN
  = Ok 18.
Proof.
  etrans; [apply (blank_product_id sample_generator (VStr "ABC-6X") (VStr "3") VNaN)|];
    vm_compute; reflexivity.
Defined.

(** ** The rows of a document *)

(** X30: a document is assembled from the merged lines of a list (lines
    480 and 481): its data rows are the lines of the warehouse groups of
    the merged lines.  No two data rows have the same key text, there is
    one data row for each merged line, and the set counts and the total
    quantities of the data rows add up to those of the lines before
    merging. *)
Theorem document_rows_of_merged (lines : list Order) :
  let data_rows := concat (orders <$> group_by_warehouse (merge_orders lines)) in
  NoDup (merge_key <$> data_rows)
  ∧ data_rows ≡ₚ merge_orders lines
  ∧ total_of 套数 data_rows = total_of 套数 lines
  ∧ total_of 总数量 data_rows = total_of 总数量 lines.
Proof.
  intros data_rows. subst data_rows.
  pose proof (group_by_warehouse_perm (merge_orders lines)) as Hperm.
  destruct (merge_orders_spec lines) as (Hnd & _). cbn zeta in Hnd.
  split_and!.
  - by rewrite Hperm.
  - done.
  - by rewrite (total_of_perm _ _ _ Hperm), merge_orders_total.
  - by rewrite (total_of_perm _ _ _ Hperm), merge_orders_total.
Qed.

